(** * Utility scripts of elastic-package: a shallow embedding

    Three Python scripts are embedded here:
    - [scripts/fetch_phoenix_traces.py]   (module [Phoenix]),
    - [scripts/list_benchmark_packages.py] (module [Rally]),
    - [test/packages/parallel/system/script.py] (module [XRef]).

    Python values that travel through the scripts are JSON-shaped, so one
    inductive type [json] stands for them.  A Python [dict] keeps insertion
    order and overwrites in place; it is an association list handled through
    [dict_get] and [dict_set].  A raised exception is the [Raise] branch of the
    result type [py]. *)

From Stdlib Require Import String Ascii List ZArith Lia Bool Arith.
From Stdlib Require DecimalFacts DecimalPos DecimalZ.
From Stdlib Require Import DecimalString.
Import ListNotations.
Set Warnings "-register-all".
Local Open Scope list_scope.
Local Open Scope string_scope.

(* ------------------------------------------------------------------ *)
(** ** Python values and exceptions *)

Module Py.

(** A Python [str] is a sequence of code points; the model covers the code
    points below 256, one [ascii] each.  A Python [float] is identified by its
    [repr] text (the shortest text that reads back to the same float), since
    the scripts never compute with floats and only pass them on. *)
Inductive json : Type :=
| JNull
| JBool (b : bool)
| JInt (n : Z)
| JFloat (repr : string)
| JStr (s : string)
| JArr (items : list json)
| JObj (members : list (string * json)).

(** The exceptions the scripts can meet. *)
Inductive exn : Type :=
| KeyError (key : string)
| AttributeError
| TypeError
| IndexError
| HTTPError (status : Z)
| JSONDecodeError
| GraphQLErrors (errors : json)
| OSError.

Inductive py (A : Type) : Type :=
| Ret (a : A)
| Raise (e : exn).
Arguments Ret {A} a.
Arguments Raise {A} e.

Definition bind {A B} (m : py A) (k : A -> py B) : py B :=
  match m with
  | Ret a => k a
  | Raise e => Raise e
  end.

Notation "x <- m ;; k" := (bind m (fun x => k))
  (at level 61, m at next level, right associativity).

(** [for x in xs: acc = body(acc, x)], stopping at the first exception. *)
Fixpoint for_each {A S} (xs : list A) (body : S -> A -> py S) (acc : S) : py S :=
  match xs with
  | [] => Ret acc
  | x :: rest => acc' <- body acc x ;; for_each rest body acc'
  end.

(** *** Insertion-ordered dictionaries *)

Definition dict (V : Type) := list (string * V).

Fixpoint dict_get {V} (d : dict V) (k : string) : option V :=
  match d with
  | [] => None
  | (k', v) :: rest => if String.eqb k k' then Some v else dict_get rest k
  end.

(** [d[k] = v]: a key already present keeps its position. *)
Fixpoint dict_set {V} (d : dict V) (k : string) (v : V) : dict V :=
  match d with
  | [] => [(k, v)]
  | (k', v') :: rest =>
      if String.eqb k k' then (k', v) :: rest else (k', v') :: dict_set rest k v
  end.

Definition dict_mem {V} (d : dict V) (k : string) : bool :=
  match dict_get d k with Some _ => true | None => false end.

Definition dict_keys {V} (d : dict V) : list string := map fst d.

(** *** Is a value the string [k]?  ([x == k], for [k in list]) *)

Definition is_string (k : string) (v : json) : bool :=
  match v with
  | JStr s => String.eqb k s
  | _ => false
  end.

(** *** The operations of Python used by the scripts *)

(** Truth value of an object, as [if x:] and [not x] test it. *)
Definition truthy (v : json) : bool :=
  match v with
  | JNull => false
  | JBool b => b
  | JInt n => negb (Z.eqb n 0)
  | JFloat r => negb (String.eqb r "0.0" || String.eqb r "-0.0")
  | JStr s => negb (String.eqb s "")
  | JArr l => match l with [] => false | _ => true end
  | JObj m => match m with [] => false | _ => true end
  end.

(** [v[k]] with a string key. *)
Definition subscript (v : json) (k : string) : py json :=
  match v with
  | JObj m => match dict_get m k with
              | Some x => Ret x
              | None => Raise (KeyError k)
              end
  | _ => Raise TypeError
  end.

(** [v.get(k, default)]; only a dict has the method. *)
Definition get_default (v : json) (k : string) (default : json) : py json :=
  match v with
  | JObj m => match dict_get m k with
              | Some x => Ret x
              | None => Ret default
              end
  | _ => Raise AttributeError
  end.

(** [v.get(k)], whose default is [None]. *)
Definition get (v : json) (k : string) : py json := get_default v k JNull.

Fixpoint chars (s : string) : list json :=
  match s with
  | EmptyString => []
  | String c rest => JStr (String c EmptyString) :: chars rest
  end.

(** What [for x in v] runs over: the items of a list, the keys of a dict,
    the characters of a string. *)
Definition iterate (v : json) : py (list json) :=
  match v with
  | JArr l => Ret l
  | JObj m => Ret (map JStr (dict_keys m))
  | JStr s => Ret (chars s)
  | _ => Raise TypeError
  end.

Fixpoint is_prefix (p s : string) : bool :=
  match p, s with
  | EmptyString, _ => true
  | String a p', String b s' => Ascii.eqb a b && is_prefix p' s'
  | String _ _, EmptyString => false
  end.

Fixpoint is_substring (p s : string) : bool :=
  is_prefix p s ||
  match s with
  | EmptyString => false
  | String _ s' => is_substring p s'
  end.

(** [k in v] for a string [k]. *)
Definition contains (v : json) (k : string) : py bool :=
  match v with
  | JObj m => Ret (dict_mem m k)
  | JArr l => Ret (existsb (is_string k) l)
  | JStr s => Ret (is_substring k s)
  | _ => Raise TypeError
  end.

Definition isinstance_str (v : json) : bool :=
  match v with JStr _ => true | _ => false end.

(** *** Printing

    A script that prints is a function of the lines printed so far; what was
    printed before an exception stays printed. *)

Definition io (A : Type) : Type := list string -> list string * py A.

Definition io_ret {A} (a : A) : io A := fun out => (out, Ret a).

Definition io_bind {A B} (m : io A) (k : A -> io B) : io B :=
  fun out =>
    match m out with
    | (out', Ret a) => k a out'
    | (out', Raise e) => (out', Raise e)
    end.

Notation "x <<- m ;; k" := (io_bind m (fun x => k))
  (at level 61, m at next level, right associativity).

(** [print(line)] *)
Definition print (line : string) : io unit :=
  fun out => ((out ++ [line])%list, Ret tt).

Definition lift {A} (m : py A) : io A := fun out => (out, m).

(** [for x in xs: body(x)] *)
Fixpoint for_io {A} (xs : list A) (body : A -> io unit) : io unit :=
  match xs with
  | [] => io_ret tt
  | x :: rest => _ <<- body x ;; for_io rest body
  end.

(** [len(v)] *)
Definition len (v : json) : py Z :=
  match v with
  | JArr l => Ret (Z.of_nat (List.length l))
  | JObj m => Ret (Z.of_nat (List.length m))
  | JStr s => Ret (Z.of_nat (String.length s))
  | _ => Raise TypeError
  end.

End Py.
Import Py.

(* ------------------------------------------------------------------ *)
(** ** The [json] module and [repr] of the Python standard library

    A model of what the scripts call: [json.dumps(v, indent=2)],
    [json.loads(s)], [repr] and [str].  [loads] reads what the library
    reads: JSON, with integers of any size, floats rounded to binary64 and
    the three constants [NaN], [Infinity] and [-Infinity] that the library
    accepts beyond JSON.  A text is a string of code points below 256, and
    so is every string read from it: a [\u] escape of a code point from 256
    on has no value here, and [loads] answers [None] on it as on a text the
    library rejects.  Nothing below is stated of such a text through
    [loads]. *)

Module Json.

Definition string_of_Z (n : Z) : string := NilZero.string_of_int (Z.to_int n).

Definition code (c : ascii) : N := N_of_ascii c.

Definition hex_digit (n : N) : ascii :=
  ascii_of_N (if (n <? 10)%N then 48 + n else 87 + n).

(** *** [repr] and [str] *)

Fixpoint has_char (c : ascii) (s : string) : bool :=
  match s with
  | EmptyString => false
  | String d rest => Ascii.eqb c d || has_char c rest
  end.

Definition repr_quote (s : string) : ascii :=
  if has_char "'" s && negb (has_char "034" s) then "034"%char else "'"%char.

Definition printable (c : ascii) : bool :=
  let n := code c in
  ((32 <=? n) && (n <? 127) || (161 <=? n) && negb (n =? 173))%N.

Definition repr_char (quote c : ascii) : string :=
  if Ascii.eqb c quote || Ascii.eqb c "\" then String "\" (String c "")
  else if (code c =? 9)%N then "\t"
  else if (code c =? 10)%N then "\n"
  else if (code c =? 13)%N then "\r"
  else if printable c then String c ""
  else String "\" (String "x" (String (hex_digit (code c / 16))
                                (String (hex_digit (code c mod 16)) ""))).

Fixpoint repr_chars (quote : ascii) (s : string) : string :=
  match s with
  | EmptyString => ""
  | String c rest => repr_char quote c ++ repr_chars quote rest
  end.

Definition repr_str (s : string) : string :=
  let q := repr_quote s in
  String q (repr_chars q s ++ String q "").

Fixpoint join (sep : string) (parts : list string) : string :=
  match parts with
  | [] => ""
  | [p] => p
  | p :: rest => p ++ sep ++ join sep rest
  end.

Fixpoint repr (v : json) : string :=
  match v with
  | JNull => "None"
  | JBool true => "True"
  | JBool false => "False"
  | JInt n => string_of_Z n
  | JFloat r => r
  | JStr s => repr_str s
  | JArr l => "[" ++ join ", " (map repr l) ++ "]"
  | JObj m =>
      "{" ++ join ", " (map (fun kv => repr_str (fst kv) ++ ": " ++ repr (snd kv)) m)
          ++ "}"
  end.

Definition str (v : json) : string :=
  match v with
  | JStr s => s
  | _ => repr v
  end.

(** *** [json.dumps(v, indent=2)] *)

Definition escape_char (c : ascii) : string :=
  let n := code c in
  if (n =? 34)%N then String "\" (String "034" "")
  else if (n =? 92)%N then "\\"
  else if (n =? 10)%N then "\n"
  else if (n =? 13)%N then "\r"
  else if (n =? 9)%N then "\t"
  else if (n =? 8)%N then "\b"
  else if (n =? 12)%N then "\f"
  else if ((32 <=? n) && (n <=? 126))%N then String c ""
  else String "\" (String "u" (String "0" (String "0"
         (String (hex_digit (n / 16)) (String (hex_digit (n mod 16)) ""))))).

Fixpoint escape (s : string) : string :=
  match s with
  | EmptyString => ""
  | String c rest => escape_char c ++ escape rest
  end.

Definition encode_string (s : string) : string :=
  String "034" (escape s ++ String "034" "").

Definition float_text (r : string) : string :=
  if String.eqb r "nan" then "NaN"
  else if String.eqb r "inf" then "Infinity"
  else if String.eqb r "-inf" then "-Infinity"
  else r.

Fixpoint spaces (n : nat) : string :=
  match n with
  | O => ""
  | S k => String " " (spaces k)
  end.

(** A line break followed by the indentation of nesting level [lvl]. *)
Definition newline_indent (lvl : nat) : string :=
  String "010" (spaces (2 * lvl)).

Fixpoint encode (lvl : nat) (v : json) {struct v} : string :=
  match v with
  | JNull => "null"
  | JBool true => "true"
  | JBool false => "false"
  | JInt n => string_of_Z n
  | JFloat r => float_text r
  | JStr s => encode_string s
  | JArr [] => "[]"
  | JArr (x :: xs) =>
      "[" ++ newline_indent (S lvl) ++ encode (S lvl) x
          ++ (fix items (l : list json) : string :=
                match l with
                | [] => ""
                | y :: ys => "," ++ newline_indent (S lvl) ++ encode (S lvl) y
                                 ++ items ys
                end) xs
          ++ newline_indent lvl ++ "]"
  | JObj [] => "{}"
  | JObj ((k, x) :: xs) =>
      "{" ++ newline_indent (S lvl) ++ encode_string k ++ ": " ++ encode (S lvl) x
          ++ (fix members (l : list (string * json)) : string :=
                match l with
                | [] => ""
                | (k', y) :: ys =>
                    "," ++ newline_indent (S lvl) ++ encode_string k' ++ ": "
                        ++ encode (S lvl) y ++ members ys
                end) xs
          ++ newline_indent lvl ++ "}"
  end.

Definition dumps (v : json) : string := encode 0 v.

(** The items of a list after the first, and the members of a dict after the
    first, as [encode] writes them. *)
Fixpoint encode_items (lvl : nat) (l : list json) : string :=
  match l with
  | [] => ""
  | y :: ys => "," ++ newline_indent (S lvl) ++ encode (S lvl) y
                   ++ encode_items lvl ys
  end.

Fixpoint encode_members (lvl : nat) (l : list (string * json)) : string :=
  match l with
  | [] => ""
  | (k, y) :: ys =>
      "," ++ newline_indent (S lvl) ++ encode_string k ++ ": "
          ++ encode (S lvl) y ++ encode_members lvl ys
  end.

(** *** [json.loads(s)] *)

Definition is_ws (c : ascii) : bool :=
  let n := code c in ((n =? 32) || (n =? 9) || (n =? 10) || (n =? 13))%N.

Fixpoint skip_ws (s : string) : string :=
  match s with
  | EmptyString => s
  | String c rest => if is_ws c then skip_ws rest else s
  end.

Definition hex_value (c : ascii) : option N :=
  let n := code c in
  if ((48 <=? n) && (n <=? 57))%N then Some (n - 48)%N
  else if ((97 <=? n) && (n <=? 102))%N then Some (n - 87)%N
  else if ((65 <=? n) && (n <=? 70))%N then Some (n - 55)%N
  else None.

(** The code point of a [\u] escape with four hex digits; those from 256 on
    have no value among the code points of a [string]. *)
Definition hex4 (a b c d : ascii) : option ascii :=
  match hex_value a, hex_value b, hex_value c, hex_value d with
  | Some x, Some y, Some z, Some w =>
      let n := (((x * 16 + y) * 16 + z) * 16 + w)%N in
      if (n <? 256)%N then Some (ascii_of_N n) else None
  | _, _, _, _ => None
  end.

Definition unescape (e : ascii) : option ascii :=
  let n := code e in
  if (n =? 34)%N then Some "034"%char
  else if (n =? 92)%N then Some "\"%char
  else if (n =? 47)%N then Some "/"%char
  else if (n =? 98)%N then Some "008"%char
  else if (n =? 102)%N then Some "012"%char
  else if (n =? 110)%N then Some "010"%char
  else if (n =? 114)%N then Some "013"%char
  else if (n =? 116)%N then Some "009"%char
  else None.

Definition prepend (c : ascii) (r : option (string * string))
  : option (string * string) :=
  match r with
  | Some (str, rest) => Some (String c str, rest)
  | None => None
  end.

(** The string literal whose opening quote has just been read. *)
Fixpoint scanstring (s : string) : option (string * string) :=
  match s with
  | EmptyString => None
  | String c rest =>
      if (code c =? 34)%N then Some ("", rest)
      else if (code c =? 92)%N then
        match rest with
        | EmptyString => None
        | String e rest' =>
            if (code e =? 117)%N then
              match rest' with
              | String h1 (String h2 (String h3 (String h4 r))) =>
                  match hex4 h1 h2 h3 h4 with
                  | Some ch => prepend ch (scanstring r)
                  | None => None
                  end
              | _ => None
              end
            else
              match unescape e with
              | Some ch => prepend ch (scanstring rest')
              | None => None
              end
        end
      else if (code c <? 32)%N then None
      else prepend c (scanstring rest)
  end.

Definition digit (c : ascii) : option (Decimal.uint -> Decimal.uint) :=
  let n := code c in
  if (n =? 48)%N then Some Decimal.D0
  else if (n =? 49)%N then Some Decimal.D1
  else if (n =? 50)%N then Some Decimal.D2
  else if (n =? 51)%N then Some Decimal.D3
  else if (n =? 52)%N then Some Decimal.D4
  else if (n =? 53)%N then Some Decimal.D5
  else if (n =? 54)%N then Some Decimal.D6
  else if (n =? 55)%N then Some Decimal.D7
  else if (n =? 56)%N then Some Decimal.D8
  else if (n =? 57)%N then Some Decimal.D9
  else None.

Fixpoint scan_digits (s : string) : Decimal.uint * string :=
  match s with
  | EmptyString => (Decimal.Nil, s)
  | String c rest =>
      match digit c with
      | Some d => let (ds, r) := scan_digits rest in (d ds, r)
      | None => (Decimal.Nil, s)
      end
  end.

(** **** Number literals

    The scanner matches, at the current position, an optional minus sign and
    an integer part (a single 0, or a digit from 1 to 9 and any digits), then
    a fraction (a point and one digit or more) and an exponent (e or E, an
    optional sign, one digit or more) where they are complete.  What does
    not fit is left to the caller. *)
Record literal : Type := {
  negative : bool;
  integer : Decimal.uint;
  frac : option Decimal.uint;
  exponent : option Z
}.

Definition scan_sign (s : string) : bool * string :=
  match s with
  | String c r => if (code c =? 45)%N then (true, r) else (false, s)
  | EmptyString => (false, s)
  end.

(** The integer part *)
Definition scan_integer (s : string) : option (Decimal.uint * string) :=
  match s with
  | String c r =>
      if (code c =? 48)%N then Some (Decimal.D0 Decimal.Nil, r)
      else match scan_digits s with
           | (Decimal.Nil, _) => None
           | (ds, r') => Some (ds, r')
           end
  | EmptyString => None
  end.

(** The optional fraction *)
Definition scan_frac (s : string) : option Decimal.uint * string :=
  match s with
  | String c r =>
      if (code c =? 46)%N then
        match scan_digits r with
        | (Decimal.Nil, _) => (None, s)
        | (ds, r') => (Some ds, r')
        end
      else (None, s)
  | EmptyString => (None, s)
  end.

(** The optional exponent *)
Definition scan_exponent (s : string) : option Z * string :=
  match s with
  | String c r =>
      if ((code c =? 101) || (code c =? 69))%N then
        let (minus, r1) :=
          match r with
          | String sg r' =>
              if (code sg =? 45)%N then (true, r')
              else if (code sg =? 43)%N then (false, r')
              else (false, r)
          | EmptyString => (false, r)
          end in
        match scan_digits r1 with
        | (Decimal.Nil, _) => (None, s)
        | (ds, r2) => (Some (if minus then - Z.of_uint ds else Z.of_uint ds)%Z, r2)
        end
      else (None, s)
  | EmptyString => (None, s)
  end.

Definition scan_literal (s : string) : option (literal * string) :=
  let (neg, s1) := scan_sign s in
  match scan_integer s1 with
  | None => None
  | Some (ds, r) =>
      let (fr, r1) := scan_frac r in
      let (ex, r2) := scan_exponent r1 in
      Some ({| negative := neg; integer := ds; frac := fr; exponent := ex |}, r2)
  end.

(** **** [float(text)] and [repr] of the result

    [float] takes the binary64 number nearest to the decimal text, ties to
    the even significand; beyond the largest one it takes infinity.  A finite
    positive float is [m * 2^e] with [m < 2^53], and [2^52 <= m] unless
    [e = -1074].  Positive rationals are pairs of a numerator and a
    denominator. *)
Definition round_half_even (num den : Z) : Z :=
  let q := (num / den)%Z in
  match (2 * (num mod den) ?= den)%Z with
  | Lt => q
  | Gt => (q + 1)%Z
  | Eq => if Z.even q then q else (q + 1)%Z
  end.

(** [num / den] divided by [base ^ k] *)
Definition scaled (base : Z) (num den k : Z) : Z * Z :=
  if (0 <=? k)%Z then (num, den * base ^ k)%Z else (num * base ^ (- k), den)%Z.

(** The [e] for which [num / den] lies between [2^52 * 2^e] and
    [2^53 * 2^e], and [-1074] when that is smaller. *)
Definition binary_exponent (num den : Z) : Z :=
  let e0 := (Z.log2 num - Z.log2 den - 52)%Z in
  let (n, d) := scaled 2 num den e0 in
  Z.max (if (n <? d * 2 ^ 52)%Z then e0 - 1 else e0) (-1074).

(** The float nearest to [num / den]: its significand and exponent, [None]
    for infinity. *)
Definition nearest (num den : Z) : option (Z * Z) :=
  let e := binary_exponent num den in
  let (n, d) := scaled 2 num den e in
  let m := round_half_even n d in
  let (m', e') := if (m =? 2 ^ 53)%Z then (2 ^ 52, e + 1)%Z else (m, e) in
  if (971 <? e')%Z then None else Some (m', e').

(** The [p] with [10^p <= num / den < 10^(p+1)], found from an estimate that
    is off by one at most. *)
Definition decimal_exponent (num den : Z) : Z :=
  let p0 := (((Z.log2 num - Z.log2 den) * 30103) / 100000)%Z in
  let below (p : Z) := let (n, d) := scaled 10 num den p in (n <? d)%Z in
  if below (p0 - 1)%Z then (p0 - 2)%Z
  else if below p0 then (p0 - 1)%Z
  else if below (p0 + 1)%Z then p0
  else if below (p0 + 2)%Z then (p0 + 1)%Z
  else (p0 + 2)%Z.

Definition same_float (a b : option (Z * Z)) : bool :=
  match a, b with
  | Some (m, e), Some (m', e') => (m =? m')%Z && (e =? e')%Z
  | None, None => true
  | _, _ => false
  end.

(** Does the decimal [c * 10^k] read back as the float [x]? *)
Definition reads_back (x : option (Z * Z)) (c k : Z) : bool :=
  let (n, d) := scaled 10 c 1 (- k) in same_float (nearest n d) x.

(** [repr] takes the shortest decimal that reads back as the same float and,
    among the shortest, the one nearest to it.  [shortest] tries 1, 2, ...
    digits; with [n] digits the candidates are the two decimals next to the
    float.  The answer is [(c, k)] for the decimal [c * 10^k]. *)
Fixpoint shortest (fuel : nat) (n : Z) (m e : Z) : Z * Z :=
  let (num, den) := scaled 2 m 1 (- e) in
  let k := (decimal_exponent num den - n + 1)%Z in
  let (a, b) := scaled 10 num den k in
  let low := (a / b)%Z in
  let high := (low + 1)%Z in
  match fuel with
  | O => (round_half_even a b, k)
  | S fuel' =>
      let low_ok := reads_back (Some (m, e)) low k in
      let high_ok := reads_back (Some (m, e)) high k in
      if low_ok && high_ok then (round_half_even a b, k)
      else if low_ok then (low, k)
      else if high_ok then (high, k)
      else shortest fuel' (n + 1) m e
  end.

(** The digits without their final zeros, and the exponent raised by as
    many. *)
Fixpoint strip_zeros (fuel : nat) (c k : Z) : Z * Z :=
  match fuel with
  | O => (c, k)
  | S fuel' =>
      if (c mod 10 =? 0)%Z && negb (c =? 0)%Z
      then strip_zeros fuel' (c / 10)%Z (k + 1)%Z
      else (c, k)
  end.

Fixpoint zeros (n : nat) : string :=
  match n with
  | O => ""
  | S k => String "0" (zeros k)
  end.

(** The text of [repr] for the digits [ds] with the decimal point after the
    first [decpt] of them: exponent notation when [decpt] is below -3 or
    above 16. *)
Definition float_repr_digits (ds : string) (decpt : Z) : string :=
  let nd := Z.of_nat (String.length ds) in
  if ((decpt <=? -4) || (16 <? decpt))%Z then
    let mantissa :=
      match ds with
      | String d EmptyString => ds
      | String d rest => String d ("." ++ rest)
      | EmptyString => ds
      end in
    let ex := (decpt - 1)%Z in
    mantissa ++ "e" ++ (if (ex <? 0)%Z then "-" else "+")
             ++ (if (Z.abs ex <? 10)%Z then "0" else "")
             ++ string_of_Z (Z.abs ex)
  else if (decpt <=? 0)%Z then "0." ++ zeros (Z.to_nat (- decpt)) ++ ds
  else if (nd <=? decpt)%Z then ds ++ zeros (Z.to_nat (decpt - nd)) ++ ".0"
  else substring 0 (Z.to_nat decpt) ds ++ "."
       ++ substring (Z.to_nat decpt) (Z.to_nat (nd - decpt)) ds.

(** [repr] of the finite positive float [m * 2^e] *)
Definition float_repr (m e : Z) : string :=
  let (c0, k0) := shortest 17 1 m e in
  let (c, k) := strip_zeros 20 c0 k0 in
  let ds := string_of_Z c in
  float_repr_digits ds (k + Z.of_nat (String.length ds))%Z.

(** [repr(float(text))] for the text of [l].  A text of [nd] digits scaled by
    [10^ex] is below [10^(nd+ex)] and, unless zero, at least [10^ex]: far
    outside the range of the floats it is zero or infinity whatever its
    digits. *)
Definition float_of_literal (l : literal) : string :=
  let fr := match frac l with Some ds => ds | None => Decimal.Nil end in
  let digits := Z.of_uint (Decimal.app (integer l) fr) in
  let ex := ((match exponent l with Some x => x | None => 0 end)
             - Z.of_nat (Decimal.nb_digits fr))%Z in
  let nd := Z.of_nat (Decimal.nb_digits (integer l) + Decimal.nb_digits fr) in
  let sign := if negative l then "-" else "" in
  if (digits =? 0)%Z then sign ++ "0.0"
  else if (400 <? ex)%Z then sign ++ "inf"
  else if (nd + ex <? -400)%Z then sign ++ "0.0"
  else
    let (num, den) := scaled 10 digits 1 (- ex) in
    match nearest num den with
    | None => sign ++ "inf"
    | Some (m, e) =>
        if (m =? 0)%Z then sign ++ "0.0" else sign ++ float_repr m e
    end.

(** A number: an [int] when the text has neither fraction nor exponent. *)
Definition scan_number (s : string) : option (json * string) :=
  match scan_literal s with
  | None => None
  | Some (l, r) =>
      match frac l, exponent l with
      | None, None =>
          Some (JInt (Z.of_int (if negative l then Decimal.Neg (integer l)
                                else Decimal.Pos (integer l))), r)
      | _, _ => Some (JFloat (float_of_literal l), r)
      end
  end.

(** [s] without the prefix [word], when it starts with it. *)
Fixpoint after_prefix (word s : string) : option string :=
  match word, s with
  | EmptyString, _ => Some s
  | String a word', String b s' =>
      if Ascii.eqb a b then after_prefix word' s' else None
  | String _ _, EmptyString => None
  end.

Definition expect (word : string) (v : json) (s : string)
  : option (json * string) :=
  match after_prefix word s with
  | Some rest => Some (v, rest)
  | None => None
  end.

(** [scan_once] reads one value; [array_items] and [object_members] read what
    follows an opening bracket or brace that is not closed at once.  [fuel]
    bounds the nesting of calls. *)
Fixpoint scan_once (fuel : nat) (s : string) {struct fuel}
  : option (json * string) :=
  match fuel with
  | O => None
  | S fuel' =>
      match s with
      | EmptyString => None
      | String c rest =>
          if (code c =? 34)%N then
            match scanstring rest with
            | Some (str, r) => Some (JStr str, r)
            | None => None
            end
          else if (code c =? 123)%N then
            match skip_ws rest with
            | String c' r =>
                if (code c' =? 125)%N then Some (JObj [], r)
                else object_members fuel' (String c' r) []
            | EmptyString => None
            end
          else if (code c =? 91)%N then
            match skip_ws rest with
            | String c' r =>
                if (code c' =? 93)%N then Some (JArr [], r)
                else array_items fuel' (String c' r) []
            | EmptyString => None
            end
          else if (code c =? 110)%N then expect "null" JNull s
          else if (code c =? 116)%N then expect "true" (JBool true) s
          else if (code c =? 102)%N then expect "false" (JBool false) s
          else
            match scan_number s with
            | Some number => Some number
            | None =>
                if (code c =? 78)%N then expect "NaN" (JFloat "nan") s
                else if (code c =? 73)%N then expect "Infinity" (JFloat "inf") s
                else if (code c =? 45)%N
                     then expect "-Infinity" (JFloat "-inf") s
                     else None
            end
      end
  end

with array_items (fuel : nat) (s : string) (acc : list json) {struct fuel}
  : option (json * string) :=
  match fuel with
  | O => None
  | S fuel' =>
      match scan_once fuel' s with
      | None => None
      | Some (v, r) =>
          match skip_ws r with
          | String c r' =>
              if (code c =? 93)%N then Some (JArr (acc ++ [v])%list, r')
              else if (code c =? 44)%N
                   then array_items fuel' (skip_ws r') (acc ++ [v])%list
                   else None
          | EmptyString => None
          end
      end
  end

with object_members (fuel : nat) (s : string) (acc : dict json) {struct fuel}
  : option (json * string) :=
  match fuel with
  | O => None
  | S fuel' =>
      match s with
      | String q after_quote =>
          if (code q =? 34)%N then
            match scanstring after_quote with
            | None => None
            | Some (key, r) =>
                match skip_ws r with
                | String colon r1 =>
                    if (code colon =? 58)%N then
                      match scan_once fuel' (skip_ws r1) with
                      | None => None
                      | Some (v, r2) =>
                          match skip_ws r2 with
                          | String c r3 =>
                              if (code c =? 125)%N
                              then Some (JObj (dict_set acc key v), r3)
                              else if (code c =? 44)%N
                                   then object_members fuel' (skip_ws r3)
                                          (dict_set acc key v)
                                   else None
                          | EmptyString => None
                          end
                      end
                    else None
                | EmptyString => None
                end
            end
          else None
      | EmptyString => None
      end
  end.

(** The whole text must be one value between optional white space. *)
Definition loads (s : string) : option json :=
  match scan_once (S (String.length s)) (skip_ws s) with
  | Some (v, r) => match skip_ws r with
                   | EmptyString => Some v
                   | String _ _ => None
                   end
  | None => None
  end.

(** *** JSON texts

    The grammar of RFC 8259: a value is an object, an array, a string, a
    number, or one of the names false, null and true, between optional white
    space.  [json_string] reads a string whose opening quote has just been
    read, and [json_value] one value; each answers what is left of the
    text. *)
Fixpoint json_string (s : string) : option string :=
  match s with
  | EmptyString => None
  | String c rest =>
      if (code c =? 34)%N then Some rest
      else if (code c =? 92)%N then
        match rest with
        | EmptyString => None
        | String e rest' =>
            if (code e =? 117)%N then
              match rest' with
              | String h1 (String h2 (String h3 (String h4 r))) =>
                  match hex_value h1, hex_value h2, hex_value h3, hex_value h4 with
                  | Some _, Some _, Some _, Some _ => json_string r
                  | _, _, _, _ => None
                  end
              | _ => None
              end
            else
              match unescape e with
              | Some _ => json_string rest'
              | None => None
              end
        end
      else if (code c <? 32)%N then None
      else json_string rest
  end.

Definition json_number (s : string) : option string :=
  match scan_literal s with
  | Some (_, rest) => Some rest
  | None => None
  end.

Fixpoint json_value (fuel : nat) (s : string) {struct fuel} : option string :=
  match fuel with
  | O => None
  | S fuel' =>
      match s with
      | EmptyString => None
      | String c rest =>
          if (code c =? 34)%N then json_string rest
          else if (code c =? 123)%N then
            match skip_ws rest with
            | String c' r =>
                if (code c' =? 125)%N then Some r
                else json_members fuel' (String c' r)
            | EmptyString => None
            end
          else if (code c =? 91)%N then
            match skip_ws rest with
            | String c' r =>
                if (code c' =? 93)%N then Some r
                else json_elements fuel' (String c' r)
            | EmptyString => None
            end
          else if (code c =? 110)%N then after_prefix "null" s
          else if (code c =? 116)%N then after_prefix "true" s
          else if (code c =? 102)%N then after_prefix "false" s
          else json_number s
      end
  end

with json_elements (fuel : nat) (s : string) {struct fuel} : option string :=
  match fuel with
  | O => None
  | S fuel' =>
      match json_value fuel' s with
      | None => None
      | Some r =>
          match skip_ws r with
          | String c r' =>
              if (code c =? 93)%N then Some r'
              else if (code c =? 44)%N then json_elements fuel' (skip_ws r')
              else None
          | EmptyString => None
          end
      end
  end

with json_members (fuel : nat) (s : string) {struct fuel} : option string :=
  match fuel with
  | O => None
  | S fuel' =>
      match s with
      | String q after_quote =>
          if (code q =? 34)%N then
            match json_string after_quote with
            | None => None
            | Some r =>
                match skip_ws r with
                | String colon r1 =>
                    if (code colon =? 58)%N then
                      match json_value fuel' (skip_ws r1) with
                      | None => None
                      | Some r2 =>
                          match skip_ws r2 with
                          | String c r3 =>
                              if (code c =? 125)%N then Some r3
                              else if (code c =? 44)%N
                                   then json_members fuel' (skip_ws r3)
                                   else None
                          | EmptyString => None
                          end
                      end
                    else None
                | EmptyString => None
                end
            end
          else None
      | EmptyString => None
      end
  end.

(** Is the text valid JSON? *)
Definition is_json (s : string) : bool :=
  match json_value (S (String.length s)) (skip_ws s) with
  | Some r => match skip_ws r with
              | EmptyString => true
              | String _ _ => false
              end
  | None => false
  end.

End Json.

(* ------------------------------------------------------------------ *)
(** ** scripts/fetch_phoenix_traces.py *)

Module Phoenix.

Section Fetch.

(** [json.loads] of the standard library: [Some v] when the text is a JSON
    document with value [v], [None] when it raises [json.JSONDecodeError].
    The fetcher is embedded over any such decoder; [Json.loads] above is a
    concrete one. *)
Variable loads : string -> option json.

(** Lines 108-113. *)
Definition parse_attributes (attrs : json) : json :=
  if truthy attrs && isinstance_str attrs then
    match attrs with
    | JStr s => match loads s with
                | Some v => v
                | None => attrs
                end
    | _ => attrs
    end
  else attrs.

(** Lines 127 and 128: [span.get(k, {}).get("value") if span.get(k) else None]. *)
Definition value_of (span : json) (k : string) : py json :=
  present <- get span k ;;
  if truthy present then
    inner <- get_default span k (JObj []) ;;
    get inner "value"
  else Ret JNull.

(** Lines 106-130: one span edge to one flat span.  The dict display evaluates
    its values in the order written. *)
Definition flatten_span (span_edge : json) : py json :=
  span <- subscript span_edge "node" ;;
  attrs0 <- get span "attributes" ;;
  let attrs := parse_attributes attrs0 in
  name <- subscript span "name" ;;
  spanKind <- subscript span "spanKind" ;;
  statusCode <- subscript span "statusCode" ;;
  statusMessage <- get span "statusMessage" ;;
  startTime <- subscript span "startTime" ;;
  endTime <- subscript span "endTime" ;;
  latencyMs <- subscript span "latencyMs" ;;
  parentId <- subscript span "parentId" ;;
  tokenCountTotal <- subscript span "tokenCountTotal" ;;
  tokenCountPrompt <- subscript span "tokenCountPrompt" ;;
  tokenCountCompletion <- subscript span "tokenCountCompletion" ;;
  input <- value_of span "input" ;;
  output <- value_of span "output" ;;
  Ret (JObj [ ("name", name);
              ("spanKind", spanKind);
              ("statusCode", statusCode);
              ("statusMessage", statusMessage);
              ("startTime", startTime);
              ("endTime", endTime);
              ("latencyMs", latencyMs);
              ("parentId", parentId);
              ("tokenCountTotal", tokenCountTotal);
              ("tokenCountPrompt", tokenCountPrompt);
              ("tokenCountCompletion", tokenCountCompletion);
              ("input", input);
              ("output", output);
              ("attributes", attrs) ]).

(** [container.get(field, {}).get("edges", [])], lines 95 and 105. *)
Definition edges_of (container : json) (field : string) : py (list json) :=
  conn <- get_default container field (JObj []) ;;
  edges <- get_default conn "edges" (JArr []) ;;
  iterate edges.

(** Lines 96-133: one trace edge to one flat trace; the spans are appended one
    by one to the list under ["spans"]. *)
Definition flatten_trace (trace_edge : json) : py json :=
  trace <- subscript trace_edge "node" ;;
  traceId <- subscript trace "traceId" ;;
  startTime <- subscript trace "startTime" ;;
  endTime <- subscript trace "endTime" ;;
  latencyMs <- subscript trace "latencyMs" ;;
  span_edges <- edges_of trace "spans" ;;
  spans <- for_each span_edges
             (fun acc span_edge =>
                span_data <- flatten_span span_edge ;;
                Ret (acc ++ [span_data])%list)
             [] ;;
  Ret (JObj [ ("traceId", traceId);
              ("startTime", startTime);
              ("endTime", endTime);
              ("latencyMs", latencyMs);
              ("spans", JArr spans) ]).

(** Lines 79-135, on the parsed payload [data].  [None] is Python's [None],
    the "no such session" answer. *)
Definition fetch_traces_payload (data : json) : py (option json) :=
  has_errors <- contains data "errors" ;;
  if has_errors then
    errors <- subscript data "errors" ;;
    Raise (GraphQLErrors errors)
  else
    payload <- get_default data "data" (JObj []) ;;
    session_data <- get payload "getProjectSessionById" ;;
    if negb (truthy session_data) then Ret None
    else
      sessionId <- subscript session_data "sessionId" ;;
      numTraces <- subscript session_data "numTraces" ;;
      startTime <- subscript session_data "startTime" ;;
      endTime <- subscript session_data "endTime" ;;
      trace_edges <- edges_of session_data "traces" ;;
      traces <- for_each trace_edges
                  (fun acc trace_edge =>
                     trace_data <- flatten_trace trace_edge ;;
                     Ret (acc ++ [trace_data])%list)
                  [] ;;
      Ret (Some (JObj [ ("sessionId", sessionId);
                        ("numTraces", numTraces);
                        ("startTime", startTime);
                        ("endTime", endTime);
                        ("traces", JArr traces) ])).

(** What [requests.post] hands back: the status line and the body, the latter
    already decoded ([None] when [response.json()] cannot decode it). *)
Record response : Type := {
  status_code : Z;
  body_json : option json
}.

(** [response.raise_for_status()]: 4xx and 5xx raise. *)
Definition raise_for_status (r : response) : py unit :=
  if (400 <=? status_code r)%Z && (status_code r <? 600)%Z
  then Raise (HTTPError (status_code r))
  else Ret tt.

(** Lines 70-135; the one request is the function [post] from URL and
    session id to response. *)
Definition fetch_traces (post : string -> string -> response)
    (session_id base_url : string) : py (option json) :=
  let graphql_url := base_url ++ "/graphql" in
  let r := post graphql_url session_id in
  _ <- raise_for_status r ;;
  data <- match body_json r with
          | Some d => Ret d
          | None => Raise JSONDecodeError
          end ;;
  fetch_traces_payload data.

(** The command line after [argparse]: [--base-url] already carries its
    default (the environment variable or the local address). *)
Record args : Type := {
  session_id : string;
  output : option string;
  base_url : string
}.

(** What becomes of writing a text to a path. *)
Inductive write_outcome : Type :=
| Stored
| Failed (e : exn) (remains : option string).

(** What a run leaves behind.  [uncaught] is an exception that left [main]:
    the interpreter then ends the process with code 1 (the traceback it
    prints is not part of [stderr] here). *)
Record process : Type := {
  stderr : list string;
  stdout : list string;
  written : list (string * string);
  exit_code : Z;
  uncaught : option exn
}.

Variable post : string -> string -> response.

(** [str(e)] of a caught exception, as the raising library words it. *)
Variable exn_text : exn -> string.

(** Lines 179 and 180, [with open(path, "w") as f: f.write(text)], under the
    file system of the run: the text is stored at the path, or [open] or
    [write] raises (a directory that does not exist, a path that is a
    directory, no permission, a full disk) and [remains] is what the attempt
    itself has put at the path: nothing, or a file with part of the text. *)
Variable write_file : string -> string -> write_outcome.

(** Lines 172-176: the span total, the summary line and the document. *)
Definition summarise (result : json) : py (string * string) :=
  traces <- subscript result "traces" ;;
  ts <- iterate traces ;;
  total_spans <- for_each ts
                   (fun acc t =>
                      spans <- subscript t "spans" ;;
                      n <- len spans ;;
                      Ret (acc + n)%Z)
                   0%Z ;;
  numTraces <- subscript result "numTraces" ;;
  Ret ("Found " ++ Json.str numTraces ++ " trace(s) with "
         ++ Json.string_of_Z total_spans ++ " span(s)",
       Json.dumps result).

(** Lines 159-183. *)
Definition main (a : args) : process :=
  let banner := [ "Fetching traces for session: " ++ session_id a;
                  "Phoenix URL: " ++ base_url a ] in
  match fetch_traces post (session_id a) (base_url a) with
  | Raise e =>
      {| stderr := banner ++ ["Error fetching traces: " ++ exn_text e];
         stdout := []; written := []; exit_code := 1; uncaught := None |}
  | Ret r =>
      let result := match r with Some v => v | None => JNull end in
      if negb (truthy result) then
        {| stderr := banner ++ ["No session found for ID: " ++ session_id a];
           stdout := []; written := []; exit_code := 1; uncaught := None |}
      else
        match summarise result with
        | Raise e =>
            {| stderr := banner; stdout := []; written := [];
               exit_code := 1; uncaught := Some e |}
        | Ret (found, document) =>
            match output a with
            | Some path =>
                if negb (String.eqb path "") then
                  match write_file path document with
                  | Stored =>
                      {| stderr := banner ++ [found; "Traces written to: " ++ path];
                         stdout := []; written := [(path, document)];
                         exit_code := 0; uncaught := None |}
                  | Failed e remains =>
                      {| stderr := banner ++ [found]; stdout := [];
                         written := match remains with
                                    | Some text => [(path, text)]
                                    | None => []
                                    end;
                         exit_code := 1; uncaught := Some e |}
                  end
                else
                  {| stderr := banner ++ [found]; stdout := [document];
                     written := []; exit_code := 0; uncaught := None |}
            | None =>
                {| stderr := banner ++ [found]; stdout := [document];
                   written := []; exit_code := 0; uncaught := None |}
            end
        end
  end.

End Fetch.

End Phoenix.

(* ------------------------------------------------------------------ *)
(** ** scripts/list_benchmark_packages.py *)

Module Rally.

(** The directory tree found at [packages_path], as path look-ups see it,
    symbolic links resolved.
    The entries of a directory come in the order the operating system lists
    them.  A path below [packages_path] is the list of its components, which
    is what [os.path.join] makes of names that hold no separator. *)
Inductive node : Type :=
| File
| Dir (entries : list (string * node)).

Fixpoint lookup (n : node) (path : list string) : option node :=
  match path with
  | [] => Some n
  | name :: rest =>
      match n with
      | File => None
      | Dir entries =>
          match dict_get entries name with
          | Some child => lookup child rest
          | None => None
          end
      end
  end.

(** [os.path.isdir(path)] *)
Definition isdir (root : node) (path : list string) : bool :=
  match lookup root path with
  | Some (Dir _) => true
  | _ => false
  end.

Section Lister.

(** Which directories the process may list.  Looking a path up asks no such
    right of its last component, so that a directory can be seen by
    [os.path.isdir] and still refuse [os.listdir]. *)
Variable readable : list string -> bool.

(** [os.listdir(path)] *)
Definition listdir (root : node) (path : list string) : py (list string) :=
  match lookup root path with
  | Some (Dir entries) =>
      if readable path then Ret (dict_keys entries) else Raise OSError
  | _ => Raise OSError
  end.

(** Lines 9-24. *)
Definition list_benchmark_packages (root : node) : io unit :=
  packages <<- lift (listdir root []) ;;
  for_io packages (fun package_path =>
    let rally_path := [package_path; "_dev"; "benchmark"; "rally"] in
    if isdir root rally_path then
      _ <<- print ("Package: " ++ package_path) ;;
      benchmarks <<- lift (listdir root rally_path) ;;
      _ <<- for_io benchmarks (fun b =>
              if negb (isdir root (rally_path ++ [b])%list) then io_ret tt
              else print ("* " ++ b ++ "")) ;;
      print ""
    else io_ret tt).

End Lister.

End Rally.

(* ------------------------------------------------------------------ *)
(** ** test/packages/parallel/system/script.py *)

Module XRef.

(** [f.readlines()] on a file opened in text mode: every line keeps its
    line break, and the line breaks [\r\n] and [\r] are read as [\n]. *)
Fixpoint readlines (content : string) : list string :=
  match content with
  | EmptyString => []
  | String c rest =>
      if (Json.code c =? 10)%N then String "010" "" :: readlines rest
      else if (Json.code c =? 13)%N then
        match rest with
        | String c' rest' =>
            if (Json.code c' =? 10)%N then String "010" "" :: readlines rest'
            else String "010" "" :: readlines rest
        | EmptyString => [String "010" ""]
        end
      else
        match readlines rest with
        | [] => [String c ""]
        | line :: lines => String c line :: lines
        end
  end.

(** [s.split(sep)] for a separator of one character. *)
Fixpoint split (sep : ascii) (s : string) : list string :=
  match s with
  | EmptyString => [""]
  | String c rest =>
      if Ascii.eqb c sep then "" :: split sep rest
      else
        match split sep rest with
        | [] => [String c ""]
        | field :: fields => String c field :: fields
        end
  end.

(** [c.isspace()] for a code point below 256. *)
Definition isspace (c : ascii) : bool :=
  let n := Json.code c in
  ((9 <=? n) && (n <=? 13) || (28 <=? n) && (n <=? 32) || (n =? 133) || (n =? 160))%N.

Fixpoint lstrip (s : string) : string :=
  match s with
  | EmptyString => ""
  | String c rest => if isspace c then lstrip rest else s
  end.

Fixpoint rstrip (s : string) : string :=
  match s with
  | EmptyString => ""
  | String c rest =>
      let r := rstrip rest in
      if isspace c && String.eqb r "" then "" else String c r
  end.

(** [s.strip()] *)
Definition strip (s : string) : string := rstrip (lstrip s).

(** [fields[i]] *)
Definition index (fields : list string) (i : nat) : py string :=
  match nth_error fields i with
  | Some f => Ret f
  | None => Raise IndexError
  end.

(** The two mappings, [dashboards_references] and [references_dashboards]. *)
Definition tables : Type := (dict (list string) * dict (list string))%type.

(** Lines 27-31. *)
Definition add_reference (dashboard : string) (rd : dict (list string)) (r : string)
  : dict (list string) :=
  match dict_get rd r with
  | Some dashboards => dict_set rd r (dashboards ++ [dashboard])%list
  | None => dict_set rd r [dashboard]
  end.

(** Lines 20-23: the dashboard and the references a line names. *)
Definition parse_line (line : string) : py (string * list string) :=
  let fields := split ":" line in
  dashboard <- index fields 0 ;;
  field1 <- index fields 1 ;;
  Ret (dashboard, map strip (split "," field1)).

(** Lines 25-31, for a line already split. *)
Definition record_entry (t : tables) (entry : string * list string) : tables :=
  let (dashboard, references) := entry in
  (dict_set (fst t) dashboard references,
   fold_left (add_reference dashboard) references (snd t)).

(** Lines 19-31: the body of the loop over the lines. *)
Definition add_line (t : tables) (line : string) : py tables :=
  entry <- parse_line line ;;
  Ret (record_entry t entry).

Definition build (lines : list string) : py tables :=
  for_each lines add_line ([], []).

Record args : Type := {
  reference : option string;
  dashboard : option string;
  all_dashboards : bool
}.

(** [if args.x:] for an optional string argument. *)
Definition given (a : option string) : option string :=
  match a with
  | Some s => if String.eqb s "" then None else Some s
  | None => None
  end.

Definition lookup_key (d : dict (list string)) (k : string) : py (list string) :=
  match dict_get d k with
  | Some v => Ret v
  | None => Raise (KeyError k)
  end.

(** [print(l)] for a list of strings prints its [repr]. *)
Definition repr_list (l : list string) : string := Json.repr (JArr (map JStr l)).

(** [print(f" - {ref}: {number}")], lines 39-40 and 48-49. *)
Definition print_count (t : tables) (ref : string) : io unit :=
  dashboards <<- lift (lookup_key (snd t) ref) ;;
  let number := Z.of_nat (List.length dashboards) in
  print (" - " ++ ref ++ ": " ++ Json.string_of_Z number).

(** Lines 33-50. *)
Definition report (a : args) (t : tables) : io unit :=
  _ <<- match given (reference a) with
        | Some r =>
            dashboards <<- lift (lookup_key (snd t) r) ;;
            print (repr_list dashboards)
        | None => io_ret tt
        end ;;
  _ <<- match given (dashboard a) with
        | Some d =>
            references <<- lift (lookup_key (fst t) d) ;;
            _ <<- print (repr_list references) ;;
            for_io references (print_count t)
        | None => io_ret tt
        end ;;
  _ <<- print "" ;;
  if all_dashboards a then
    for_io (dict_keys (fst t)) (fun d =>
      _ <<- print ("Dashboard " ++ d ++ ":") ;;
      references <<- lift (lookup_key (fst t) d) ;;
      _ <<- for_io references (print_count t) ;;
      print "")
  else io_ret tt.

(** The whole script on the text of the [--list] file. *)
Definition script (a : args) (content : string) : io unit :=
  t <<- lift (build (readlines content)) ;;
  report a t.

End XRef.

(* ------------------------------------------------------------------ *)
(** ** The shape of a well-formed GraphQL response

    The response the fixed query asks for: every field the query names is
    present (possibly [null]); [input] and [output] are [null] or objects;
    a connection is an object with a list under ["edges"]. *)

Module Shape.

Definition is_obj (v : json) : bool :=
  match v with JObj _ => true | _ => false end.

Definition has_keys (v : json) (keys : list string) : bool :=
  match v with
  | JObj m => forallb (dict_mem m) keys
  | _ => false
  end.

Definition field (v : json) (k : string) : option json :=
  match v with
  | JObj m => dict_get m k
  | _ => None
  end.

(** The edges of the connection [container.field]; a missing connection or
    a missing ["edges"] counts as no edge. *)
Definition edges (container : json) (k : string) : option (list json) :=
  match container with
  | JObj m =>
      match dict_get m k with
      | None => Some []
      | Some (JObj c) =>
          match dict_get c "edges" with
          | None => Some []
          | Some (JArr l) => Some l
          | Some _ => None
          end
      | Some _ => None
      end
  | _ => None
  end.

(** The fields the fetcher reads with [span[...]]. *)
Definition span_core_keys : list string :=
  ["name"; "spanKind"; "statusCode"; "startTime"; "endTime"; "latencyMs"; "parentId"].

Definition token_keys : list string :=
  ["tokenCountTotal"; "tokenCountPrompt"; "tokenCountCompletion"].

Definition trace_keys : list string :=
  ["traceId"; "startTime"; "endTime"; "latencyMs"].

Definition session_keys : list string :=
  ["sessionId"; "numTraces"; "startTime"; "endTime"].

(** The keys of a flattened span, in order. *)
Definition flat_span_keys : list string :=
  ["name"; "spanKind"; "statusCode"; "statusMessage"; "startTime"; "endTime";
   "latencyMs"; "parentId"; "tokenCountTotal"; "tokenCountPrompt";
   "tokenCountCompletion"; "input"; "output"; "attributes"].

(** [input] and [output]: absent, falsy, or an object. *)
Definition value_field_ok (span : json) (k : string) : bool :=
  match field span k with
  | None => true
  | Some v => negb (truthy v) || is_obj v
  end.

(** A span node whose fields other than the token counts are in place. *)
Definition span_core_ok (span : json) : bool :=
  has_keys span span_core_keys
  && value_field_ok span "input" && value_field_ok span "output".

Definition span_ok (span : json) : bool :=
  span_core_ok span && has_keys span token_keys.

Definition span_edge_ok (e : json) : bool :=
  match field e "node" with
  | Some span => span_ok span
  | None => false
  end.

Definition trace_edge_ok (e : json) : bool :=
  match field e "node" with
  | Some trace =>
      has_keys trace trace_keys
      && match edges trace "spans" with
         | Some l => forallb span_edge_ok l
         | None => false
         end
  | None => false
  end.

Definition session_ok (session : json) : bool :=
  truthy session && has_keys session session_keys
  && match edges session "traces" with
     | Some l => forallb trace_edge_ok l
     | None => false
     end.

(** The session object of a payload without ["errors"]. *)
Definition session_of (data : json) : option json :=
  match data with
  | JObj m =>
      if dict_mem m "errors" then None
      else match dict_get m "data" with
           | Some d => field d "getProjectSessionById"
           | None => None
           end
  | _ => None
  end.

(** The span edges of a trace edge. *)
Definition span_edges (trace_edge : json) : list json :=
  match field trace_edge "node" with
  | Some trace => match edges trace "spans" with Some l => l | None => [] end
  | None => []
  end.

Definition or_null (o : option json) : json :=
  match o with Some v => v | None => JNull end.

(** What lines 127-128 leave under ["input"] and ["output"]. *)
Definition flat_value (span : json) (k : string) : json :=
  match field span k with
  | Some v => if truthy v then or_null (field v "value") else JNull
  | None => JNull
  end.

(** The flattened span written out field by field. *)
Definition flat_span (loads : string -> option json) (span : json) : json :=
  JObj [ ("name", or_null (field span "name"));
         ("spanKind", or_null (field span "spanKind"));
         ("statusCode", or_null (field span "statusCode"));
         ("statusMessage", or_null (field span "statusMessage"));
         ("startTime", or_null (field span "startTime"));
         ("endTime", or_null (field span "endTime"));
         ("latencyMs", or_null (field span "latencyMs"));
         ("parentId", or_null (field span "parentId"));
         ("tokenCountTotal", or_null (field span "tokenCountTotal"));
         ("tokenCountPrompt", or_null (field span "tokenCountPrompt"));
         ("tokenCountCompletion", or_null (field span "tokenCountCompletion"));
         ("input", flat_value span "input");
         ("output", flat_value span "output");
         ("attributes",
          Phoenix.parse_attributes loads (or_null (field span "attributes"))) ].

(** The flattened trace around its list of flattened spans. *)
Definition flat_trace (trace : json) (spans : list json) : json :=
  JObj [ ("traceId", or_null (field trace "traceId"));
         ("startTime", or_null (field trace "startTime"));
         ("endTime", or_null (field trace "endTime"));
         ("latencyMs", or_null (field trace "latencyMs"));
         ("spans", JArr spans) ].

(** The flattened session around its list of flattened traces. *)
Definition flat_session (session : json) (traces : list json) : json :=
  JObj [ ("sessionId", or_null (field session "sessionId"));
         ("numTraces", or_null (field session "numTraces"));
         ("startTime", or_null (field session "startTime"));
         ("endTime", or_null (field session "endTime"));
         ("traces", JArr traces) ].


(** *** A sample response: two traces, with one span and with two spans *)

Definition sample_span (name attributes : string) : json :=
  JObj [ ("node",
          JObj [ ("name", JStr name); ("spanKind", JStr "LLM");
                 ("statusCode", JStr "OK"); ("statusMessage", JStr "");
                 ("startTime", JStr "2025-01-01T00:00:00Z");
                 ("endTime", JStr "2025-01-01T00:00:01Z");
                 ("latencyMs", JFloat "1000.0"); ("parentId", JNull);
                 ("tokenCountTotal", JInt 12); ("tokenCountPrompt", JNull);
                 ("tokenCountCompletion", JInt 5);
                 ("input", JObj [("value", JStr "hello")]); ("output", JNull);
                 ("attributes", JStr attributes) ]) ].

Definition sample_trace (id : string) (span_edges : list json) : json :=
  JObj [ ("node",
          JObj [ ("traceId", JStr id);
                 ("startTime", JStr "2025-01-01T00:00:00Z");
                 ("endTime", JStr "2025-01-01T00:00:02Z");
                 ("latencyMs", JFloat "2000.0");
                 ("spans", JObj [("edges", JArr span_edges)]) ]) ].

(** The text of a mapping with the key [k] and the value 1. *)
Definition mapping_text : string :=
  "{" ++ String "034" "k" ++ String "034" ": 1}".

Definition sample_trace_edges : list json :=
  [ sample_trace "t1" [ sample_span "a" mapping_text ];
    sample_trace "t2" [ sample_span "b" "not json"; sample_span "c" "[1]" ] ].

Definition sample_session : json :=
  JObj [ ("sessionId", JStr "s1"); ("numTraces", JInt 2);
         ("startTime", JStr "2025-01-01T00:00:00Z");
         ("endTime", JStr "2025-01-01T00:00:02Z");
         ("traces", JObj [("edges", JArr sample_trace_edges)]) ].

Definition sample_data : json :=
  JObj [ ("data", JObj [("getProjectSessionById", sample_session)]) ].

Definition sample_post (data : json) (url session_id : string) : Phoenix.response :=
  {| Phoenix.status_code := 200; Phoenix.body_json := Some data |}.


(** *** Statements about the optional fields and the attributes *)



Definition keys_of (v : json) : list string :=
  match v with
  | JObj m => dict_keys m
  | _ => []
  end.


(** "A span whose attributes are a non-empty string that is not valid JSON
    is flattened without an error and keeps that very string", read over
    the span nodes that can be flattened at all. *)
Definition invalid_attributes_kept (loads : string -> option json) : Prop :=
  forall span_edge span s,
    field span_edge "node" = Some span ->
    span_ok span = true ->
    field span "attributes" = Some (JStr s) ->
    s <> "" ->
    Json.is_json s = false ->
    exists out,
      Phoenix.flatten_span loads span_edge = Ret out
      /\ field out "attributes" = Some (JStr s).

(** "The flattened attributes are a mapping when the string parsed, the
    original string when it did not, and nothing else." *)
Definition attributes_mapping_or_string (loads : string -> option json) : Prop :=
  forall span_edge span s out,
    field span_edge "node" = Some span ->
    span_ok span = true ->
    field span "attributes" = Some (JStr s) ->
    Phoenix.flatten_span loads span_edge = Ret out ->
    (exists m, loads s = Some (JObj m) /\ field out "attributes" = Some (JObj m))
    \/ (loads s = None /\ field out "attributes" = Some (JStr s)).

(** The payload's [data] carries no session: the key is missing, [null], or
    otherwise falsy. *)
Definition session_absent (d : json) : bool :=
  is_obj d
  && match field d "getProjectSessionById" with
     | None => true
     | Some v => negb (truthy v)
     end.

Definition sample_args : Phoenix.args :=
  {| Phoenix.session_id := "s1"; Phoenix.output := Some "traces.json";
     Phoenix.base_url := "http://localhost:6006" |}.

Definition no_session_data : json :=
  JObj [ ("data", JObj [("getProjectSessionById", JNull)]) ].


(** A span node as the server sends it, but for the key [tokenCountTotal]. *)
Definition span_without_token_total : json :=
  JObj [ ("node",
          JObj [ ("name", JStr "a"); ("spanKind", JStr "LLM");
                 ("statusCode", JStr "OK");
                 ("startTime", JStr "2025-01-01T00:00:00Z");
                 ("endTime", JStr "2025-01-01T00:00:01Z");
                 ("latencyMs", JInt 1000); ("parentId", JNull);
                 ("tokenCountPrompt", JNull); ("tokenCountCompletion", JNull);
                 ("attributes", JStr "{}") ]) ].

(** A span node with every key, whose [input] is a text and no object. *)
Definition span_with_text_input : json :=
  JObj [ ("node",
          JObj [ ("name", JStr "a"); ("spanKind", JStr "LLM");
                 ("statusCode", JStr "OK"); ("statusMessage", JNull);
                 ("startTime", JStr "2025-01-01T00:00:00Z");
                 ("endTime", JStr "2025-01-01T00:00:01Z");
                 ("latencyMs", JInt 1000); ("parentId", JNull);
                 ("tokenCountTotal", JNull); ("tokenCountPrompt", JNull);
                 ("tokenCountCompletion", JNull);
                 ("input", JStr "hello"); ("output", JNull);
                 ("attributes", JStr "{}") ]) ].

End Shape.
Import Shape.

(* ------------------------------------------------------------------ *)
(** ** Directory trees and list files used in the statements *)

Module Trees.

Fixpoint distinct (names : list string) : bool :=
  match names with
  | [] => true
  | n :: rest => negb (existsb (String.eqb n) rest) && distinct rest
  end.

(** In a directory no two entries share a name. *)
Fixpoint unique_names (n : Rally.node) : bool :=
  match n with
  | Rally.File => true
  | Rally.Dir entries =>
      distinct (dict_keys entries)
      && (fix all (l : list (string * Rally.node)) : bool :=
            match l with
            | [] => true
            | (_, child) :: rest => unique_names child && all rest
            end) entries
  end.

Definition is_dir (n : Rally.node) : bool :=
  match n with Rally.Dir _ => true | Rally.File => false end.

(** The fixed subpath below a package. *)
Definition rally_subpath : list string := ["_dev"; "benchmark"; "rally"].

(** The lines printed for one entry of the packages directory. *)
Definition package_block (entry : string * Rally.node) : list string :=
  match Rally.lookup (snd entry) rally_subpath with
  | Some (Rally.Dir benchmarks) =>
      ("Package: " ++ fst entry)
        :: map (fun b => "* " ++ fst b) (filter (fun b => is_dir (snd b)) benchmarks)
        ++ [""]
  | _ => []
  end.

(** May the process list the [rally] directory of the entry [name], if the
    entry has one? *)
Definition rally_listable (readable : list string -> bool) (root : Rally.node)
    (name : string) : bool :=
  negb (Rally.isdir root (name :: rally_subpath))
  || readable (name :: rally_subpath).

(** May the process list all the lister lists: the packages directory and
    the [rally] directory of every entry that has one? *)
Definition listable (readable : list string -> bool) (root : Rally.node) : bool :=
  match root with
  | Rally.Dir packages =>
      readable [] && forallb (rally_listable readable root) (dict_keys packages)
  | Rally.File => false
  end.

(** The body of the outer loop, lines 10-24. *)
Definition lister_step (readable : list string -> bool) (root : Rally.node)
    (package_path : string) : io unit :=
  let rally_path := [package_path; "_dev"; "benchmark"; "rally"] in
  if Rally.isdir root rally_path then
    _ <<- print ("Package: " ++ package_path) ;;
    benchmarks <<- lift (Rally.listdir readable root rally_path) ;;
    _ <<- for_io benchmarks (fun b =>
            if negb (Rally.isdir root (rally_path ++ [b])%list) then io_ret tt
            else print ("* " ++ b ++ "")) ;;
    print ""
  else io_ret tt.

(** A process that may list every directory, and one that may list every
    directory but the [rally] directory of the package [name]. *)
Definition all_readable (path : list string) : bool := true.

Definition all_but_rally_of (name : string) (path : list string) : bool :=
  if list_eq_dec string_dec path (name :: rally_subpath) then false else true.

Definition rally_tree (benchmarks : list (string * Rally.node)) : Rally.node :=
  Rally.Dir [("_dev", Rally.Dir [("benchmark",
     Rally.Dir [("rally", Rally.Dir benchmarks)])])].

Definition sample_packages : list (string * Rally.node) :=
  [ ("apache", rally_tree [("logs", Rally.Dir [("track.json", Rally.File)]);
                           ("README.md", Rally.File);
                           ("metrics", Rally.Dir [])]);
    ("README.md", Rally.File);
    ("nginx", Rally.Dir [("_dev", Rally.Dir [("build", Rally.Dir [])])]);
    ("mysql", Rally.Dir [("_dev", Rally.Dir [("benchmark",
                Rally.Dir [("rally", Rally.File)])])]) ].

(** A packages directory in which a second package has benchmarks. *)
Definition unreadable_packages : list (string * Rally.node) :=
  [ ("apache", rally_tree [("logs", Rally.Dir [])]);
    ("README.md", Rally.File);
    ("mysql2", rally_tree [("queries", Rally.Dir [])]);
    ("nginx", rally_tree [("access", Rally.Dir [])]) ].

(** The list file of the cross-referencer's example. *)
Definition xref_file : string := "A:x, y" ++ String "010" "B:y".

End Trees.
Import Trees.

(* ------------------------------------------------------------------ *)
(** ** Counting in a list file *)

Module Counting.

(** A line once split: its dashboard and the references it lists. *)
Definition entry : Type := (string * list string)%type.

(** All lines split, or the first failure. *)
Fixpoint parse_lines (lines : list string) : py (list entry) :=
  match lines with
  | [] => Ret []
  | line :: rest =>
      e <- XRef.parse_line line ;;
      es <- parse_lines rest ;;
      Ret (e :: es)
  end.

(** How often a line's list names [r]. *)
Definition occurrences (r : string) (refs : list string) : nat :=
  count_occ string_dec refs r.

(** How often [r] is named in the whole file, repeats within a line
    included. *)
Definition total_occurrences (r : string) (entries : list entry) : nat :=
  list_sum (map (fun e => occurrences r (snd e)) entries).

Definition lists (r : string) (e : entry) : bool :=
  existsb (String.eqb r) (snd e).

(** The number of lines that list [r]. *)
Definition lines_listing (r : string) (entries : list entry) : nat :=
  List.length (filter (lists r) entries).

(** The number of distinct dashboards that list [r]. *)
Definition dashboards_using (r : string) (entries : list entry) : nat :=
  List.length (nodup string_dec (map fst (filter (lists r) entries))).

(** The dashboards appended for [r], in order: one per occurrence. *)
Definition usages (r : string) (entries : list entry) : list string :=
  flat_map (fun e => repeat (fst e) (occurrences r (snd e))) entries.

(** Appending [l] to the list stored (or not yet stored) under a key. *)
Definition extend (o : option (list string)) (l : list string)
  : option (list string) :=
  match l with
  | [] => o
  | _ => Some (match o with Some ds => ds ++ l | None => l end)%list
  end.

(** "The count printed for a reference is the number of lines listing it",
    for files that name some dashboard on more than one line. *)
Definition count_is_lines_listing : Prop :=
  forall (lines : list string) (entries : list entry) (t : XRef.tables)
         (d r : string) (dashboards : list string),
    parse_lines lines = Ret entries ->
    1 < List.length (filter (fun e => String.eqb d (fst e)) entries) ->
    XRef.build lines = Ret t ->
    dict_get (snd t) r = Some dashboards ->
    List.length dashboards = lines_listing r entries.

(** A dashboard on two lines, the first of which lists [x] twice. *)
Definition repeated_lines : list string :=
  ["A:x, x" ++ String "010" ""; "A:x"].

End Counting.
Import Counting.

(* ------------------------------------------------------------------ *)
(** ** Runs of the fetcher, used in the statements about [main] *)

Module Runs.

(** The response to the one request [main] makes. *)
Definition reply (post : string -> string -> Phoenix.response) (a : Phoenix.args)
  : Phoenix.response :=
  post (Phoenix.base_url a ++ "/graphql") (Phoenix.session_id a).

(** The two lines [main] prints before anything else. *)
Definition banner (a : Phoenix.args) : list string :=
  [ "Fetching traces for session: " ++ Phoenix.session_id a;
    "Phoenix URL: " ++ Phoenix.base_url a ].

(** A run that ends with one more line on the error stream and code 1,
    nothing printed and nothing written. *)
Definition failed_run (a : Phoenix.args) (line : string) : Phoenix.process :=
  {| Phoenix.stderr := banner a ++ [line];
     Phoenix.stdout := [];
     Phoenix.written := [];
     Phoenix.exit_code := 1;
     Phoenix.uncaught := None |}.

(** The spans of all trace edges together. *)
Definition span_total (trace_edges : list json) : nat :=
  list_sum (map (fun e => List.length (span_edges e)) trace_edges).

(** A file system that stores every text, and one that stores none. *)
Definition writable (path text : string) : Phoenix.write_outcome :=
  Phoenix.Stored.

Definition read_only (path text : string) : Phoenix.write_outcome :=
  Phoenix.Failed OSError None.

(** [if args.output:] *)
Definition output_path (a : Phoenix.args) : option string :=
  match Phoenix.output a with
  | Some path => if String.eqb path "" then None else Some path
  | None => None
  end.

(** A transport that answers every request with the given status and body. *)
Definition status_post (status : Z) (body : option json)
    (url session_id : string) : Phoenix.response :=
  {| Phoenix.status_code := status; Phoenix.body_json := body |}.

(** A payload that carries both a session and an [errors] field. *)
Definition errors_and_data : json :=
  JObj [ ("data", JObj [("getProjectSessionById", sample_session)]);
         ("errors", JArr [JObj [("message", JStr "partial failure")]]) ].

(** The sample session with a span that lacks [tokenCountTotal] in its
    second trace. *)
Definition broken_session : json :=
  JObj [ ("sessionId", JStr "s1"); ("numTraces", JInt 2);
         ("startTime", JStr "2025-01-01T00:00:00Z");
         ("endTime", JStr "2025-01-01T00:00:02Z");
         ("traces",
          JObj [("edges",
                 JArr [ sample_trace "t1" [ sample_span "a" "{}" ];
                        sample_trace "t2" [ sample_span "b" "{}";
                                            span_without_token_total ];
                        sample_trace "t3" [] ])]) ].

(** A session whose numbers are all integers. *)
Definition plain_span (name attributes : string) : json :=
  JObj [ ("node",
          JObj [ ("name", JStr name); ("spanKind", JStr "CHAIN");
                 ("statusCode", JStr "OK"); ("statusMessage", JNull);
                 ("startTime", JStr "2025-01-01T00:00:00Z");
                 ("endTime", JStr "2025-01-01T00:00:01Z");
                 ("latencyMs", JInt 1000); ("parentId", JNull);
                 ("tokenCountTotal", JInt 12); ("tokenCountPrompt", JInt 7);
                 ("tokenCountCompletion", JInt 5);
                 ("input", JObj [("value", JStr "hello")]);
                 ("output", JObj [("value", JStr "world")]);
                 ("attributes", JStr attributes) ]) ].

Definition plain_session : json :=
  JObj [ ("sessionId", JStr "s1"); ("numTraces", JInt 1);
         ("startTime", JStr "2025-01-01T00:00:00Z");
         ("endTime", JStr "2025-01-01T00:00:01Z");
         ("traces",
          JObj [("edges",
                 JArr [ JObj [ ("node",
                     JObj [ ("traceId", JStr "t1");
                            ("startTime", JStr "2025-01-01T00:00:00Z");
                            ("endTime", JStr "2025-01-01T00:00:01Z");
                            ("latencyMs", JInt 1000);
                            ("spans",
                             JObj [("edges",
                                    JArr [ plain_span "a" mapping_text;
                                           plain_span "b" "not json" ])]) ]) ] ])]) ].

Definition plain_data : json :=
  JObj [ ("data", JObj [("getProjectSessionById", plain_session)]) ].

(** The result [fetch_traces] returns for the payload [data]. *)
Definition fetched (data : json) : json :=
  match Phoenix.fetch_traces Json.loads (sample_post data) "s1"
          "http://localhost:6006" with
  | Ret (Some result) => result
  | _ => JNull
  end.

End Runs.
Import Runs.

(* ------------------------------------------------------------------ *)
(** ** Lines, flags and reports of the cross-referencer *)

Module Reports.

Definition has_colon (line : string) : bool := Json.has_char ":" line.

(** The flags of a run that asks for one thing. *)
Definition ask_reference (r : string) : XRef.args :=
  {| XRef.reference := Some r; XRef.dashboard := None;
     XRef.all_dashboards := false |}.

Definition ask_dashboard (d : string) : XRef.args :=
  {| XRef.reference := None; XRef.dashboard := Some d;
     XRef.all_dashboards := false |}.

Definition ask_all : XRef.args :=
  {| XRef.reference := None; XRef.dashboard := None;
     XRef.all_dashboards := true |}.

Definition or_nil (o : option (list string)) : list string :=
  match o with Some l => l | None => [] end.

(** The dashboards recorded for a reference. *)
Definition users (t : XRef.tables) (r : string) : list string :=
  or_nil (dict_get (snd t) r).

(** The line printed for a reference and its count. *)
Definition count_line (t : XRef.tables) (r : string) : string :=
  " - " ++ r ++ ": " ++ Json.string_of_Z (Z.of_nat (List.length (users t r))).

(** The lines printed for one dashboard under [--all_dashboards]. *)
Definition dashboard_block (t : XRef.tables) (d : string) : list string :=
  (("Dashboard " ++ d ++ ":")%string
     :: map (count_line t) (or_nil (dict_get (fst t) d)) ++ [""])%list.

(** Every reference a dashboard lists has at least one dashboard recorded. *)
Definition covered (t : XRef.tables) : Prop :=
  forall d refs r,
    dict_get (fst t) d = Some refs -> In r refs ->
    exists ds, dict_get (snd t) r = Some ds /\ ds <> [].

(** The names of a list in the order of their first appearance. *)
Fixpoint first_seen_from (seen names : list string) : list string :=
  match names with
  | [] => seen
  | n :: rest =>
      first_seen_from
        (if existsb (String.eqb n) seen then seen else seen ++ [n])%list rest
  end.

Definition first_seen (names : list string) : list string :=
  first_seen_from [] names.

Fixpoint ends_with_space (s : string) : bool :=
  match s with
  | EmptyString => false
  | String c EmptyString => XRef.isspace c
  | String _ rest => ends_with_space rest
  end.

Definition starts_with_space (s : string) : bool :=
  match s with
  | EmptyString => false
  | String c _ => XRef.isspace c
  end.

Fixpoint all_space (s : string) : bool :=
  match s with
  | EmptyString => true
  | String c rest => XRef.isspace c && all_space rest
  end.

(** A reference as a line spells it: the reference itself, which neither
    starts nor ends with white space, between two runs of white space. *)
Record spelled : Type := {
  lead : string;
  core : string;
  trail : string
}.

Definition spelling (r : spelled) : string := lead r ++ core r ++ trail r.

Definition well_spelled (r : spelled) : bool :=
  all_space (lead r) && all_space (trail r)
  && negb (starts_with_space (core r)) && negb (ends_with_space (core r)).

(** The reference holds neither of the two separators of a line. *)
Definition separator_free (r : spelled) : bool :=
  negb (Json.has_char "," (core r)) && negb (Json.has_char ":" (core r)).

(** A list file with a line that has no colon, after a good one. *)
Definition colonless_file : string :=
  "A:x, y" ++ String "010" ("B y" ++ String "010" "C:z").

(** The flags of a run that asks for a reference and a dashboard. *)
Definition ask_both (r d : string) : XRef.args :=
  {| XRef.reference := Some r; XRef.dashboard := Some d;
     XRef.all_dashboards := false |}.

(** The keys of a flattened trace and of the flattened session, in order. *)
Definition flat_trace_keys : list string :=
  ["traceId"; "startTime"; "endTime"; "latencyMs"; "spans"].

Definition flat_session_keys : list string :=
  ["sessionId"; "numTraces"; "startTime"; "endTime"; "traces"].

(** The items of the list under key [k], none when there is no list. *)
Definition items_of (v : json) (k : string) : list json :=
  match field v k with
  | Some (JArr l) => l
  | _ => []
  end.

End Reports.
Import Reports.

(* ------------------------------------------------------------------ *)
(** ** Values without floats, and what follows a serialized number *)

Module Canonical.

(** No float inside, and no key twice in a dict. *)
Fixpoint canonical (v : json) : bool :=
  match v with
  | JFloat _ => false
  | JArr l => forallb canonical l
  | JObj m =>
      distinct (dict_keys m) && forallb (fun kv => canonical (snd kv)) m
  | _ => true
  end.

(** The nesting of calls [scan_once] needs to read a value back. *)
Fixpoint size (v : json) : nat :=
  match v with
  | JArr l => S (list_sum (map (fun x => S (size x)) l))
  | JObj m => S (list_sum (map (fun kv => S (size (snd kv))) m))
  | _ => 1
  end.

(** A text that cannot prolong the number before it: empty, or starting
    with a comma or a line break. *)
Definition boundary (s : string) : bool :=
  match s with
  | EmptyString => true
  | String c _ => ((Json.code c =? 44) || (Json.code c =? 10))%N
  end.

(** The characters a serialized value can start with. *)
Definition value_start (c : ascii) : bool :=
  let n := Json.code c in
  ((n =? 34) || (n =? 45) || (48 <=? n) && (n <=? 57) || (n =? 91)
   || (n =? 102) || (n =? 110) || (n =? 116) || (n =? 123))%N.

(** No digit comes next. *)
Definition no_digit_ahead (s : string) : Prop :=
  match s with
  | EmptyString => True
  | String c _ => Json.digit c = None
  end.

End Canonical.
Import Canonical.

(* ------------------------------------------------------------------ *)
(** * Properties *)

(** ** Dictionaries and loops *)

Lemma dict_mem_get {V} (d : dict V) k :
  dict_mem d k = true -> exists v, dict_get d k = Some v.
Proof.
  unfold dict_mem. destruct (dict_get d k) as [v|]; [eauto | discriminate].
Qed.

Lemma subscript_field v k x : field v k = Some x -> subscript v k = Ret x.
Proof.
  destruct v; simpl; try discriminate. intros ->. reflexivity.
Qed.

Lemma get_field v k x : field v k = Some x -> get v k = Ret x.
Proof.
  destruct v; simpl; try discriminate. unfold get; simpl. intros ->. reflexivity.
Qed.

Lemma has_keys_field v keys k :
  has_keys v keys = true -> In k keys -> exists x, field v k = Some x.
Proof.
  destruct v; simpl; try discriminate.
  rewrite forallb_forall. intros H Hin. apply dict_mem_get. auto.
Qed.

(** A loop that appends one result per item computes a pointwise image. *)
Lemma for_each_append {A B} (f : A -> py B) (xs : list A) :
  forall acc,
    Forall (fun x => exists y, f x = Ret y) xs ->
    exists ys,
      for_each xs (fun acc x => y <- f x ;; Ret (acc ++ [y])%list) acc
        = Ret (acc ++ ys)%list
      /\ Forall2 (fun x y => f x = Ret y) xs ys.
Proof.
  induction xs as [|x xs IH]; intros acc H.
  - exists []. rewrite app_nil_r. split; [reflexivity | constructor].
  - inversion H as [|? ? [y Hy] Hrest]; subst.
    destruct (IH (acc ++ [y])%list Hrest) as [ys [Hrun Hall]].
    exists (y :: ys). split.
    + simpl. rewrite Hy. simpl. rewrite Hrun. rewrite <- app_assoc. reflexivity.
    + constructor; assumption.
Qed.

(** ** The trace fetcher *)

Section FetchProps.

Variable loads : string -> option json.

Lemma value_of_flat m k :
  value_field_ok (JObj m) k = true ->
  Phoenix.value_of (JObj m) k = Ret (flat_value (JObj m) k).
Proof.
  unfold value_field_ok, Phoenix.value_of, flat_value, get, get_default. simpl.
  destruct (dict_get m k) as [v|] eqn:E; simpl; [|reflexivity].
  destruct (truthy v) eqn:T; simpl; [|reflexivity].
  intros H. destruct v; try discriminate. simpl.
  destruct (dict_get members "value"); reflexivity.
Qed.

Ltac split_ands :=
  repeat match goal with
         | H : _ && _ = true |- _ => apply andb_true_iff in H; destruct H
         end.

Ltac fetch_keys :=
  repeat match goal with
         | H : dict_mem _ _ = true |- _ =>
             apply dict_mem_get in H; destruct H as [? H]
         end.

Lemma flatten_span_ok e span :
  field e "node" = Some span ->
  span_ok span = true ->
  Phoenix.flatten_span loads e = Ret (flat_span loads span).
Proof.
  intros Hnode Hok.
  unfold Phoenix.flatten_span. rewrite (subscript_field _ _ _ Hnode). simpl.
  unfold span_ok, span_core_ok in Hok. split_ands.
  destruct span as [| | | | | |m]; try discriminate.
  rewrite (value_of_flat m "input"), (value_of_flat m "output") by assumption.
  unfold has_keys in *. simpl in *. split_ands. fetch_keys.
  unfold flat_span, get, get_default. simpl.
  repeat match goal with H : dict_get m _ = Some _ |- _ => rewrite H; clear H end.
  simpl. destruct (dict_get m "statusMessage"), (dict_get m "attributes"); reflexivity.
Qed.

(** Conversely, only such span nodes are flattened: any other raises. *)
Lemma flatten_span_returns e span out :
  field e "node" = Some span ->
  Phoenix.flatten_span loads e = Ret out ->
  span_ok span = true.
Proof.
  intros Hnode H.
  unfold Phoenix.flatten_span in H. rewrite (subscript_field _ _ _ Hnode) in H.
  cbn [bind] in H.
  destruct span as [| | | | | |m]; try discriminate H.
  revert H.
  unfold span_ok, span_core_ok, has_keys, value_field_ok, Phoenix.value_of,
    token_keys, span_core_keys, get, get_default, subscript, field, dict_mem.
  cbn [bind forallb andb].
  repeat match goal with
         | |- context [dict_get m ?k] =>
             destruct (dict_get m k) as [?|] eqn:?; cbn [bind];
             try (intros; discriminate)
         end.
  all: repeat match goal with
             | |- context [truthy ?v] =>
                 is_var v; destruct (truthy v) eqn:?; destruct v;
                 cbn [bind negb orb andb is_obj]; try (intros; discriminate)
             | |- context [dict_get ?inner ?k] =>
                 destruct (dict_get inner k); cbn [bind];
                 try (intros; discriminate)
             end.
  all: reflexivity.
Qed.

Lemma edges_of_ok container k l :
  edges container k = Some l -> Phoenix.edges_of container k = Ret l.
Proof.
  unfold edges, Phoenix.edges_of, get_default.
  destruct container as [| | | | | |m]; try discriminate.
  destruct (dict_get m k) as [c|]; simpl.
  - destruct c as [| | | | | |cm]; try discriminate.
    destruct (dict_get cm "edges") as [es|]; simpl.
    + destruct es; try discriminate. intros [= ->]. reflexivity.
    + intros [= <-]. reflexivity.
  - intros [= <-]. reflexivity.
Qed.

Lemma flatten_trace_ok e trace :
  field e "node" = Some trace ->
  trace_edge_ok e = true ->
  exists spans,
    Phoenix.flatten_trace loads e = Ret (flat_trace trace spans)
    /\ Forall2 (fun se sp => Phoenix.flatten_span loads se = Ret sp)
               (span_edges e) spans.
Proof.
  intros Hnode Hok. unfold trace_edge_ok in Hok. unfold span_edges.
  rewrite Hnode in *. split_ands.
  destruct (edges trace "spans") as [l|] eqn:El; [|discriminate].
  destruct (for_each_append (Phoenix.flatten_span loads) l []) as [spans [Hrun Hall]].
  { rewrite forallb_forall in *. apply Forall_forall. intros se Hin.
    specialize (H0 se Hin). unfold span_edge_ok in H0.
    destruct (field se "node") as [span|] eqn:Es; [|discriminate].
    eexists. eapply flatten_span_ok; eauto. }
  exists spans. split; [|exact Hall].
  unfold Phoenix.flatten_trace. rewrite (subscript_field _ _ _ Hnode). simpl.
  rewrite (edges_of_ok _ _ _ El).
  destruct trace as [| | | | | |m]; try discriminate.
  unfold has_keys in *. simpl in *. split_ands. fetch_keys.
  unfold flat_trace. simpl.
  repeat match goal with H : dict_get m _ = Some _ |- _ => rewrite H; clear H end.
  simpl. simpl in Hrun. rewrite Hrun. reflexivity.
Qed.

Lemma fetch_session_ok data session :
  session_of data = Some session ->
  session_ok session = true ->
  exists traces,
    Phoenix.fetch_traces_payload loads data = Ret (Some (flat_session session traces))
    /\ Forall2 (fun te t => Phoenix.flatten_trace loads te = Ret t)
               (match edges session "traces" with Some l => l | None => [] end)
               traces.
Proof.
  intros Hs Hok. unfold session_ok in Hok. split_ands.
  destruct (edges session "traces") as [l|] eqn:El; [|discriminate].
  destruct (for_each_append (Phoenix.flatten_trace loads) l []) as [traces [Hrun Hall]].
  { rewrite forallb_forall in *. apply Forall_forall. intros te Hin.
    specialize (H0 te Hin). pose proof H0 as Hte. unfold trace_edge_ok in H0.
    destruct (field te "node") as [trace|] eqn:Et; [|discriminate].
    destruct (flatten_trace_ok te trace Et Hte) as [spans [Hf _]]. eauto. }
  exists traces. split; [|exact Hall].
  unfold session_of in Hs. destruct data as [| | | | | |dm]; try discriminate.
  unfold Phoenix.fetch_traces_payload. simpl.
  destruct (dict_mem dm "errors"); [discriminate|]. simpl.
  unfold get_default, get. 
  destruct (dict_get dm "data") as [d|]; [|discriminate]. simpl.
  destruct d as [| | | | | |pm]; try discriminate. simpl in Hs. unfold get_default.
  rewrite Hs. simpl. rewrite H. simpl.
  rewrite (edges_of_ok _ _ _ El).
  destruct session as [| | | | | |m]; try discriminate.
  unfold has_keys in *. simpl in *. split_ands. fetch_keys.
  unfold flat_session. simpl.
  repeat match goal with H : dict_get m _ = Some _ |- _ => rewrite H; clear H end.
  simpl. simpl in Hrun. rewrite Hrun. reflexivity.
Qed.

End FetchProps.

Lemma Forall2_impl_in {A B} (R1 R2 : A -> B -> Prop) (l1 : list A) (l2 : list B) :
  (forall a b, In a l1 -> R1 a b -> R2 a b) ->
  Forall2 R1 l1 l2 -> Forall2 R2 l1 l2.
Proof.
  intros Himp H. induction H; constructor.
  - apply Himp; [left; reflexivity | assumption].
  - apply IHForall2. intros a b Hin. apply Himp. right. exact Hin.
Qed.

Lemma fetch_traces_transport loads post session_id base_url data :
  Phoenix.raise_for_status (post (base_url ++ "/graphql") session_id) = Ret tt ->
  Phoenix.body_json (post (base_url ++ "/graphql") session_id) = Some data ->
  Phoenix.fetch_traces loads post session_id base_url
  = Phoenix.fetch_traces_payload loads data.
Proof.
  intros Hst Hbody. unfold Phoenix.fetch_traces. rewrite Hst, Hbody. reflexivity.
Qed.

(** C1.  For a well-formed response, [fetch_traces] returns a result whose
    [traces] list has one entry per trace edge and whose i-th trace has one
    span per span edge of the i-th trace edge, both in the order of the
    response: the i-th trace carries the i-th edge's [traceId] and its j-th
    span is the flattening of the j-th span edge. *)
Theorem fetch_traces_lengths_and_order :
  forall (loads : string -> option json)
         (post : string -> string -> Phoenix.response)
         (session_id base_url : string) (data session : json)
         (trace_edges : list json),
    Phoenix.raise_for_status (post (base_url ++ "/graphql") session_id) = Ret tt ->
    Phoenix.body_json (post (base_url ++ "/graphql") session_id) = Some data ->
    session_of data = Some session ->
    session_ok session = true ->
    edges session "traces" = Some trace_edges ->
    exists result traces,
      Phoenix.fetch_traces loads post session_id base_url = Ret (Some result)
      /\ field result "traces" = Some (JArr traces)
      /\ List.length traces = List.length trace_edges
      /\ Forall2
           (fun edge t =>
              exists trace spans,
                field edge "node" = Some trace
                /\ field t "traceId" = field trace "traceId"
                /\ field t "spans" = Some (JArr spans)
                /\ List.length spans = List.length (span_edges edge)
                /\ Forall2
                     (fun span_edge sp =>
                        exists span,
                          field span_edge "node" = Some span
                          /\ field sp "name" = field span "name"
                          /\ sp = flat_span loads span)
                     (span_edges edge) spans)
           trace_edges traces.
Proof.
  intros loads post sid url data session trace_edges Hst Hbody Hs Hok He.
  destruct (fetch_session_ok loads data session Hs Hok) as [traces [Hrun Hall]].
  rewrite He in Hall.
  exists (flat_session session traces), traces.
  rewrite (fetch_traces_transport _ _ _ _ _ Hst Hbody).
  split; [exact Hrun|]. split; [reflexivity|].
  split; [symmetry; eapply Forall2_length; eauto|].
  unfold session_ok in Hok. rewrite He in Hok.
  apply andb_true_iff in Hok. destruct Hok as [_ Hedges].
  rewrite forallb_forall in Hedges.
  eapply Forall2_impl_in; [|exact Hall].
  intros edge t Hin Hflat. cbv beta in Hflat. specialize (Hedges edge Hin).
  pose proof Hedges as Hte. unfold trace_edge_ok in Hedges.
  destruct (field edge "node") as [trace|] eqn:Et; [|discriminate].
  destruct (flatten_trace_ok loads edge trace Et Hte) as [spans [Hf Hspans]].
  rewrite Hf in Hflat. injection Hflat as <-.
  exists trace, spans. split; [reflexivity|].
  apply andb_true_iff in Hedges. destruct Hedges as [Hkeys Hse].
  split.
  { destruct (has_keys_field trace trace_keys "traceId" Hkeys) as [x Hx];
      [simpl; auto|]. simpl. rewrite Hx. reflexivity. }
  split; [reflexivity|].
  split; [symmetry; eapply Forall2_length; eauto|].
  eapply Forall2_impl_in; [|exact Hspans].
  intros se sp Hin' Hsp. cbv beta in Hsp.
  unfold span_edges in Hin'. rewrite Et in Hin'.
  destruct (edges trace "spans") as [l|]; [|discriminate].
  rewrite forallb_forall in Hse. specialize (Hse se Hin').
  unfold span_edge_ok in Hse.
  destruct (field se "node") as [span|] eqn:Es; [|discriminate].
  rewrite (flatten_span_ok loads se span Es Hse) in Hsp. injection Hsp as <-.
  exists span. split; [reflexivity|]. split; [|reflexivity].
  unfold span_ok, span_core_ok in Hse.
  repeat (apply andb_true_iff in Hse; destruct Hse as [Hse ?]).
  destruct (has_keys_field span span_core_keys "name" Hse) as [x Hx];
    [simpl; auto|]. simpl. rewrite Hx. reflexivity.
Qed.

Lemma fetch_traces_lengths_and_order_witness :
  exists result traces,
    Phoenix.fetch_traces Json.loads (sample_post sample_data) "s1" "http://localhost:6006"
    = Ret (Some result)
    /\ field result "traces" = Some (JArr traces)
    /\ List.length traces = List.length sample_trace_edges
    /\ Forall2
         (fun edge t =>
            exists trace spans,
              field edge "node" = Some trace
              /\ field t "traceId" = field trace "traceId"
              /\ field t "spans" = Some (JArr spans)
              /\ List.length spans = List.length (span_edges edge)
              /\ Forall2
                   (fun span_edge sp =>
                      exists span,
                        field span_edge "node" = Some span
                        /\ field sp "name" = field span "name"
                        /\ sp = flat_span Json.loads span)
                   (span_edges edge) spans)
         sample_trace_edges traces.
Proof.
  apply (fetch_traces_lengths_and_order Json.loads (sample_post sample_data)
           "s1" "http://localhost:6006" sample_data sample_session
           sample_trace_edges); reflexivity.
Defined.

(** C2, as stated, fails: the text [NaN] is not valid JSON, but
    [json.loads] accepts it (as it accepts [Infinity] and [-Infinity]), so
    the flattened [attributes] of a span that carries it is the float
    [nan], not the string. *)
Lemma invalid_attributes_kept_fails :
  ~ invalid_attributes_kept Json.loads.
Proof.
  intros H.
  destruct (H (sample_span "b" "NaN")
              (or_null (field (sample_span "b" "NaN") "node")) "NaN"
              eq_refl eq_refl eq_refl)
    as [out [Hrun Hattrs]].
  - discriminate.
  - reflexivity.
  - vm_compute in Hrun. injection Hrun as <-. vm_compute in Hattrs.
    discriminate.
Qed.

(** What the code does at that span: the text is decoded. *)
Lemma constant_text_is_decoded :
  Json.is_json "NaN" = false
  /\ exists out,
       Phoenix.flatten_span Json.loads (sample_span "b" "NaN") = Ret out
       /\ field out "attributes" = Some (JFloat "nan").
Proof.
  split; [reflexivity|]. eexists. split; [vm_compute; reflexivity|].
  reflexivity.
Qed.

(** C2, amended.  Take a span whose [attributes] is a non-empty string on
    which [json.loads] raises [JSONDecodeError].  Handling the attributes
    leaves that very string and raises nothing.  The span is flattened
    without an exception exactly when it carries the ten keys the fetcher
    subscripts and its [input] and [output] are each absent, falsy or an
    object, and whenever it is flattened its [attributes] is the original
    string. *)
Theorem invalid_attributes_kept_verbatim :
  forall (loads : string -> option json) (span_edge span : json) (s : string),
    field span_edge "node" = Some span ->
    field span "attributes" = Some (JStr s) ->
    s <> "" ->
    loads s = None ->
    Phoenix.parse_attributes loads (JStr s) = JStr s
    /\ ((exists out, Phoenix.flatten_span loads span_edge = Ret out)
        <-> span_ok span = true)
    /\ (forall out,
          Phoenix.flatten_span loads span_edge = Ret out ->
          field out "attributes" = Some (JStr s)).
Proof.
  intros loads e span s Hnode Ha _ Hbad.
  assert (Hkeep : Phoenix.parse_attributes loads (JStr s) = JStr s).
  { unfold Phoenix.parse_attributes. rewrite Hbad.
    destruct (truthy (JStr s) && isinstance_str (JStr s)); reflexivity. }
  split; [exact Hkeep|]. split; [split|].
  - intros [out Hrun]. eapply flatten_span_returns; eauto.
  - intros Hok. exists (flat_span loads span).
    apply flatten_span_ok; assumption.
  - intros out Hrun.
    pose proof (flatten_span_returns loads e span out Hnode Hrun) as Hok.
    rewrite (flatten_span_ok loads e span Hnode Hok) in Hrun.
    injection Hrun as <-. simpl. rewrite Ha. simpl. rewrite Hkeep.
    reflexivity.
Qed.

Lemma invalid_attributes_kept_verbatim_witness :
  Phoenix.parse_attributes Json.loads (JStr "not json") = JStr "not json"
  /\ ((exists out,
         Phoenix.flatten_span Json.loads (sample_span "b" "not json") = Ret out)
      <-> span_ok (or_null (field (sample_span "b" "not json") "node")) = true)
  /\ (forall out,
        Phoenix.flatten_span Json.loads (sample_span "b" "not json") = Ret out ->
        field out "attributes" = Some (JStr "not json")).
Proof.
  apply (invalid_attributes_kept_verbatim Json.loads (sample_span "b" "not json")
           (or_null (field (sample_span "b" "not json") "node")) "not json");
    try (vm_compute; reflexivity).
  discriminate.
Defined.

(** C4, as stated, fails: the attributes string ["[1]"] parses, to a list,
    and the flattened [attributes] is that list, neither a mapping nor the
    original string. *)
Lemma attributes_mapping_or_string_fails :
  ~ attributes_mapping_or_string Json.loads.
Proof.
  intros H.
  assert (Hrun : Phoenix.flatten_span Json.loads (sample_span "c" "[1]")
                 = Ret (flat_span Json.loads
                          (or_null (field (sample_span "c" "[1]") "node"))))
    by (vm_compute; reflexivity).
  destruct (H (sample_span "c" "[1]")
              (or_null (field (sample_span "c" "[1]") "node")) "[1]" _
              eq_refl eq_refl eq_refl Hrun)
    as [[m [Hm _]] | [Hn _]]; [vm_compute in Hm | vm_compute in Hn]; discriminate.
Qed.

(** C4, amended.  The flattened [attributes] is the value the string denotes
    (of whatever JSON shape) when the field is a non-empty string that parses,
    and the field's own value, unchanged, in every other case. *)
Theorem attributes_parsed_or_unchanged :
  forall (loads : string -> option json) (span_edge span : json),
    field span_edge "node" = Some span ->
    span_ok span = true ->
    exists out attrs,
      Phoenix.flatten_span loads span_edge = Ret out
      /\ field out "attributes" = Some attrs
      /\ ((exists s, field span "attributes" = Some (JStr s)
                     /\ s <> "" /\ loads s = Some attrs)
          \/ (attrs = or_null (field span "attributes")
              /\ forall s, field span "attributes" = Some (JStr s) ->
                           s = "" \/ loads s = None)).
Proof.
  intros loads e span Hnode Hok.
  exists (flat_span loads span),
         (Phoenix.parse_attributes loads (or_null (field span "attributes"))).
  split; [apply flatten_span_ok; assumption|]. split; [reflexivity|].
  destruct (field span "attributes") as [a|]; simpl.
  - assert (Hother : forall a', (forall s, a' <> JStr s) ->
                       Phoenix.parse_attributes loads a' = a').
    { intros a' Hns. unfold Phoenix.parse_attributes.
      destruct a'; simpl; try rewrite andb_false_r; try reflexivity.
      exfalso. eapply Hns. reflexivity. }
    destruct a as [|b|n|r|s|items|members];
      try solve [right; split; [apply Hother; intros ? [=] | intros ? [=]]].
    unfold Phoenix.parse_attributes. simpl.
    destruct (String.eqb s "") eqn:E; simpl.
    + right. split; [reflexivity|]. intros s' [= <-].
      left. apply String.eqb_eq. exact E.
    + destruct (loads s) as [v|] eqn:L.
      * left. exists s. split; [reflexivity|]. split; [|exact L].
        intros ->. discriminate.
      * right. split; [reflexivity|]. intros s' [= <-]. right. exact L.
  - right. split; [reflexivity | intros ? [=]].
Qed.

Lemma attributes_parsed_or_unchanged_witness :
  exists out attrs,
    Phoenix.flatten_span Json.loads (sample_span "c" "[1]") = Ret out
    /\ field out "attributes" = Some attrs
    /\ ((exists s, field (or_null (field (sample_span "c" "[1]") "node")) "attributes"
                   = Some (JStr s)
                   /\ s <> "" /\ Json.loads s = Some attrs)
        \/ (attrs = or_null (field (or_null (field (sample_span "c" "[1]") "node"))
                               "attributes")
            /\ forall s, field (or_null (field (sample_span "c" "[1]") "node"))
                           "attributes" = Some (JStr s) ->
                         s = "" \/ Json.loads s = None)).
Proof.
  apply (attributes_parsed_or_unchanged Json.loads (sample_span "c" "[1]")
           (or_null (field (sample_span "c" "[1]") "node")));
    reflexivity.
Defined.


(** What the code does at that span node. *)
Lemma missing_token_count_raises :
  Phoenix.flatten_span Json.loads span_without_token_total
  = Raise (KeyError "tokenCountTotal").
Proof. reflexivity. Qed.

(** A span node with all ten keys whose [input] is a text is not flattened
    either: [.get("value")] on the text raises [AttributeError]. *)
Lemma text_input_raises :
  Phoenix.flatten_span Json.loads span_with_text_input = Raise AttributeError.
Proof. reflexivity. Qed.



(** C9.  A payload without a top-level [errors] whose [data] key is missing,
    or whose [data.getProjectSessionById] is missing, [null] or otherwise
    falsy, makes [fetch_traces] return [None] and raise nothing. *)
Theorem missing_data_is_not_found :
  forall (loads : string -> option json) (m : dict json),
    dict_mem m "errors" = false ->
    (dict_get m "data" = None
     \/ exists d, dict_get m "data" = Some d /\ session_absent d = true) ->
    Phoenix.fetch_traces_payload loads (JObj m) = Ret None.
Proof.
  intros loads m Herr Hdata.
  unfold Phoenix.fetch_traces_payload. simpl. rewrite Herr. simpl.
  destruct Hdata as [Hnone | [d [Hd Habs]]].
  - rewrite Hnone. reflexivity.
  - rewrite Hd. simpl. unfold session_absent in Habs.
    apply andb_true_iff in Habs. destruct Habs as [Hobj Hfalsy].
    destruct d as [| | | | | |dm]; try discriminate. simpl in *.
    unfold get, get_default.
    destruct (dict_get dm "getProjectSessionById") as [v|]; simpl.
    + rewrite Hfalsy. reflexivity.
    + reflexivity.
Qed.

Lemma missing_data_is_not_found_witness :
  Phoenix.fetch_traces_payload Json.loads (JObj [("extensions", JObj [])]) = Ret None
  /\ Phoenix.fetch_traces_payload Json.loads
       (JObj [("data", JObj [("getProjectSessionById", JObj [])])]) = Ret None.
Proof.
  split.
  - apply (missing_data_is_not_found Json.loads [("extensions", JObj [])]).
    + reflexivity.
    + left. reflexivity.
  - apply (missing_data_is_not_found Json.loads
             [("data", JObj [("getProjectSessionById", JObj [])])]).
    + reflexivity.
    + right. exists (JObj [("getProjectSessionById", JObj [])]).
      split; reflexivity.
Defined.

(** C5.  When the payload's [data] holds no session, [fetch_traces] returns
    [None] without raising, and [main] prints its diagnostic on the error
    stream and exits with code 1, with nothing on standard output and no
    file written. *)
Theorem absent_session_exits_1 :
  forall (loads : string -> option json)
         (post : string -> string -> Phoenix.response)
         (exn_text : exn -> string)
         (write_file : string -> string -> Phoenix.write_outcome)
         (a : Phoenix.args) (m : dict json) (d : json),
    Phoenix.raise_for_status
      (post (Phoenix.base_url a ++ "/graphql") (Phoenix.session_id a)) = Ret tt ->
    Phoenix.body_json
      (post (Phoenix.base_url a ++ "/graphql") (Phoenix.session_id a))
    = Some (JObj m) ->
    dict_mem m "errors" = false ->
    dict_get m "data" = Some d ->
    session_absent d = true ->
    Phoenix.fetch_traces loads post (Phoenix.session_id a) (Phoenix.base_url a)
    = Ret None
    /\ Phoenix.main loads post exn_text write_file a
       = {| Phoenix.stderr :=
              [ "Fetching traces for session: " ++ Phoenix.session_id a;
                "Phoenix URL: " ++ Phoenix.base_url a;
                "No session found for ID: " ++ Phoenix.session_id a ];
            Phoenix.stdout := [];
            Phoenix.written := [];
            Phoenix.exit_code := 1;
            Phoenix.uncaught := None |}.
Proof.
  intros loads post exn_text write_file a m d Hst Hbody Herr Hd Habs.
  assert (Hfetch : Phoenix.fetch_traces loads post (Phoenix.session_id a)
                     (Phoenix.base_url a) = Ret None).
  { rewrite (fetch_traces_transport _ _ _ _ _ Hst Hbody).
    unfold Phoenix.fetch_traces_payload. simpl. rewrite Herr. simpl.
    rewrite Hd. simpl. unfold session_absent in Habs.
    apply andb_true_iff in Habs. destruct Habs as [Hobj Hfalsy].
    destruct d as [| | | | | |dm]; try discriminate. simpl in *.
    unfold get, get_default.
    destruct (dict_get dm "getProjectSessionById") as [v|]; simpl.
    - rewrite Hfalsy. reflexivity.
    - reflexivity. }
  split; [exact Hfetch|].
  unfold Phoenix.main. rewrite Hfetch. reflexivity.
Qed.

Lemma absent_session_exits_1_witness :
  Phoenix.fetch_traces Json.loads (sample_post no_session_data) "s1"
    "http://localhost:6006" = Ret None
  /\ Phoenix.main Json.loads (sample_post no_session_data) (fun _ => "") writable sample_args
     = {| Phoenix.stderr :=
            [ "Fetching traces for session: s1";
              "Phoenix URL: http://localhost:6006";
              "No session found for ID: s1" ];
          Phoenix.stdout := [];
          Phoenix.written := [];
          Phoenix.exit_code := 1;
          Phoenix.uncaught := None |}.
Proof.
  apply (absent_session_exits_1 Json.loads (sample_post no_session_data)
           (fun _ => "") writable sample_args
           [("data", JObj [("getProjectSessionById", JNull)])]
           (JObj [("getProjectSessionById", JNull)]));
    reflexivity.
Defined.

(** ** The cross-referencer *)

(** C7.  On the list file with the lines [A:x, y] and [B:y], the script
    with [--dashboard A] prints the references [x] and [y] and then the
    counts 1 for [x] and 2 for [y]; with [--reference y] it prints the
    dashboards [A] and [B].  A line break after the last line changes
    nothing. *)
Theorem xref_example :
  XRef.build (XRef.readlines xref_file)
  = Ret ([("A", ["x"; "y"]); ("B", ["y"])], [("x", ["A"]); ("y", ["A"; "B"])])
  /\ XRef.script {| XRef.reference := None; XRef.dashboard := Some "A";
                    XRef.all_dashboards := false |} xref_file []
     = (["['x', 'y']"; " - x: 1"; " - y: 2"; ""], Ret tt)
  /\ XRef.script {| XRef.reference := Some "y"; XRef.dashboard := None;
                    XRef.all_dashboards := false |} xref_file []
     = (["['A', 'B']"; ""], Ret tt)
  /\ XRef.readlines (xref_file ++ String "010" "")
     = ["A:x, y" ++ String "010" ""; "B:y" ++ String "010" ""]
  /\ XRef.build (XRef.readlines (xref_file ++ String "010" ""))
     = XRef.build (XRef.readlines xref_file).
Proof. repeat split; vm_compute; reflexivity. Qed.

(** ** The benchmark lister *)

Lemma distinct_get {V} (es : list (string * V)) :
  distinct (dict_keys es) = true ->
  forall k v, In (k, v) es -> dict_get es k = Some v.
Proof.
  induction es as [|[k' v'] rest IH]; intros Hd k v Hin; [destruct Hin|].
  simpl in Hd. apply andb_true_iff in Hd. destruct Hd as [Hfresh Hd].
  simpl. destruct Hin as [[= -> ->] | Hin].
  - rewrite String.eqb_refl. reflexivity.
  - destruct (String.eqb k k') eqn:E.
    + apply String.eqb_eq in E. subst k'.
      apply negb_true_iff in Hfresh.
      assert (Hex : existsb (String.eqb k) (dict_keys rest) = true).
      { apply existsb_exists. exists k. split.
        - unfold dict_keys. apply in_map_iff. exists (k, v). auto.
        - apply String.eqb_refl. }
      congruence.
    + apply IH; assumption.
Qed.

Lemma unique_names_child es k child :
  Trees.unique_names (Rally.Dir es) = true ->
  dict_get es k = Some child ->
  Trees.unique_names child = true.
Proof.
  simpl. intros H. apply andb_true_iff in H. destruct H as [_ H].
  induction es as [|[k' c] rest IH]; simpl; [discriminate|].
  apply andb_true_iff in H. destruct H as [Hc Hrest].
  destruct (String.eqb k k').
  - intros [= <-]. exact Hc.
  - apply IH. exact Hrest.
Qed.

Lemma unique_names_lookup path :
  forall n m,
    Trees.unique_names n = true ->
    Rally.lookup n path = Some m ->
    Trees.unique_names m = true.
Proof.
  induction path as [|name rest IH]; intros n m Hu Hl; simpl in Hl.
  - injection Hl as <-. exact Hu.
  - destruct n as [|es]; [discriminate|].
    destruct (dict_get es name) as [child|] eqn:E; [|discriminate].
    eapply IH; [|exact Hl]. eapply unique_names_child; eauto.
Qed.

Lemma lookup_app p q :
  forall n,
    Rally.lookup n (p ++ q)
    = match Rally.lookup n p with
      | Some m => Rally.lookup m q
      | None => None
      end.
Proof.
  induction p as [|name rest IH]; intros n; simpl; [reflexivity|].
  destruct n as [|es]; [reflexivity|].
  destruct (dict_get es name); [apply IH | reflexivity].
Qed.

Lemma append_empty_r (s : string) : s ++ "" = s.
Proof. induction s; simpl; congruence. Qed.

Lemma append_cancel_l (p a b : string) : p ++ a = p ++ b -> a = b.
Proof. induction p; simpl; intros H; [exact H | injection H; auto]. Qed.

(** The inner loop, lines 19-22, prints the directories among the entries. *)
Lemma benchmarks_loop root rally_path es :
  Rally.lookup root rally_path = Some (Rally.Dir es) ->
  distinct (dict_keys es) = true ->
  forall l out,
    incl l es ->
    for_io (map fst l)
      (fun b => if negb (Rally.isdir root (rally_path ++ [b])%list) then io_ret tt
                else print ("* " ++ b ++ "")) out
    = ((out ++ map (fun b => ("* " ++ fst b)%string)
                 (filter (fun b => is_dir (snd b)) l))%list,
       Ret tt).
Proof.
  intros Hl Hd l. induction l as [|[b n] rest IH]; intros out Hincl; simpl.
  - rewrite app_nil_r. reflexivity.
  - assert (Hget : dict_get es b = Some n).
    { apply distinct_get; [exact Hd|]. apply Hincl. left. reflexivity. }
    assert (Hdir : Rally.isdir root (rally_path ++ [b])%list = is_dir n).
    { unfold Rally.isdir. rewrite lookup_app, Hl. simpl. rewrite Hget.
      destruct n; reflexivity. }
    unfold io_bind at 1. rewrite Hdir.
    assert (Hrest : incl rest es) by (intros x Hx; apply Hincl; right; exact Hx).
    destruct (is_dir n); simpl.
    + unfold print at 1. rewrite IH by exact Hrest.
      rewrite append_empty_r, <- app_assoc. reflexivity.
    + unfold io_ret at 1. apply IH. exact Hrest.
Qed.

(** The outer loop, lines 9-24, prints one block per entry. *)
Lemma packages_loop readable packages :
  Trees.unique_names (Rally.Dir packages) = true ->
  forallb (rally_listable readable (Rally.Dir packages)) (dict_keys packages)
  = true ->
  forall l out,
    incl l packages ->
    for_io (map fst l)
      (fun package_path =>
         let rally_path := [package_path; "_dev"; "benchmark"; "rally"] in
         if Rally.isdir (Rally.Dir packages) rally_path then
           _ <<- print ("Package: " ++ package_path) ;;
           benchmarks <<- lift (Rally.listdir readable (Rally.Dir packages)
                                  rally_path) ;;
           _ <<- for_io benchmarks (fun b =>
                   if negb (Rally.isdir (Rally.Dir packages) (rally_path ++ [b])%list)
                   then io_ret tt
                   else print ("* " ++ b ++ "")) ;;
           print ""
         else io_ret tt) out
    = ((out ++ flat_map package_block l)%list, Ret tt).
Proof.
  intros Hu Hread l. induction l as [|[name n] rest IH]; intros out Hincl.
  - simpl. rewrite app_nil_r. reflexivity.
  - assert (Hroot : distinct (dict_keys packages) = true).
    { simpl in Hu. apply andb_true_iff in Hu. tauto. }
    assert (Hget : dict_get packages name = Some n).
    { apply distinct_get; [exact Hroot|]. apply Hincl. left. reflexivity. }
    assert (Hrest : incl rest packages) by (intros x Hx; apply Hincl; right; exact Hx).
    assert (Hpath : Rally.lookup (Rally.Dir packages) [name; "_dev"; "benchmark"; "rally"]
                    = Rally.lookup n rally_subpath).
    { change [name; "_dev"; "benchmark"; "rally"] with ([name] ++ rally_subpath)%list.
      rewrite lookup_app. simpl. rewrite Hget. reflexivity. }
    assert (Hmay : rally_listable readable (Rally.Dir packages) name = true).
    { rewrite forallb_forall in Hread. apply Hread. unfold dict_keys.
      apply in_map_iff. exists (name, n). split; [reflexivity|].
      apply Hincl. left. reflexivity. }
    unfold rally_listable, Rally.isdir in Hmay.
    change (name :: rally_subpath) with [name; "_dev"; "benchmark"; "rally"] in Hmay.
    rewrite Hpath in Hmay.
    change (map fst ((name, n) :: rest)) with (name :: map fst rest).
    cbn [for_io]. unfold io_bind at 1. cbv zeta.
    unfold Rally.isdir at 1. rewrite Hpath.
    cbn [flat_map]. unfold package_block at 1. cbn [fst snd].
    destruct (Rally.lookup n rally_subpath) as [[|es]|] eqn:El;
      try (unfold io_ret at 1; rewrite IH by exact Hrest; reflexivity).
    cbn [negb orb] in Hmay.
    assert (Hes : distinct (dict_keys es) = true).
    { assert (Hn : Trees.unique_names n = true)
        by (eapply unique_names_child; eauto).
      pose proof (unique_names_lookup _ _ _ Hn El) as Hx.
      simpl in Hx. apply andb_true_iff in Hx. tauto. }
    unfold io_bind at 1. unfold print at 1.
    unfold io_bind at 1. unfold lift at 1. unfold Rally.listdir.
    rewrite Hpath, Hmay.
    unfold io_bind at 1. unfold dict_keys at 1.
    rewrite (benchmarks_loop (Rally.Dir packages) [name; "_dev"; "benchmark"; "rally"] es)
      by (auto using incl_refl).
    unfold print at 1. rewrite IH by exact Hrest.
    f_equal. repeat rewrite <- app_assoc. cbn [app].
    repeat rewrite <- app_assoc. reflexivity.
Qed.

(** C8.  Over a packages directory, the lister prints, entry by entry, a
    block for each package whose [_dev/benchmark/rally] is a directory and
    nothing for any other entry.  A block is the package's name, one line
    per immediate entry of that directory that is a directory itself, and
    an empty line: a name is listed in the block exactly when it is such a
    directory, and a package's name is printed exactly when the package has
    the [rally] directory. *)
Theorem lister_prints_rally_packages :
  forall (readable : list string -> bool) (packages : list (string * Rally.node)),
    Trees.unique_names (Rally.Dir packages) = true ->
    listable readable (Rally.Dir packages) = true ->
    Rally.list_benchmark_packages readable (Rally.Dir packages) []
    = (flat_map package_block packages, Ret tt)
    /\ (forall name n benchmarks b,
          Rally.lookup n rally_subpath = Some (Rally.Dir benchmarks) ->
          (In ("* " ++ b) (package_block (name, n))
           <-> exists entries, In (b, Rally.Dir entries) benchmarks))
    /\ (forall name,
          In ("Package: " ++ name) (flat_map package_block packages)
          <-> exists n benchmarks,
                In (name, n) packages
                /\ Rally.lookup n rally_subpath = Some (Rally.Dir benchmarks)).
Proof.
  intros readable packages Hu Hmay. split; [|split].
  - unfold listable in Hmay. apply andb_true_iff in Hmay.
    destruct Hmay as [Hroot Hmay].
    unfold Rally.list_benchmark_packages, io_bind, lift, Rally.listdir.
    cbn [Rally.lookup]. rewrite Hroot.
    exact (packages_loop readable packages Hu Hmay packages []
             (incl_refl packages)).
  - intros name n bs b El. unfold package_block. cbn [fst snd]. rewrite El.
    split.
    + intros [H | H]; [discriminate H|].
      apply in_app_or in H. destruct H as [H | [H | []]]; [|discriminate H].
      apply in_map_iff in H. destruct H as [[b' n'] [Hb Hin]].
      apply filter_In in Hin. destruct Hin as [Hin Hdir]. cbn [fst snd] in *.
      apply append_cancel_l in Hb. subst b'.
      destruct n' as [|entries]; [discriminate Hdir|]. eauto.
    + intros [entries Hin]. right. apply in_or_app. left.
      apply in_map_iff. exists (b, Rally.Dir entries). split; [reflexivity|].
      apply filter_In. split; [exact Hin | reflexivity].
  - intros name. rewrite in_flat_map. split.
    + intros [[name' n] [Hin Hblock]]. unfold package_block in Hblock.
      cbn [fst snd] in Hblock.
      destruct (Rally.lookup n rally_subpath) as [[|bs]|] eqn:El;
        try (destruct Hblock).
      * apply append_cancel_l in H. subst name'. eauto.
      * apply in_app_or in H. destruct H as [H | [H | []]].
        -- apply in_map_iff in H. destruct H as [b [Hb _]]. discriminate.
        -- discriminate.
    + intros [n [bs [Hin El]]]. exists (name, n). split; [exact Hin|].
      unfold package_block. cbn [fst snd]. rewrite El. left. reflexivity.
Qed.

Lemma lister_prints_rally_packages_witness :
  Rally.list_benchmark_packages all_readable (Rally.Dir sample_packages) []
  = (["Package: apache"; "* logs"; "* metrics"; ""], Ret tt).
Proof.
  destruct (lister_prints_rally_packages all_readable sample_packages)
    as [Hrun _].
  - vm_compute. reflexivity.
  - vm_compute. reflexivity.
  - rewrite Hrun. vm_compute. reflexivity.
Defined.

(** ** The two mappings of the cross-referencer *)

Lemma dict_get_set {V} (d : dict V) k v k' :
  dict_get (dict_set d k v) k'
  = if String.eqb k' k then Some v else dict_get d k'.
Proof.
  induction d as [|[k0 v0] rest IH]; simpl.
  - reflexivity.
  - destruct (String.eqb k k0) eqn:E; simpl.
    + apply String.eqb_eq in E. subst k0.
      destruct (String.eqb k' k); reflexivity.
    + rewrite IH. destruct (String.eqb k' k0) eqn:E0; [|reflexivity].
      destruct (String.eqb k' k) eqn:E1; [|reflexivity].
      apply String.eqb_eq in E0, E1. subst. rewrite String.eqb_refl in E.
      discriminate.
Qed.

Lemma extend_app o l1 l2 : extend (extend o l1) l2 = extend o (l1 ++ l2).
Proof.
  destruct l1 as [|a l1]; [reflexivity|].
  destruct l2 as [|b l2]; simpl.
  - rewrite app_nil_r. reflexivity.
  - destruct o; simpl; [rewrite <- app_assoc|]; reflexivity.
Qed.

(** Lines 27-31 over the references of one line. *)
Lemma add_references_get dashboard refs :
  forall rd r,
    dict_get (fold_left (XRef.add_reference dashboard) refs rd) r
    = extend (dict_get rd r) (repeat dashboard (occurrences r refs)).
Proof.
  induction refs as [|x refs IH]; intros rd r; [reflexivity|].
  cbn [fold_left]. rewrite IH. unfold occurrences. cbn [count_occ].
  unfold XRef.add_reference.
  destruct (string_dec x r) as [-> | Hne].
  - change (repeat dashboard (S (count_occ string_dec refs r)))
      with ([dashboard] ++ repeat dashboard (count_occ string_dec refs r))%list.
    rewrite <- extend_app. f_equal.
    destruct (dict_get rd r) as [ds|]; rewrite dict_get_set, String.eqb_refl;
      reflexivity.
  - f_equal. apply String.eqb_neq in Hne. rewrite String.eqb_sym in Hne.
    destruct (dict_get rd x); rewrite dict_get_set, Hne; reflexivity.
Qed.

Lemma record_entries_references entries :
  forall t r,
    dict_get (snd (fold_left XRef.record_entry entries t)) r
    = extend (dict_get (snd t) r) (usages r entries).
Proof.
  induction entries as [|[d refs] rest IH]; intros t r; [reflexivity|].
  cbn [fold_left]. rewrite IH. unfold usages. cbn [flat_map fst snd].
  rewrite <- extend_app. f_equal. simpl. apply add_references_get.
Qed.

Lemma record_entries_keep_dashboard after :
  forall t d,
    ~ In d (map fst after) ->
    dict_get (fst (fold_left XRef.record_entry after t)) d = dict_get (fst t) d.
Proof.
  induction after as [|[d' refs] rest IH]; intros t d Hnot; [reflexivity|].
  cbn [fold_left]. rewrite IH.
  - simpl. rewrite dict_get_set.
    destruct (String.eqb d d') eqn:E; [|reflexivity].
    apply String.eqb_eq in E. subst. exfalso. apply Hnot. left. reflexivity.
  - intros Hin. apply Hnot. right. exact Hin.
Qed.

Lemma build_entries lines :
  forall entries t,
    parse_lines lines = Ret entries ->
    for_each lines XRef.add_line t = Ret (fold_left XRef.record_entry entries t).
Proof.
  induction lines as [|line rest IH]; intros entries t H; simpl in H.
  - injection H as <-. reflexivity.
  - destruct (XRef.parse_line line) as [e|] eqn:Ep; [|discriminate].
    simpl in H.
    destruct (parse_lines rest) as [es|] eqn:Er; [|discriminate].
    simpl in H. injection H as <-.
    cbn [for_each]. unfold XRef.add_line at 1. rewrite Ep. simpl.
    apply IH. first [exact Er | reflexivity].
Qed.

Lemma usages_length r entries :
  List.length (usages r entries) = total_occurrences r entries.
Proof.
  unfold usages, total_occurrences.
  induction entries as [|e rest IH]; simpl; [reflexivity|].
  rewrite length_app, repeat_length, IH. reflexivity.
Qed.

Lemma occurrences_distinct r refs :
  distinct refs = true ->
  occurrences r refs = if existsb (String.eqb r) refs then 1 else 0.
Proof.
  unfold occurrences. induction refs as [|x refs IH]; intros Hd; [reflexivity|].
  simpl in Hd. apply andb_true_iff in Hd. destruct Hd as [Hfresh Hd].
  apply negb_true_iff in Hfresh. simpl.
  destruct (string_dec x r) as [-> | Hne].
  - rewrite String.eqb_refl. simpl. rewrite IH by exact Hd. rewrite Hfresh.
    reflexivity.
  - apply String.eqb_neq in Hne. rewrite String.eqb_sym in Hne. rewrite Hne.
    simpl. apply IH. exact Hd.
Qed.

Lemma total_occurrences_distinct r entries :
  forallb (fun e => distinct (snd e)) entries = true ->
  total_occurrences r entries = lines_listing r entries.
Proof.
  unfold total_occurrences, lines_listing.
  induction entries as [|e rest IH]; intros H; [reflexivity|].
  simpl in H. apply andb_true_iff in H. destruct H as [He Hrest].
  simpl. rewrite (occurrences_distinct r (snd e) He), (IH Hrest).
  unfold lists at 2. destruct (existsb (String.eqb r) (snd e)); reflexivity.
Qed.

Lemma nodup_length_le (l : list string) :
  List.length (nodup string_dec l) <= List.length l.
Proof.
  induction l as [|x l IH]; simpl; [lia|].
  destruct (in_dec string_dec x l); simpl; lia.
Qed.

Lemma lines_listing_le_total r entries :
  lines_listing r entries <= total_occurrences r entries.
Proof.
  unfold lines_listing, total_occurrences.
  induction entries as [|e rest IH]; simpl; [lia|].
  unfold lists at 1. destruct (existsb (String.eqb r) (snd e)) eqn:E; simpl; [|lia].
  apply existsb_exists in E. destruct E as [x [Hin Hx]].
  apply String.eqb_eq in Hx. subst x.
  apply (count_occ_In string_dec) in Hin. unfold occurrences in *. lia.
Qed.

(** C10, as stated, fails: with the lines [A:x, x] and [A:x] the dashboard
    [A] is appended three times for [x], once per occurrence, while only
    two lines list [x]. *)
Lemma count_is_lines_listing_fails : ~ count_is_lines_listing.
Proof.
  intros H.
  assert (Hlen : List.length ["A"; "A"; "A"] = lines_listing "x"
                   [("A", ["x"; "x"]); ("A", ["x"])]).
  { apply (H repeated_lines [("A", ["x"; "x"]); ("A", ["x"])]
             ([("A", ["x"])], [("x", ["A"; "A"; "A"])]) "A" "x").
    - vm_compute. reflexivity.
    - vm_compute. lia.
    - vm_compute. reflexivity.
    - vm_compute. reflexivity. }
  vm_compute in Hlen. discriminate.
Qed.

(** C10, amended.  For a list file whose lines all split, the
    dashboard-to-references mapping holds, for each dashboard, the references
    of the last line naming it; the reference-to-dashboards mapping holds,
    for each reference, the dashboards of the lines in file order, each as
    often as its line lists the reference; the count printed for a reference
    is its number of occurrences in the file, which is the number of lines
    listing it when no line lists a reference twice, is never below that
    number nor below the number of distinct dashboards using it, and can
    exceed both. *)
Theorem xref_counts_occurrences :
  forall (lines : list string) (entries : list entry),
    parse_lines lines = Ret entries ->
    exists t,
      XRef.build lines = Ret t
      /\ (forall d refs before after,
            entries = (before ++ (d, refs) :: after)%list ->
            ~ In d (map fst after) ->
            dict_get (fst t) d = Some refs)
      /\ (forall r, dict_get (snd t) r = extend None (usages r entries))
      /\ (forall r out,
            0 < total_occurrences r entries ->
            XRef.print_count t r out
            = ((out ++ [(" - " ++ r ++ ": "
                           ++ Json.string_of_Z
                                (Z.of_nat (total_occurrences r entries)))%string])%list,
               Ret tt))
      /\ (forall r,
            forallb (fun e => distinct (snd e)) entries = true ->
            total_occurrences r entries = lines_listing r entries)
      /\ (forall r,
            dashboards_using r entries <= lines_listing r entries
            /\ lines_listing r entries <= total_occurrences r entries)
      /\ (exists lines' entries' r,
            parse_lines lines' = Ret entries'
            /\ dashboards_using r entries' < lines_listing r entries'
            /\ lines_listing r entries' < total_occurrences r entries').
Proof.
  intros lines entries Hparse.
  exists (fold_left XRef.record_entry entries ([], [])).
  assert (Href : forall r,
             dict_get (snd (fold_left XRef.record_entry entries ([], []))) r
             = extend None (usages r entries)).
  { intros r. apply record_entries_references. }
  split; [apply build_entries; exact Hparse|].
  split.
  { intros d refs before after -> Hlast.
    rewrite fold_left_app. cbn [fold_left].
    rewrite record_entries_keep_dashboard by exact Hlast.
    simpl. rewrite dict_get_set, String.eqb_refl. reflexivity. }
  split; [exact Href|].
  split.
  { intros r out Hpos. unfold XRef.print_count, XRef.lookup_key.
    rewrite Href. rewrite <- usages_length in *.
    destruct (usages r entries) as [|u us]; [simpl in Hpos; lia|].
    reflexivity. }
  split; [intros r; apply total_occurrences_distinct|].
  split.
  { intros r. split; [|apply lines_listing_le_total].
    pose proof (nodup_length_le (map fst (filter (lists r) entries))) as Hn.
    rewrite length_map in Hn. exact Hn. }
  exists repeated_lines, [("A", ["x"; "x"]); ("A", ["x"])], "x".
  split; [vm_compute; reflexivity|]. split; vm_compute; lia.
Qed.

Lemma xref_counts_occurrences_witness :
  exists t,
    XRef.build repeated_lines = Ret t
    /\ dict_get (fst t) "A" = Some ["x"]
    /\ dict_get (snd t) "x" = Some ["A"; "A"; "A"]
    /\ XRef.print_count t "x" [] = ([" - x: 3"], Ret tt).
Proof.
  destruct (xref_counts_occurrences repeated_lines
              [("A", ["x"; "x"]); ("A", ["x"])])
    as [t [Hbuild [Hlast [Hrefs [Hprint _]]]]].
  - vm_compute. reflexivity.
  - exists t. split; [exact Hbuild|]. split.
    + apply (Hlast "A" ["x"] [("A", ["x"; "x"])] []); [reflexivity|].
      intros [].
    + split; [rewrite Hrefs; reflexivity|].
      rewrite Hprint; [reflexivity | vm_compute; lia].
Defined.

(** ** The JSON codec: what [dumps] writes, [loads] reads back *)

Lemma append_assoc (a b c : string) : (a ++ b) ++ c = a ++ (b ++ c).
Proof. induction a; simpl; congruence. Qed.

Lemma length_append (a b : string) :
  String.length (a ++ b) = String.length a + String.length b.
Proof. induction a; simpl; congruence. Qed.

(** *** Strings *)

Lemma scanstring_escape_char (c : ascii) (tail : string) :
  Json.scanstring (Json.escape_char c ++ tail)
  = Json.prepend c (Json.scanstring tail).
Proof.
  destruct c as [[] [] [] [] [] [] [] []]; reflexivity.
Qed.

Lemma scanstring_escape (s rest : string) :
  Json.scanstring (Json.escape s ++ String "034" rest) = Some (s, rest).
Proof.
  induction s as [|c s IH]; [reflexivity|].
  cbn [Json.escape]. rewrite append_assoc, scanstring_escape_char, IH.
  reflexivity.
Qed.

Lemma scanstring_encode_string (s rest : string) :
  exists tail,
    Json.encode_string s ++ rest = String "034" tail
    /\ Json.scanstring tail = Some (s, rest).
Proof.
  exists (Json.escape s ++ String "034" rest). split.
  - unfold Json.encode_string. simpl. rewrite append_assoc. reflexivity.
  - apply scanstring_escape.
Qed.

(** *** Integers *)

Lemma boundary_no_digit s : boundary s = true -> no_digit_ahead s.
Proof.
  destruct s as [|c s]; simpl; [trivial|].
  destruct c as [[] [] [] [] [] [] [] []]; simpl; intros H;
    first [reflexivity | discriminate H].
Qed.

Lemma boundary_no_frac s : boundary s = true -> Json.scan_frac s = (None, s).
Proof.
  destruct s as [|c s]; simpl; [trivial|].
  destruct c as [[] [] [] [] [] [] [] []]; simpl; intros H;
    first [reflexivity | discriminate H].
Qed.

Lemma boundary_no_exponent s :
  boundary s = true -> Json.scan_exponent s = (None, s).
Proof.
  destruct s as [|c s]; simpl; [trivial|].
  destruct c as [[] [] [] [] [] [] [] []]; simpl; intros H;
    first [reflexivity | discriminate H].
Qed.

Lemma scan_digits_uint (d : Decimal.uint) (rest : string) :
  no_digit_ahead rest ->
  Json.scan_digits (NilEmpty.string_of_uint d ++ rest) = (d, rest).
Proof.
  intros Hrest. induction d; simpl;
    try (rewrite IHd; reflexivity).
  destruct rest as [|c rest]; [reflexivity|].
  simpl in *. rewrite Hrest. reflexivity.
Qed.

(** The decimal digits of a positive number do not start with a zero. *)
Lemma to_uint_head (p : positive) :
  match Pos.to_uint p with
  | Decimal.Nil | Decimal.D0 _ => False
  | _ => True
  end.
Proof.
  assert (Hn : Pos.to_uint p = Decimal.unorm (Pos.to_uint p)).
  { rewrite <- DecimalPos.Unsigned.to_of, DecimalPos.Unsigned.of_to.
    reflexivity. }
  pose proof (DecimalPos.Unsigned.to_uint_nonzero p) as Hz.
  pose proof (DecimalFacts.nzhead_nonzero (Pos.to_uint p)) as Hh.
  unfold Decimal.unorm in Hn.
  destruct (Decimal.nzhead (Pos.to_uint p)) eqn:E;
    try (rewrite Hn; exact I).
  - exfalso. apply Hz. exact Hn.
  - exfalso. eapply Hh. reflexivity.
Qed.

Lemma digit_of_uint_head (d : Decimal.uint) (rest : string) :
  match d with
  | Decimal.Nil | Decimal.D0 _ => False
  | _ => True
  end ->
  exists c t,
    (NilEmpty.string_of_uint d ++ rest)%string = String c t
    /\ (Json.code c =? 45)%N = false
    /\ (Json.code c =? 48)%N = false.
Proof.
  destruct d; try contradiction; intros _; simpl; eauto.
Qed.

Lemma scan_number_digits (d : Decimal.uint) (rest : string) :
  match d with
  | Decimal.Nil | Decimal.D0 _ => False
  | _ => True
  end ->
  boundary rest = true ->
  Json.scan_number (NilEmpty.string_of_uint d ++ rest)
  = Some (JInt (Z.of_int (Decimal.Pos d)), rest)
  /\ Json.scan_number (String "-" (NilEmpty.string_of_uint d ++ rest))
     = Some (JInt (Z.of_int (Decimal.Neg d)), rest).
Proof.
  intros Hhead Hb. pose proof (boundary_no_digit rest Hb) as Hd.
  destruct (digit_of_uint_head d rest Hhead) as [c [t [Ht [Hminus Hzero]]]].
  assert (Hint : Json.scan_integer (NilEmpty.string_of_uint d ++ rest)
                 = Some (d, rest)).
  { unfold Json.scan_integer. rewrite Ht, Hzero, <- Ht.
    rewrite (scan_digits_uint d rest Hd).
    destruct d; try contradiction; reflexivity. }
  split; unfold Json.scan_number, Json.scan_literal.
  - assert (Hsign : Json.scan_sign (NilEmpty.string_of_uint d ++ rest)
                    = (false, (NilEmpty.string_of_uint d ++ rest)%string)).
    { unfold Json.scan_sign. rewrite Ht, Hminus. reflexivity. }
    rewrite Hsign, Hint, (boundary_no_frac rest Hb),
      (boundary_no_exponent rest Hb).
    reflexivity.
  - change (Json.scan_sign (String "-" (NilEmpty.string_of_uint d ++ rest)))
      with (true, (NilEmpty.string_of_uint d ++ rest)%string).
    cbv iota beta.
    rewrite Hint, (boundary_no_frac rest Hb), (boundary_no_exponent rest Hb).
    reflexivity.
Qed.

Lemma scan_number_string_of_Z (n : Z) (rest : string) :
  boundary rest = true ->
  Json.scan_number (Json.string_of_Z n ++ rest) = Some (JInt n, rest).
Proof.
  intros Hb.
  rewrite <- (DecimalZ.of_to n) at 2.
  unfold Json.string_of_Z. destruct n as [|p|p].
  - unfold Json.scan_number, Json.scan_literal. simpl.
    rewrite (boundary_no_frac rest Hb), (boundary_no_exponent rest Hb).
    reflexivity.
  - change (Z.to_int (Z.pos p)) with (Decimal.Pos (Pos.to_uint p)).
    pose proof (to_uint_head p) as Hh.
    destruct (scan_number_digits _ rest Hh Hb) as [Hpos _].
    unfold NilZero.string_of_int, NilZero.string_of_uint.
    destruct (Pos.to_uint p); try contradiction; exact Hpos.
  - change (Z.to_int (Z.neg p)) with (Decimal.Neg (Pos.to_uint p)).
    pose proof (to_uint_head p) as Hh.
    destruct (scan_number_digits _ rest Hh Hb) as [_ Hneg].
    unfold NilZero.string_of_int, NilZero.string_of_uint.
    destruct (Pos.to_uint p); try contradiction; exact Hneg.
Qed.

(** *** White space and first characters *)

Lemma skip_ws_spaces n s : Json.skip_ws (Json.spaces n ++ s) = Json.skip_ws s.
Proof. induction n; simpl; auto. Qed.

Lemma skip_ws_newline_indent lvl s :
  Json.skip_ws (Json.newline_indent lvl ++ s) = Json.skip_ws s.
Proof. unfold Json.newline_indent. simpl. apply skip_ws_spaces. Qed.

Lemma value_start_facts c :
  value_start c = true ->
  Json.is_ws c = false
  /\ (Json.code c =? 93)%N = false
  /\ (Json.code c =? 125)%N = false
  /\ (Json.code c =? 44)%N = false.
Proof.
  destruct c as [[] [] [] [] [] [] [] []]; intros H;
    first [discriminate H | repeat split].
Qed.

Lemma skip_ws_value c s :
  value_start c = true -> Json.skip_ws (String c s) = String c s.
Proof.
  intros H. apply value_start_facts in H. destruct H as [H _].
  simpl. rewrite H. reflexivity.
Qed.

Lemma string_of_Z_start n :
  exists c s,
    Json.string_of_Z n = String c s
    /\ ((Json.code c =? 45) || (48 <=? Json.code c) && (Json.code c <=? 57))%N = true.
Proof.
  unfold Json.string_of_Z. destruct n as [|p|p].
  - simpl. eauto.
  - change (Z.to_int (Z.pos p)) with (Decimal.Pos (Pos.to_uint p)).
    pose proof (to_uint_head p) as Hh.
    unfold NilZero.string_of_int, NilZero.string_of_uint.
    destruct (Pos.to_uint p); try contradiction; simpl; eauto.
  - change (Z.to_int (Z.neg p)) with (Decimal.Neg (Pos.to_uint p)).
    simpl. eauto.
Qed.

Lemma scan_once_int fuel c s number :
  ((Json.code c =? 45) || (48 <=? Json.code c) && (Json.code c <=? 57))%N = true ->
  Json.scan_number (String c s) = Some number ->
  Json.scan_once (S fuel) (String c s) = Some number.
Proof.
  intros Hc Hn.
  assert (H : Json.scan_once (S fuel) (String c s)
              = match Json.scan_number (String c s) with
                | Some number => Some number
                | None =>
                    if (Json.code c =? 45)%N
                    then Json.expect "-Infinity" (JFloat "-inf") (String c s)
                    else None
                end).
  { destruct c as [[] [] [] [] [] [] [] []];
      first [discriminate Hc | reflexivity]. }
  rewrite H, Hn. reflexivity.
Qed.

Lemma encode_items_fix lvl xs :
  (fix items (l : list json) : string :=
     match l with
     | [] => ""
     | y :: ys => "," ++ Json.newline_indent (S lvl) ++ Json.encode (S lvl) y
                     ++ items ys
     end) xs
  = Json.encode_items lvl xs.
Proof.
  induction xs as [|y ys IH]; [reflexivity|].
  cbn [Json.encode_items]. rewrite <- IH. reflexivity.
Qed.

Lemma encode_members_fix lvl xs :
  (fix members (l : list (string * json)) : string :=
     match l with
     | [] => ""
     | (k', y) :: ys =>
         "," ++ Json.newline_indent (S lvl) ++ Json.encode_string k' ++ ": "
             ++ Json.encode (S lvl) y ++ members ys
     end) xs
  = Json.encode_members lvl xs.
Proof.
  induction xs as [|[k y] ys IH]; [reflexivity|].
  cbn [Json.encode_members]. rewrite <- IH. reflexivity.
Qed.

Lemma encode_arr lvl x xs :
  Json.encode lvl (JArr (x :: xs))
  = "[" ++ Json.newline_indent (S lvl) ++ Json.encode (S lvl) x
        ++ Json.encode_items lvl xs ++ Json.newline_indent lvl ++ "]".
Proof. cbn [Json.encode]. rewrite encode_items_fix. reflexivity. Qed.

Lemma encode_obj lvl k x xs :
  Json.encode lvl (JObj ((k, x) :: xs))
  = "{" ++ Json.newline_indent (S lvl) ++ Json.encode_string k ++ ": "
        ++ Json.encode (S lvl) x
        ++ Json.encode_members lvl xs ++ Json.newline_indent lvl ++ "}".
Proof. cbn [Json.encode]. rewrite encode_members_fix. reflexivity. Qed.

Lemma encode_start v lvl :
  canonical v = true ->
  exists c s, Json.encode lvl v = String c s /\ value_start c = true.
Proof.
  destruct v as [|b|n|r|s|l|m]; intros Hc.
  - simpl. eauto.
  - destruct b; simpl; eauto.
  - destruct (string_of_Z_start n) as [c [s [Hs Hc']]]. exists c, s.
    split; [exact Hs|]. unfold value_start.
    apply orb_true_iff in Hc'. destruct Hc' as [H | H]; rewrite H;
      repeat rewrite orb_true_r; reflexivity.
  - discriminate.
  - unfold Json.encode, Json.encode_string. eauto.
  - destruct l; [simpl; eauto | rewrite encode_arr; simpl; eauto].
  - destruct m as [|[k x] m]; [simpl; eauto | rewrite encode_obj; simpl; eauto].
Qed.

(** *** Values *)

Lemma scan_once_string fuel s :
  Json.scan_once (S fuel) (String "034" s)
  = match Json.scanstring s with
    | Some (str, r) => Some (JStr str, r)
    | None => None
    end.
Proof. reflexivity. Qed.

Lemma scan_once_array fuel s :
  Json.scan_once (S fuel) (String "[" s)
  = match Json.skip_ws s with
    | String c r =>
        if (Json.code c =? 93)%N then Some (JArr [], r)
        else Json.array_items fuel (String c r) []
    | EmptyString => None
    end.
Proof. reflexivity. Qed.

Lemma scan_once_object fuel s :
  Json.scan_once (S fuel) (String "{" s)
  = match Json.skip_ws s with
    | String c r =>
        if (Json.code c =? 125)%N then Some (JObj [], r)
        else Json.object_members fuel (String c r) []
    | EmptyString => None
    end.
Proof. reflexivity. Qed.

Lemma array_items_step fuel s acc :
  Json.array_items (S fuel) s acc
  = match Json.scan_once fuel s with
    | None => None
    | Some (v, r) =>
        match Json.skip_ws r with
        | String c r' =>
            if (Json.code c =? 93)%N then Some (JArr (acc ++ [v]), r')
            else if (Json.code c =? 44)%N
                 then Json.array_items fuel (Json.skip_ws r') (acc ++ [v])
                 else None
        | EmptyString => None
        end
    end.
Proof. reflexivity. Qed.

Lemma object_members_step fuel s acc :
  Json.object_members (S fuel) (String "034" s) acc
  = match Json.scanstring s with
    | None => None
    | Some (key, r) =>
        match Json.skip_ws r with
        | String colon r1 =>
            if (Json.code colon =? 58)%N then
              match Json.scan_once fuel (Json.skip_ws r1) with
              | None => None
              | Some (v, r2) =>
                  match Json.skip_ws r2 with
                  | String c r3 =>
                      if (Json.code c =? 125)%N
                      then Some (JObj (dict_set acc key v), r3)
                      else if (Json.code c =? 44)%N
                           then Json.object_members fuel (Json.skip_ws r3)
                                  (dict_set acc key v)
                           else None
                  | EmptyString => None
                  end
              end
            else None
        | EmptyString => None
        end
    end.
Proof. reflexivity. Qed.

Lemma skip_ws_encode v lvl rest :
  canonical v = true ->
  Json.skip_ws (Json.encode lvl v ++ rest) = Json.encode lvl v ++ rest.
Proof.
  intros Hc. destruct (encode_start v lvl Hc) as [c [s [Hs Hv]]].
  rewrite Hs. cbn [append]. apply skip_ws_value. exact Hv.
Qed.

Lemma dict_set_fresh {V} (d : dict V) k v :
  existsb (String.eqb k) (dict_keys d) = false ->
  dict_set d k v = (d ++ [(k, v)])%list.
Proof.
  induction d as [|[k' v'] rest IH]; simpl; [reflexivity|].
  intros H. apply orb_false_iff in H. destruct H as [Hk Hrest].
  rewrite Hk, IH by exact Hrest. reflexivity.
Qed.

Lemma distinct_app_fresh (l1 l2 : list string) k :
  distinct (l1 ++ k :: l2) = true ->
  existsb (String.eqb k) l1 = false.
Proof.
  induction l1 as [|a l1 IH]; simpl; [reflexivity|].
  intros H. apply andb_true_iff in H. destruct H as [Ha Hrest].
  rewrite (IH Hrest), orb_false_r.
  apply negb_true_iff in Ha. rewrite existsb_app in Ha.
  apply orb_false_iff in Ha. destruct Ha as [_ Ha]. simpl in Ha.
  apply orb_false_iff in Ha. destruct Ha as [Ha _].
  rewrite String.eqb_sym. exact Ha.
Qed.

Section ScanEncode.

Variable n : nat.

Hypothesis scan_below :
  forall fuel v,
    fuel <= n -> size v <= fuel -> canonical v = true ->
    forall lvl rest,
      boundary rest = true ->
      Json.scan_once fuel (Json.encode lvl v ++ rest) = Some (v, rest).

Lemma array_items_encode lvl rest :
  forall xs g x acc,
    g <= n ->
    list_sum (map (fun x => S (size x)) (x :: xs)) <= g ->
    forallb canonical (x :: xs) = true ->
    Json.array_items g
      (Json.encode (S lvl) x
         ++ Json.encode_items lvl xs ++ Json.newline_indent lvl ++ String "]" rest) acc
    = Some (JArr (acc ++ x :: xs), rest).
Proof.
  induction xs as [|y ys IHxs]; intros g x acc Hg Hsum Hcan;
    cbn [map list_sum] in Hsum; cbn [forallb] in Hcan;
    apply andb_true_iff in Hcan; destruct Hcan as [Hx Hrest];
    (destruct g as [|g]; [simpl in Hsum; lia|]);
    rewrite array_items_step.
  - rewrite scan_below; [| lia | simpl in Hsum; lia | exact Hx | reflexivity].
    cbn [Json.encode_items append]. rewrite skip_ws_newline_indent.
    reflexivity.
  - rewrite scan_below; [| lia | simpl in Hsum; lia | exact Hx | reflexivity].
    cbn [Json.encode_items]. repeat rewrite append_assoc. cbn [append].
    cbn [Json.skip_ws]. change (Json.is_ws ",") with false. cbv iota.
    change (Json.code "," =? 93)%N with false.
    change (Json.code "," =? 44)%N with true. cbv iota.
    rewrite skip_ws_newline_indent.
    cbn [forallb] in Hrest. pose proof Hrest as Hrest'.
    apply andb_true_iff in Hrest'. destruct Hrest' as [Hy _].
    rewrite (skip_ws_encode y (S lvl) _ Hy).
    rewrite (IHxs g y (acc ++ [x])%list); [| lia | simpl in *; lia | exact Hrest].
    rewrite <- app_assoc. reflexivity.
Qed.

Lemma object_members_encode lvl rest :
  forall xs g k x acc,
    g <= n ->
    list_sum (map (fun kv => S (size (snd kv))) ((k, x) :: xs)) <= g ->
    forallb (fun kv => canonical (snd kv)) ((k, x) :: xs) = true ->
    distinct (dict_keys (acc ++ (k, x) :: xs)%list) = true ->
    Json.object_members g
      (Json.encode_string k ++ ": " ++ Json.encode (S lvl) x
         ++ Json.encode_members lvl xs ++ Json.newline_indent lvl ++ String "}" rest) acc
    = Some (JObj (acc ++ (k, x) :: xs), rest).
Proof.
  induction xs as [|[k' y] ys IHxs]; intros g k x acc Hg Hsum Hcan Hdist;
    cbn [map list_sum snd] in Hsum; cbn [forallb snd] in Hcan;
    apply andb_true_iff in Hcan; destruct Hcan as [Hx Hrest];
    (destruct g as [|g]; [simpl in Hsum; lia|]);
    match goal with
    | |- Json.object_members _ (Json.encode_string k ++ ?tail) acc = _ =>
        destruct (scanstring_encode_string k tail) as [after [Hs Hscan]];
        rewrite Hs, object_members_step, Hscan
    end;
    cbn [append Json.skip_ws];
    change (Json.is_ws ":") with false; cbv iota;
    change (Json.code ":" =? 58)%N with true; cbv iota;
    cbn [Json.skip_ws]; change (Json.is_ws " ") with true; cbv iota;
    rewrite (skip_ws_encode x (S lvl) _ Hx);
    assert (Hfresh : dict_set acc k x = (acc ++ [(k, x)])%list)
      by (apply dict_set_fresh; unfold dict_keys in *; rewrite map_app in Hdist;
          eapply distinct_app_fresh; exact Hdist).
  - rewrite scan_below; [| lia | simpl in Hsum; lia | exact Hx | reflexivity].
    cbn [Json.encode_members append]. rewrite skip_ws_newline_indent.
    rewrite Hfresh. reflexivity.
  - rewrite scan_below; [| lia | simpl in Hsum; lia | exact Hx | reflexivity].
    cbn [Json.encode_members]. repeat rewrite append_assoc. cbn [append].
    cbn [Json.skip_ws]. change (Json.is_ws ",") with false. cbv iota.
    change (Json.code "," =? 125)%N with false.
    change (Json.code "," =? 44)%N with true. cbv iota.
    rewrite skip_ws_newline_indent.
    destruct (scanstring_encode_string k'
                (": " ++ Json.encode (S lvl) y ++ Json.encode_members lvl ys
                      ++ Json.newline_indent lvl ++ String "}" rest))
      as [after' [Hs' _]].
    assert (Hskip : forall t, Json.skip_ws (Json.encode_string k' ++ t)
                              = Json.encode_string k' ++ t) by reflexivity.
    rewrite Hskip, Hfresh.
    replace (acc ++ (k, x) :: (k', y) :: ys)%list
      with ((acc ++ [(k, x)]) ++ (k', y) :: ys)%list
      by (rewrite <- app_assoc; reflexivity).
    apply (IHxs g k' y (acc ++ [(k, x)])%list);
      [lia | simpl in *; lia | exact Hrest | rewrite <- app_assoc; exact Hdist].
Qed.

End ScanEncode.

Lemma size_pos v : 1 <= size v.
Proof. destruct v; simpl; lia. Qed.

(** With fuel for its size, [scan_once] reads a serialized canonical value
    back and stops right after it. *)
Lemma scan_encode_bounded :
  forall n fuel v,
    fuel <= n -> size v <= fuel -> canonical v = true ->
    forall lvl rest,
      boundary rest = true ->
      Json.scan_once fuel (Json.encode lvl v ++ rest) = Some (v, rest).
Proof.
  induction n as [|n IHn]; intros fuel v Hle Hsize Hc lvl rest Hb;
    pose proof (size_pos v) as Hpos; [lia|].
  destruct fuel as [|f]; [lia|].
  destruct v as [|b|z|r|s|l|m].
  - reflexivity.
  - destruct b; reflexivity.
  - destruct (string_of_Z_start z) as [c [s [Hs Hstart]]].
    pose proof (scan_number_string_of_Z z rest Hb) as Hi.
    change (Json.encode lvl (JInt z)) with (Json.string_of_Z z).
    rewrite Hs in *. cbn [append] in *.
    apply scan_once_int; [exact Hstart | exact Hi].
  - discriminate.
  - destruct (scanstring_encode_string s rest) as [tail [Hs Hscan]].
    change (Json.encode lvl (JStr s)) with (Json.encode_string s).
    rewrite Hs, scan_once_string, Hscan. reflexivity.
  - destruct l as [|x xs]; [reflexivity|].
    rewrite encode_arr. repeat rewrite append_assoc. cbn [append].
    rewrite scan_once_array, skip_ws_newline_indent.
    cbn [canonical] in Hc. pose proof Hc as Hc'. cbn [forallb] in Hc'.
    apply andb_true_iff in Hc'. destruct Hc' as [Hx _].
    rewrite (skip_ws_encode x (S lvl) _ Hx).
    pose proof (array_items_encode n IHn lvl rest xs f x [] ) as Hitems.
    destruct (encode_start x (S lvl) Hx) as [c [s [Hs Hv]]].
    rewrite Hs in *. cbn [append] in *.
    destruct (value_start_facts c Hv) as [_ [H93 _]]. rewrite H93.
    apply Hitems; [lia | cbn [size] in Hsize; lia | exact Hc].
  - destruct m as [|[k x] xs]; [reflexivity|].
    rewrite encode_obj. repeat rewrite append_assoc. cbn [append].
    rewrite scan_once_object, skip_ws_newline_indent.
    cbn [canonical] in Hc. apply andb_true_iff in Hc. destruct Hc as [Hd Hc].
    pose proof (object_members_encode n IHn lvl rest xs f k x []) as Hmembers.
    unfold Json.encode_string in *. cbn [append Json.skip_ws] in *.
    change (Json.is_ws "034") with false. cbv iota.
    change (Json.code "034" =? 125)%N with false. cbv iota.
    apply Hmembers; [lia | cbn [size] in Hsize; lia | exact Hc | exact Hd].
Qed.

Lemma encode_items_length lvl xs :
  (forall x, In x xs -> size x <= String.length (Json.encode (S lvl) x)) ->
  list_sum (map (fun x => S (size x)) xs)
  <= String.length (Json.encode_items lvl xs).
Proof.
  induction xs as [|y ys IH]; intros H; [simpl; lia|].
  cbn [Json.encode_items map]. repeat rewrite length_append.
  unfold list_sum in *. cbn [String.length fold_right].
  pose proof (H y (or_introl eq_refl)).
  assert (forall x, In x ys -> size x <= String.length (Json.encode (S lvl) x))
    as Hys by (intros x Hx; apply H; right; exact Hx).
  specialize (IH Hys). lia.
Qed.

Lemma encode_members_length lvl xs :
  (forall kv, In kv xs ->
              size (snd kv) <= String.length (Json.encode (S lvl) (snd kv))) ->
  list_sum (map (fun kv => S (size (snd kv))) xs)
  <= String.length (Json.encode_members lvl xs).
Proof.
  induction xs as [|[k y] ys IH]; intros H; [simpl; lia|].
  cbn [Json.encode_members map snd]. repeat rewrite length_append.
  unfold list_sum in *. cbn [String.length fold_right].
  pose proof (H (k, y) (or_introl eq_refl)) as Hy. cbn [snd] in Hy.
  assert (forall kv, In kv ys ->
            size (snd kv) <= String.length (Json.encode (S lvl) (snd kv)))
    as Hys by (intros kv Hx; apply H; right; exact Hx).
  specialize (IH Hys). lia.
Qed.

Lemma size_in_sum {A} (f : A -> nat) (l : list A) x :
  In x l -> f x <= list_sum (map f l).
Proof.
  induction l as [|a l IH]; intros Hin; [destruct Hin|].
  simpl. destruct Hin as [-> | Hin]; [lia | specialize (IH Hin); lia].
Qed.

Lemma string_of_Z_nonempty z : 1 <= String.length (Json.string_of_Z z).
Proof.
  destruct (string_of_Z_start z) as [c [s [Hs _]]]. rewrite Hs. simpl. lia.
Qed.

(** A serialized value is at least as long as the fuel its reading needs. *)
Lemma size_le_length :
  forall n v, size v <= n -> canonical v = true ->
              forall lvl, size v <= String.length (Json.encode lvl v).
Proof.
  induction n as [|n IHn]; intros v Hn Hc lvl;
    pose proof (size_pos v) as Hpos; [lia|].
  destruct v as [|b|z|r|s|l|m].
  - simpl. lia.
  - destruct b; simpl; lia.
  - apply string_of_Z_nonempty.
  - discriminate.
  - simpl. lia.
  - destruct l as [|x xs]; [simpl; lia|].
    rewrite encode_arr. repeat rewrite length_append.
    cbn [canonical forallb] in Hc. apply andb_true_iff in Hc.
    destruct Hc as [Hcx Hcxs]. rewrite forallb_forall in Hcxs.
    cbn [size map] in *. unfold list_sum in *. cbn [fold_right String.length] in *.
    assert (Hx : size x <= String.length (Json.encode (S lvl) x))
      by (apply IHn; [lia | exact Hcx]).
    assert (Hxs : list_sum (map (fun x => S (size x)) xs)
                  <= String.length (Json.encode_items lvl xs)).
    { apply encode_items_length. intros y Hy. apply IHn; [|apply Hcxs; exact Hy].
      pose proof (size_in_sum (fun x => S (size x)) xs y Hy) as Hle.
      unfold list_sum in Hle. lia. }
    unfold list_sum in Hxs. lia.
  - destruct m as [|[k x] xs]; [simpl; lia|].
    rewrite encode_obj. repeat rewrite length_append.
    cbn [canonical] in Hc. apply andb_true_iff in Hc. destruct Hc as [_ Hc].
    cbn [forallb snd] in Hc. apply andb_true_iff in Hc.
    destruct Hc as [Hcx Hcxs]. rewrite forallb_forall in Hcxs.
    cbn [size map snd] in *. unfold list_sum in *. cbn [fold_right String.length] in *.
    assert (Hx : size x <= String.length (Json.encode (S lvl) x))
      by (apply IHn; [lia | exact Hcx]).
    assert (Hxs : list_sum (map (fun kv => S (size (snd kv))) xs)
                  <= String.length (Json.encode_members lvl xs)).
    { apply encode_members_length. intros kv Hy.
      apply IHn; [|apply Hcxs; exact Hy].
      pose proof (size_in_sum (fun kv => S (size (snd kv))) xs kv Hy) as Hle.
      unfold list_sum in Hle. lia. }
    unfold list_sum in Hxs. lia.
Qed.

(** [loads] reads back what [dumps] wrote, at any nesting level. *)
Lemma loads_encode v lvl :
  canonical v = true -> Json.loads (Json.encode lvl v) = Some v.
Proof.
  intros Hc. unfold Json.loads.
  pose proof (skip_ws_encode v lvl "" Hc) as Hskip.
  rewrite append_empty_r in Hskip. rewrite Hskip.
  pose proof (scan_encode_bounded (S (String.length (Json.encode lvl v)))
                (S (String.length (Json.encode lvl v))) v (le_n _)) as Hscan.
  rewrite <- (append_empty_r (Json.encode lvl v)) at 2.
  rewrite Hscan; [reflexivity | | exact Hc | reflexivity].
  pose proof (size_le_length (size v) v (le_n _) Hc lvl). lia.
Qed.

(** ** Keys of a dictionary after an assignment *)

Lemma keys_dict_set {V} (d : dict V) k v a :
  existsb (String.eqb a) (dict_keys (dict_set d k v))
  = existsb (String.eqb a) (dict_keys d) || String.eqb a k.
Proof.
  induction d as [|[k' v'] rest IH]; simpl.
  - apply orb_comm.
  - destruct (String.eqb k k') eqn:E; simpl.
    + apply String.eqb_eq in E. subst k'.
      destruct (String.eqb a k); simpl; [reflexivity|].
      rewrite orb_false_r. reflexivity.
    + rewrite IH. rewrite orb_assoc. reflexivity.
Qed.

Lemma distinct_dict_set {V} (d : dict V) k v :
  distinct (dict_keys d) = true ->
  distinct (dict_keys (dict_set d k v)) = true.
Proof.
  induction d as [|[k' v'] rest IH]; simpl; [reflexivity|].
  intros H. apply andb_true_iff in H. destruct H as [Hfresh Hrest].
  destruct (String.eqb k k') eqn:E; simpl.
  - rewrite Hfresh, Hrest. reflexivity.
  - rewrite (IH Hrest), andb_true_r.
    apply negb_true_iff in Hfresh. apply negb_true_iff.
    change (map fst (dict_set rest k v)) with (dict_keys (dict_set rest k v)).
    rewrite keys_dict_set. change (map fst rest) with (dict_keys rest) in Hfresh.
    rewrite Hfresh. simpl. rewrite String.eqb_sym. exact E.
Qed.

(** ** Runs of [main] *)

Lemma main_of_raise loads post exn_text write_file a e :
  Phoenix.fetch_traces loads post (Phoenix.session_id a) (Phoenix.base_url a)
  = Raise e ->
  Phoenix.main loads post exn_text write_file a
  = failed_run a ("Error fetching traces: " ++ exn_text e).
Proof. intros H. unfold Phoenix.main. rewrite H. reflexivity. Qed.

(** X1.  A response with a 4xx or 5xx status makes [fetch_traces] raise the
    HTTP error without looking at the body, and [main] then prints the error
    on the error stream and exits with code 1, printing and writing no
    document. *)
Theorem http_error_exits_1 :
  forall (loads : string -> option json)
         (post : string -> string -> Phoenix.response)
         (exn_text : exn -> string)
         (write_file : string -> string -> Phoenix.write_outcome)
         (a : Phoenix.args),
    (400 <= Phoenix.status_code (reply post a) < 600)%Z ->
    Phoenix.fetch_traces loads post (Phoenix.session_id a) (Phoenix.base_url a)
    = Raise (HTTPError (Phoenix.status_code (reply post a)))
    /\ Phoenix.main loads post exn_text write_file a
       = failed_run a ("Error fetching traces: "
                         ++ exn_text (HTTPError (Phoenix.status_code (reply post a)))).
Proof.
  intros loads post exn_text write_file a Hst.
  assert (Hfetch : Phoenix.fetch_traces loads post (Phoenix.session_id a)
                     (Phoenix.base_url a)
                   = Raise (HTTPError (Phoenix.status_code (reply post a)))).
  { unfold Phoenix.fetch_traces, Phoenix.raise_for_status, reply in *.
    destruct Hst as [Hlo Hhi].
    apply Z.leb_le in Hlo. apply Z.ltb_lt in Hhi. rewrite Hlo, Hhi. reflexivity. }
  split; [exact Hfetch | apply main_of_raise; exact Hfetch].
Qed.

Lemma http_error_exits_1_witness :
  Phoenix.fetch_traces Json.loads (status_post 503 (Some sample_data)) "s1"
    "http://localhost:6006" = Raise (HTTPError 503)
  /\ Phoenix.main Json.loads (status_post 503 (Some sample_data))
       (fun _ => "503 Server Error") writable sample_args
     = failed_run sample_args "Error fetching traces: 503 Server Error".
Proof.
  apply (http_error_exits_1 Json.loads (status_post 503 (Some sample_data))
           (fun _ => "503 Server Error") writable sample_args).
  simpl. lia.
Defined.

(** X2.  A payload with a top-level [errors] field makes [fetch_traces]
    raise with that field's value, whatever [data] holds beside it, even a
    complete session; [main] then exits with code 1 without a document. *)
Theorem graphql_errors_take_precedence :
  forall (loads : string -> option json)
         (post : string -> string -> Phoenix.response)
         (exn_text : exn -> string)
         (write_file : string -> string -> Phoenix.write_outcome)
         (a : Phoenix.args)
         (m : dict json) (errors : json),
    Phoenix.raise_for_status (reply post a) = Ret tt ->
    Phoenix.body_json (reply post a) = Some (JObj m) ->
    dict_get m "errors" = Some errors ->
    Phoenix.fetch_traces loads post (Phoenix.session_id a) (Phoenix.base_url a)
    = Raise (GraphQLErrors errors)
    /\ Phoenix.main loads post exn_text write_file a
       = failed_run a ("Error fetching traces: " ++ exn_text (GraphQLErrors errors)).
Proof.
  intros loads post exn_text write_file a m errors Hst Hbody Herr.
  assert (Hfetch : Phoenix.fetch_traces loads post (Phoenix.session_id a)
                     (Phoenix.base_url a) = Raise (GraphQLErrors errors)).
  { rewrite (fetch_traces_transport _ _ _ _ _ Hst Hbody).
    unfold Phoenix.fetch_traces_payload, contains, subscript, dict_mem.
    rewrite Herr. reflexivity. }
  split; [exact Hfetch | apply main_of_raise; exact Hfetch].
Qed.

Lemma graphql_errors_take_precedence_witness :
  Phoenix.fetch_traces Json.loads (sample_post errors_and_data) "s1"
    "http://localhost:6006"
  = Raise (GraphQLErrors (JArr [JObj [("message", JStr "partial failure")]]))
  /\ Phoenix.main Json.loads (sample_post errors_and_data)
       (fun _ => "GraphQL errors") writable sample_args
     = failed_run sample_args "Error fetching traces: GraphQL errors".
Proof.
  apply (graphql_errors_take_precedence Json.loads (sample_post errors_and_data)
           (fun _ => "GraphQL errors") writable sample_args
           [ ("data", JObj [("getProjectSessionById", sample_session)]);
             ("errors", JArr [JObj [("message", JStr "partial failure")]]) ]);
    reflexivity.
Defined.

(** X3.  Whatever the server answers and whatever the file system does,
    [main] ends with code 0 or 1 and its error stream starts with the two
    banner lines.  With code 0 no exception escaped and the document went to
    exactly one place: the file named by [--output], where the file system
    stored it, or standard output when no (or an empty) path was given.
    With code 1 nothing is on standard output, and nothing is at the output
    path either, unless the write of the document itself failed half-way:
    then the path holds what the failed write left there and its exception
    has escaped. *)
Theorem main_exit_discipline :
  forall (loads : string -> option json)
         (post : string -> string -> Phoenix.response)
         (exn_text : exn -> string)
         (write_file : string -> string -> Phoenix.write_outcome)
         (a : Phoenix.args),
    let p := Phoenix.main loads post exn_text write_file a in
    (Phoenix.exit_code p = 0%Z \/ Phoenix.exit_code p = 1%Z)
    /\ firstn 2 (Phoenix.stderr p) = banner a
    /\ (Phoenix.exit_code p = 0%Z ->
        Phoenix.uncaught p = None
        /\ exists document,
             match output_path a with
             | Some path =>
                 write_file path document = Phoenix.Stored
                 /\ Phoenix.written p = [(path, document)]
                 /\ Phoenix.stdout p = []
             | None =>
                 Phoenix.written p = [] /\ Phoenix.stdout p = [document]
             end)
    /\ (Phoenix.exit_code p = 1%Z ->
        Phoenix.stdout p = []
        /\ (Phoenix.written p = []
            \/ exists path document e text,
                 output_path a = Some path
                 /\ write_file path document = Phoenix.Failed e (Some text)
                 /\ Phoenix.written p = [(path, text)]
                 /\ Phoenix.uncaught p = Some e)).
Proof.
  intros loads post exn_text write_file a. unfold Phoenix.main, output_path.
  destruct (Phoenix.fetch_traces loads post (Phoenix.session_id a)
              (Phoenix.base_url a)) as [r|e]; cbv zeta.
  - destruct (negb (truthy match r with Some v => v | None => JNull end)).
    + simpl. repeat split; auto; discriminate.
    + destruct (Phoenix.summarise _) as [[found document]|e].
      * destruct (Phoenix.output a) as [path|].
        -- destruct (String.eqb path "").
           ++ simpl. repeat split; auto; try discriminate. exists document. auto.
           ++ cbn [negb].
              destruct (write_file path document) as [|e remains] eqn:Hw.
              ** simpl. repeat split; auto; try discriminate.
                 exists document. auto.
              ** simpl. split; [auto|]. split; [reflexivity|].
                 split; [discriminate|]. intros _. split; [reflexivity|].
                 destruct remains as [text|]; [right|left; reflexivity].
                 exists path, document, e, text. auto.
        -- simpl. repeat split; auto; try discriminate. exists document. auto.
      * simpl. repeat split; auto; discriminate.
  - simpl. repeat split; auto; discriminate.
Qed.

(** A run of [main] under a file system that stores nothing: code 1 after
    the summary line, and the failure escapes. *)
Lemma read_only_run_exits_1 :
  let p := Phoenix.main Json.loads (sample_post sample_data) (fun _ => "")
             read_only sample_args in
  Phoenix.exit_code p = 1%Z
  /\ Phoenix.uncaught p = Some OSError
  /\ Phoenix.written p = []
  /\ Phoenix.stdout p = []
  /\ Phoenix.stderr p = [ "Fetching traces for session: s1";
                          "Phoenix URL: http://localhost:6006";
                          "Found 2 trace(s) with 3 span(s)" ].
Proof. vm_compute. repeat split. Qed.

Lemma span_sum_loop (trace_edges ts : list json) :
  Forall2 (fun edge t =>
             exists trace spans,
               t = flat_trace trace spans
               /\ List.length spans = List.length (span_edges edge))
          trace_edges ts ->
  forall acc,
    for_each ts
      (fun acc t =>
         spans <- subscript t "spans" ;;
         n <- len spans ;;
         Ret (acc + n)%Z)
      acc
    = Ret (acc + Z.of_nat (span_total trace_edges))%Z.
Proof.
  induction 1 as [|edge t edges ts [trace [spans [-> Hlen]]] Hrest IH]; intros acc.
  - simpl. f_equal. unfold span_total. simpl. lia.
  - cbn [for_each]. unfold flat_trace at 1. simpl subscript. cbn [bind len].
    rewrite IH. f_equal. unfold span_total. cbn [map]. unfold list_sum.
    cbn [fold_right]. rewrite Hlen. lia.
Qed.

Lemma flattened_traces_shape loads (trace_edges ts : list json) :
  forallb trace_edge_ok trace_edges = true ->
  Forall2 (fun te t => Phoenix.flatten_trace loads te = Ret t) trace_edges ts ->
  Forall2 (fun edge t =>
             exists trace spans,
               t = flat_trace trace spans
               /\ List.length spans = List.length (span_edges edge))
          trace_edges ts.
Proof.
  intros Hok Hall. rewrite forallb_forall in Hok.
  eapply Forall2_impl_in; [|exact Hall].
  intros edge t Hin Hflat. cbv beta in Hflat.
  specialize (Hok edge Hin). pose proof Hok as Hte. unfold trace_edge_ok in Hok.
  destruct (field edge "node") as [trace|] eqn:Et; [|discriminate].
  destruct (flatten_trace_ok loads edge trace Et Hte) as [spans [Hf Hspans]].
  rewrite Hf in Hflat. injection Hflat as <-.
  exists trace, spans. split; [reflexivity|].
  symmetry. eapply Forall2_length. exact Hspans.
Qed.

(** X4.  On a well-formed response [main] prints, after the banner, the
    summary line with the [numTraces] field as the server sent it and the
    number of span edges of all traces together.  The document is the
    serialized result.  Without an [--output] path it is printed on standard
    output and the code is 0.  With a path it is handed to the file system:
    when that stores it, the path is named on the error stream and the code
    is 0; when that fails, the exception leaves [main], no further line is
    printed, the path holds what the failed write left, and the code
    is 1. *)
Theorem main_reports_and_writes :
  forall (loads : string -> option json)
         (post : string -> string -> Phoenix.response)
         (exn_text : exn -> string)
         (write_file : string -> string -> Phoenix.write_outcome)
         (a : Phoenix.args)
         (data session numTraces : json) (trace_edges : list json),
    Phoenix.raise_for_status (reply post a) = Ret tt ->
    Phoenix.body_json (reply post a) = Some data ->
    session_of data = Some session ->
    session_ok session = true ->
    edges session "traces" = Some trace_edges ->
    field session "numTraces" = Some numTraces ->
    exists result,
      Phoenix.fetch_traces loads post (Phoenix.session_id a) (Phoenix.base_url a)
      = Ret (Some result)
      /\ let found :=
           ("Found " ++ Json.str numTraces ++ " trace(s) with "
              ++ Json.string_of_Z (Z.of_nat (span_total trace_edges))
              ++ " span(s)")%string in
         Phoenix.main loads post exn_text write_file a
         = match output_path a with
           | None =>
               {| Phoenix.stderr := banner a ++ [found];
                  Phoenix.stdout := [Json.dumps result];
                  Phoenix.written := [];
                  Phoenix.exit_code := 0;
                  Phoenix.uncaught := None |}
           | Some path =>
               match write_file path (Json.dumps result) with
               | Phoenix.Stored =>
                   {| Phoenix.stderr :=
                        banner a
                          ++ [found; ("Traces written to: " ++ path)%string];
                      Phoenix.stdout := [];
                      Phoenix.written := [(path, Json.dumps result)];
                      Phoenix.exit_code := 0;
                      Phoenix.uncaught := None |}
               | Phoenix.Failed e remains =>
                   {| Phoenix.stderr := banner a ++ [found];
                      Phoenix.stdout := [];
                      Phoenix.written :=
                        match remains with
                        | Some text => [(path, text)]
                        | None => []
                        end;
                      Phoenix.exit_code := 1;
                      Phoenix.uncaught := Some e |}
               end
           end.
Proof.
  intros loads post exn_text write_file a data session numTraces trace_edges
         Hst Hbody Hs Hok He Hn.
  destruct (fetch_session_ok loads data session Hs Hok) as [traces [Hrun Hall]].
  rewrite He in Hall.
  assert (Hedges : forallb trace_edge_ok trace_edges = true).
  { unfold session_ok in Hok. rewrite He in Hok.
    apply andb_true_iff in Hok. tauto. }
  pose proof (flattened_traces_shape loads _ _ Hedges Hall) as Hshape.
  assert (Hfetch : Phoenix.fetch_traces loads post (Phoenix.session_id a)
                     (Phoenix.base_url a)
                   = Ret (Some (flat_session session traces))).
  { unfold reply in *. rewrite (fetch_traces_transport _ _ _ _ _ Hst Hbody).
    exact Hrun. }
  exists (flat_session session traces). split; [exact Hfetch|].
  cbv zeta. unfold Phoenix.main. rewrite Hfetch. cbv zeta.
  change (negb (truthy (flat_session session traces))) with false. cbv iota.
  assert (Hsum : Phoenix.summarise (flat_session session traces)
                 = Ret (("Found " ++ Json.str numTraces ++ " trace(s) with "
                           ++ Json.string_of_Z (Z.of_nat (span_total trace_edges))
                           ++ " span(s)")%string,
                        Json.dumps (flat_session session traces))).
  { unfold Phoenix.summarise.
    change (subscript (flat_session session traces) "traces") with (Ret (JArr traces)).
    cbn [bind iterate]. rewrite (span_sum_loop _ _ Hshape 0%Z). cbn [bind].
    change (subscript (flat_session session traces) "numTraces")
      with (Ret (or_null (field session "numTraces"))).
    rewrite Hn. reflexivity. }
  rewrite Hsum. unfold output_path, banner.
  destruct (Phoenix.output a) as [path|]; [|reflexivity].
  destruct (String.eqb path ""); [reflexivity|]. cbn [negb].
  destruct (write_file path (Json.dumps (flat_session session traces)));
    reflexivity.
Qed.

Lemma main_reports_and_writes_witness :
  (exists result,
     Phoenix.fetch_traces Json.loads (sample_post sample_data) "s1"
       "http://localhost:6006" = Ret (Some result)
     /\ Phoenix.main Json.loads (sample_post sample_data) (fun _ => "")
          writable sample_args
        = {| Phoenix.stderr :=
               [ "Fetching traces for session: s1";
                 "Phoenix URL: http://localhost:6006";
                 "Found 2 trace(s) with 3 span(s)";
                 "Traces written to: traces.json" ];
             Phoenix.stdout := [];
             Phoenix.written := [("traces.json", Json.dumps result)];
             Phoenix.exit_code := 0;
             Phoenix.uncaught := None |})
  /\ Phoenix.main Json.loads (sample_post sample_data) (fun _ => "")
       read_only sample_args
     = {| Phoenix.stderr :=
            [ "Fetching traces for session: s1";
              "Phoenix URL: http://localhost:6006";
              "Found 2 trace(s) with 3 span(s)" ];
          Phoenix.stdout := [];
          Phoenix.written := [];
          Phoenix.exit_code := 1;
          Phoenix.uncaught := Some OSError |}.
Proof.
  split.
  - destruct (main_reports_and_writes Json.loads (sample_post sample_data)
                (fun _ => "") writable sample_args sample_data sample_session
                (JInt 2) sample_trace_edges
                eq_refl eq_refl eq_refl eq_refl eq_refl eq_refl)
      as [result [Hfetch Hmain]].
    exists result. split; [exact Hfetch|]. rewrite Hmain. reflexivity.
  - destruct (main_reports_and_writes Json.loads (sample_post sample_data)
                (fun _ => "") read_only sample_args sample_data sample_session
                (JInt 2) sample_trace_edges
                eq_refl eq_refl eq_refl eq_refl eq_refl eq_refl)
      as [result [Hfetch Hmain]].
    rewrite Hmain. reflexivity.
Defined.

Ltac split_ands :=
  repeat match goal with
         | H : _ && _ = true |- _ => apply andb_true_iff in H; destruct H
         end.

Ltac fetch_keys :=
  repeat match goal with
         | H : dict_mem _ _ = true |- _ =>
             apply dict_mem_get in H; destruct H as [? H]
         end.

Lemma for_each_raise {A B} (f : A -> py B) (before after : list A) bad e :
  Forall (fun x => exists y, f x = Ret y) before ->
  f bad = Raise e ->
  forall acc,
    for_each (before ++ bad :: after)
      (fun acc x => y <- f x ;; Ret (acc ++ [y])%list) acc
    = Raise e.
Proof.
  intros Hbefore Hbad. induction Hbefore as [|x before [y Hy] _ IH]; intros acc.
  - simpl. rewrite Hbad. reflexivity.
  - simpl. rewrite Hy. simpl. apply IH.
Qed.

Lemma failing_span_aborts_trace loads edge trace before bad after e :
  field edge "node" = Some trace ->
  has_keys trace trace_keys = true ->
  edges trace "spans" = Some (before ++ bad :: after)%list ->
  forallb span_edge_ok before = true ->
  Phoenix.flatten_span loads bad = Raise e ->
  Phoenix.flatten_trace loads edge = Raise e.
Proof.
  intros Hnode Hkeys He Hbefore Hbad.
  unfold Phoenix.flatten_trace. rewrite (subscript_field _ _ _ Hnode). simpl.
  rewrite (edges_of_ok _ _ _ He).
  destruct trace as [| | | | | |m]; try discriminate.
  unfold has_keys in Hkeys. simpl in Hkeys. split_ands. fetch_keys. simpl.
  repeat match goal with H : dict_get m _ = Some _ |- _ => rewrite H; clear H end.
  simpl.
  rewrite (for_each_raise (Phoenix.flatten_span loads) before after bad e);
    [reflexivity | | exact Hbad].
  rewrite forallb_forall in Hbefore. apply Forall_forall. intros se Hin.
  specialize (Hbefore se Hin). unfold span_edge_ok in Hbefore.
  destruct (field se "node") as [span|] eqn:Es; [|discriminate].
  eexists. eapply flatten_span_ok; eauto.
Qed.

Lemma failing_trace_aborts_payload loads data session before bad after e :
  session_of data = Some session ->
  truthy session = true ->
  has_keys session session_keys = true ->
  edges session "traces" = Some (before ++ bad :: after)%list ->
  forallb trace_edge_ok before = true ->
  Phoenix.flatten_trace loads bad = Raise e ->
  Phoenix.fetch_traces_payload loads data = Raise e.
Proof.
  intros Hs Htruthy Hkeys He Hbefore Hbad.
  unfold session_of in Hs. destruct data as [| | | | | |dm]; try discriminate.
  unfold Phoenix.fetch_traces_payload. simpl.
  destruct (dict_mem dm "errors"); [discriminate|]. simpl.
  unfold get_default, get.
  destruct (dict_get dm "data") as [d|]; [|discriminate]. simpl.
  destruct d as [| | | | | |pm]; try discriminate. simpl in Hs. unfold get_default.
  rewrite Hs. simpl. rewrite Htruthy. simpl.
  rewrite (edges_of_ok _ _ _ He).
  destruct session as [| | | | | |m]; try discriminate.
  unfold has_keys in Hkeys. simpl in Hkeys. split_ands. fetch_keys. simpl.
  repeat match goal with H : dict_get m _ = Some _ |- _ => rewrite H; clear H end.
  simpl.
  rewrite (for_each_raise (Phoenix.flatten_trace loads) before after bad e);
    [reflexivity | | exact Hbad].
  rewrite forallb_forall in Hbefore. apply Forall_forall. intros te Hin.
  specialize (Hbefore te Hin). pose proof Hbefore as Hte.
  unfold trace_edge_ok in Hbefore.
  destruct (field te "node") as [trace|] eqn:Et; [|discriminate].
  destruct (flatten_trace_ok loads te trace Et Hte) as [spans [Hf _]]. eauto.
Qed.

(** X5.  The fetch is all or nothing: when flattening one span edge raises
    (a span node without a key the fetcher subscripts, say), the traces and
    spans flattened before it are dropped, [fetch_traces] raises that very
    exception, and [main] exits with code 1 without a document. *)
Theorem one_bad_span_loses_the_session :
  forall (loads : string -> option json)
         (post : string -> string -> Phoenix.response)
         (exn_text : exn -> string)
         (write_file : string -> string -> Phoenix.write_outcome)
         (a : Phoenix.args)
         (data session trace : json)
         (traces_before traces_after spans_before spans_after : list json)
         (bad_trace bad_span : json) (e : exn),
    Phoenix.raise_for_status (reply post a) = Ret tt ->
    Phoenix.body_json (reply post a) = Some data ->
    session_of data = Some session ->
    truthy session = true ->
    has_keys session session_keys = true ->
    edges session "traces"
    = Some (traces_before ++ bad_trace :: traces_after)%list ->
    forallb trace_edge_ok traces_before = true ->
    field bad_trace "node" = Some trace ->
    has_keys trace trace_keys = true ->
    edges trace "spans" = Some (spans_before ++ bad_span :: spans_after)%list ->
    forallb span_edge_ok spans_before = true ->
    Phoenix.flatten_span loads bad_span = Raise e ->
    Phoenix.fetch_traces loads post (Phoenix.session_id a) (Phoenix.base_url a)
    = Raise e
    /\ Phoenix.main loads post exn_text write_file a
       = failed_run a ("Error fetching traces: " ++ exn_text e).
Proof.
  intros loads post exn_text write_file a data session trace tb ta sb sa bad_trace bad_span e
         Hst Hbody Hs Htruthy Hkeys He Htb Hnode Htkeys Hse Hsb Hbad.
  assert (Hfetch : Phoenix.fetch_traces loads post (Phoenix.session_id a)
                     (Phoenix.base_url a) = Raise e).
  { unfold reply in *. rewrite (fetch_traces_transport _ _ _ _ _ Hst Hbody).
    eapply failing_trace_aborts_payload; eauto.
    eapply failing_span_aborts_trace; eauto. }
  split; [exact Hfetch | apply main_of_raise; exact Hfetch].
Qed.

Lemma one_bad_span_loses_the_session_witness :
  Phoenix.fetch_traces Json.loads
    (sample_post (JObj [("data", JObj [("getProjectSessionById", broken_session)])]))
    "s1" "http://localhost:6006"
  = Raise (KeyError "tokenCountTotal")
  /\ Phoenix.main Json.loads
       (sample_post (JObj [("data", JObj [("getProjectSessionById", broken_session)])]))
       (fun _ => "'tokenCountTotal'") writable sample_args
     = failed_run sample_args "Error fetching traces: 'tokenCountTotal'".
Proof.
  apply (one_bad_span_loses_the_session Json.loads
           (sample_post (JObj [("data", JObj [("getProjectSessionById", broken_session)])]))
           (fun _ => "'tokenCountTotal'") writable sample_args
           (JObj [("data", JObj [("getProjectSessionById", broken_session)])])
           broken_session
           (or_null (field (sample_trace "t2" [ sample_span "b" "{}";
                                                 span_without_token_total ]) "node"))
           [ sample_trace "t1" [ sample_span "a" "{}" ] ]
           [ sample_trace "t3" [] ]
           [ sample_span "b" "{}" ] []
           (sample_trace "t2" [ sample_span "b" "{}"; span_without_token_total ])
           span_without_token_total (KeyError "tokenCountTotal"));
    vm_compute; reflexivity.
Defined.

(** X6.  In a flattened span, [input] and [output] hold the [value] member
    of the node's object of that name ([null] when the object has no such
    member), and [null] when the node's field is falsy, an empty object
    included. *)
Theorem input_output_hold_the_value :
  forall (loads : string -> option json) (span_edge span : json) (k : string),
    field span_edge "node" = Some span ->
    span_ok span = true ->
    In k ["input"; "output"] ->
    exists out,
      Phoenix.flatten_span loads span_edge = Ret out
      /\ (forall m,
            field span k = Some (JObj m) -> m <> [] ->
            field out k = Some (or_null (dict_get m "value")))
      /\ (forall v,
            field span k = Some v -> truthy v = false ->
            field out k = Some JNull).
Proof.
  intros loads e span k Hnode Hok Hin.
  exists (flat_span loads span).
  split; [apply flatten_span_ok; assumption|].
  simpl in Hin. destruct Hin as [<- | [<- | []]]; (split;
    [ intros m Hm Hne; simpl; unfold flat_value; rewrite Hm;
      destruct m; [contradiction | reflexivity]
    | intros v Hv Hfalsy; simpl; unfold flat_value; rewrite Hv, Hfalsy;
      reflexivity ]).
Qed.

Lemma input_output_hold_the_value_witness :
  exists out,
    Phoenix.flatten_span Json.loads (sample_span "a" "{}") = Ret out
    /\ (forall m,
          field (or_null (field (sample_span "a" "{}") "node")) "input"
          = Some (JObj m) ->
          m <> [] -> field out "input" = Some (or_null (dict_get m "value")))
    /\ (forall v,
          field (or_null (field (sample_span "a" "{}") "node")) "input" = Some v ->
          truthy v = false -> field out "input" = Some JNull).
Proof.
  apply (input_output_hold_the_value Json.loads (sample_span "a" "{}")
           (or_null (field (sample_span "a" "{}") "node")) "input").
  - reflexivity.
  - reflexivity.
  - simpl. auto.
Defined.

(** X7.  Flattening passes the scalar fields on untouched: the name, kind,
    status code, timestamps, latency, parent id and the three token counts
    of a flattened span are the node's own values (the parent id stays a
    plain field, no tree is built), and the status message is the node's,
    or [null] when the node has none. *)
Theorem scalar_fields_pass_through :
  forall (loads : string -> option json) (span_edge span : json),
    field span_edge "node" = Some span ->
    span_ok span = true ->
    exists out,
      Phoenix.flatten_span loads span_edge = Ret out
      /\ (forall k, In k (span_core_keys ++ token_keys)%list ->
                    field out k = field span k)
      /\ field out "statusMessage" = Some (or_null (field span "statusMessage")).
Proof.
  intros loads e span Hnode Hok.
  exists (flat_span loads span).
  split; [apply flatten_span_ok; assumption|]. split; [|reflexivity].
  intros k Hin.
  assert (Hk : exists x, field span k = Some x).
  { unfold span_ok, span_core_ok in Hok.
    apply andb_true_iff in Hok. destruct Hok as [Hcore Htok].
    apply andb_true_iff in Hcore. destruct Hcore as [Hcore _].
    apply andb_true_iff in Hcore. destruct Hcore as [Hcore _].
    apply in_app_or in Hin. destruct Hin as [Hin | Hin];
      [ apply (has_keys_field span span_core_keys k Hcore Hin)
      | apply (has_keys_field span token_keys k Htok Hin) ]. }
  destruct Hk as [x Hx]. rewrite Hx.
  simpl in Hin.
  repeat (destruct Hin as [<- | Hin]; [simpl; rewrite Hx; reflexivity|]).
  destruct Hin.
Qed.

Lemma scalar_fields_pass_through_witness :
  exists out,
    Phoenix.flatten_span Json.loads (sample_span "a" "{}") = Ret out
    /\ (forall k, In k (span_core_keys ++ token_keys)%list ->
                  field out k
                  = field (or_null (field (sample_span "a" "{}") "node")) k)
    /\ field out "statusMessage"
       = Some (or_null (field (or_null (field (sample_span "a" "{}") "node"))
                              "statusMessage")).
Proof.
  apply (scalar_fields_pass_through Json.loads (sample_span "a" "{}")
           (or_null (field (sample_span "a" "{}") "node")));
    reflexivity.
Defined.

(** ** The document [main] writes *)

Lemma summarise_document result found document :
  Phoenix.summarise result = Ret (found, document) ->
  document = Json.dumps result.
Proof.
  unfold Phoenix.summarise.
  destruct (subscript result "traces") as [traces|]; [|discriminate].
  cbn [bind]. destruct (iterate traces) as [ts|]; [|discriminate].
  cbn [bind]. destruct (for_each ts _ 0%Z) as [total|]; [|discriminate].
  cbn [bind]. destruct (subscript result "numTraces") as [n|]; [|discriminate].
  cbn [bind]. intros [= _ <-]. reflexivity.
Qed.

(** X8.  What [main] delivers can be read back.  When the fetched result
    holds no float and no key twice in an object, and [main] ends with
    code 0, the document it printed or stored reads back, with
    [json.loads], as the very result that was fetched. *)
Theorem document_reads_back :
  forall (loads : string -> option json)
         (post : string -> string -> Phoenix.response)
         (exn_text : exn -> string)
         (write_file : string -> string -> Phoenix.write_outcome)
         (a : Phoenix.args) (result : json),
    Phoenix.fetch_traces loads post (Phoenix.session_id a) (Phoenix.base_url a)
    = Ret (Some result) ->
    canonical result = true ->
    let p := Phoenix.main loads post exn_text write_file a in
    Phoenix.exit_code p = 0%Z ->
    forall document,
      Phoenix.stdout p = [document]
      \/ (exists path, Phoenix.written p = [(path, document)]) ->
      Json.loads document = Some result.
Proof.
  intros loads post exn_text write_file a result Hfetch Hcan.
  unfold Phoenix.main. rewrite Hfetch. cbv zeta.
  destruct (negb (truthy result)); [discriminate|].
  destruct (Phoenix.summarise result) as [[found text]|e] eqn:Hsum;
    [|discriminate].
  apply summarise_document in Hsum. subst text.
  assert (Hback : Json.loads (Json.dumps result) = Some result)
    by (apply loads_encode; exact Hcan).
  assert (Hout : forall document,
             [Json.dumps result] = [document]
             \/ (exists path : string,
                   @nil (string * string) = [(path, document)]) ->
             Json.loads document = Some result).
  { intros document [[= <-] | [path H]]; [exact Hback | discriminate H]. }
  destruct (Phoenix.output a) as [path|]; [|intros _; exact Hout].
  destruct (String.eqb path ""); cbn [negb]; [intros _; exact Hout|].
  destruct (write_file path (Json.dumps result)); [|discriminate].
  intros _ document [H | [path' H]]; [discriminate H|].
  injection H as _ <-. exact Hback.
Qed.

Lemma document_reads_back_witness :
  Json.loads (Json.dumps (fetched plain_data))
  = Some (fetched plain_data).
Proof.
  apply (document_reads_back Json.loads (sample_post plain_data) (fun _ => "")
           writable sample_args (fetched plain_data));
    try (vm_compute; reflexivity).
  right. exists "traces.json". vm_compute. reflexivity.
Defined.

(** ** The lister on any tree *)

Lemma for_io_completes {A} (body : A -> io unit) :
  forall xs,
    (forall x, In x xs ->
               forall out, exists lines, body x out = ((out ++ lines)%list, Ret tt)) ->
    forall out,
      exists lines, for_io xs body out = ((out ++ lines)%list, Ret tt).
Proof.
  induction xs as [|x xs IH]; intros Hbody out.
  - exists []. rewrite app_nil_r. reflexivity.
  - destruct (Hbody x (or_introl eq_refl) out) as [l1 H1].
    destruct (IH (fun y Hy => Hbody y (or_intror Hy)) (out ++ l1)%list)
      as [l2 H2].
    exists (l1 ++ l2)%list. cbn [for_io]. unfold io_bind. rewrite H1, H2.
    rewrite app_assoc. reflexivity.
Qed.

(** A loop stops at the first element on which its body fails; what was
    printed until then stays. *)
Lemma for_io_fails {A} (body : A -> io unit) before bad after e last_lines :
  (forall x, In x before ->
             forall out, exists lines, body x out = ((out ++ lines)%list, Ret tt)) ->
  (forall out, body bad out = ((out ++ last_lines)%list, Raise e)) ->
  forall out,
    exists lines,
      for_io (before ++ bad :: after) body out
      = ((out ++ lines ++ last_lines)%list, Raise e).
Proof.
  intros Hbefore Hbad out.
  destruct (for_io_completes body before Hbefore out) as [lines Hrun].
  exists lines. revert out lines Hrun.
  induction before as [|x before IH]; intros out lines Hrun.
  - cbn [for_io] in Hrun. unfold io_ret in Hrun.
    injection Hrun as Hlines.
    assert (lines = []) as ->.
    { apply (app_inv_head out). rewrite app_nil_r. symmetry. exact Hlines. }
    cbn [app for_io]. unfold io_bind. rewrite Hbad. reflexivity.
  - cbn [app for_io] in *. unfold io_bind in *.
    destruct (Hbefore x (or_introl eq_refl) out) as [l1 H1].
    rewrite H1 in *.
    destruct (for_io_completes body before
                (fun y Hy => Hbefore y (or_intror Hy)) (out ++ l1)%list)
      as [l2 H2].
    rewrite H2 in Hrun. injection Hrun as Hlines.
    rewrite <- app_assoc in Hlines. apply app_inv_head in Hlines. subst lines.
    destruct (IH (fun y Hy => Hbefore y (or_intror Hy)) (out ++ l1)%list l2 H2)
      as [].
    rewrite (IH (fun y Hy => Hbefore y (or_intror Hy)) (out ++ l1)%list l2 H2).
    repeat rewrite <- app_assoc. reflexivity.
Qed.

Lemma lister_unfolded readable root :
  Rally.list_benchmark_packages readable root
  = (packages <<- lift (Rally.listdir readable root []) ;;
     for_io packages (lister_step readable root)).
Proof. reflexivity. Qed.

(** One round of the outer loop: it completes when the entry has no [rally]
    directory or one the process may list, and fails right after the
    package line otherwise. *)
Lemma lister_step_cases readable root name out :
  exists lines,
    lister_step readable root name out
    = if rally_listable readable root name
      then ((out ++ lines)%list, Ret tt)
      else ((out ++ [("Package: " ++ name)%string])%list, Raise OSError).
Proof.
  unfold lister_step, rally_listable. cbv zeta.
  change (name :: rally_subpath) with [name; "_dev"; "benchmark"; "rally"].
  unfold Rally.isdir, Rally.listdir.
  destruct (Rally.lookup root [name; "_dev"; "benchmark"; "rally"])
    as [[|bs]|]; try (exists []; rewrite app_nil_r; reflexivity).
  cbn [negb orb].
  destruct (readable [name; "_dev"; "benchmark"; "rally"]).
  - match goal with
    | |- context [for_io _ ?body] =>
        destruct (for_io_completes body (dict_keys bs))
          with (out := (out ++ [("Package: " ++ name)%string])%list)
          as [inner Hinner]
    end.
    + intros b _ o. cbv beta. destruct (negb _).
      * exists []. rewrite app_nil_r. reflexivity.
      * exists ["* " ++ b ++ ""]. reflexivity.
    + exists (("Package: " ++ name)%string :: inner ++ [""])%list.
      unfold io_bind at 1. unfold print at 1.
      unfold io_bind at 1. unfold lift at 1.
      unfold io_bind at 1. rewrite Hinner. unfold print.
      f_equal. repeat rewrite <- app_assoc. reflexivity.
  - exists []. reflexivity.
Qed.

Lemma first_refusal (f : string -> bool) (names : list string) :
  forallb f names = false ->
  exists before name after,
    names = (before ++ name :: after)%list
    /\ forallb f before = true /\ f name = false.
Proof.
  induction names as [|n rest IH]; [discriminate|].
  cbn [forallb]. destruct (f n) eqn:E.
  - intros H. destruct (IH H) as [before [name [after [-> [Hb Hn]]]]].
    exists (n :: before), name, after. cbn [forallb]. rewrite E. auto.
  - intros _. exists [], n, rest. auto.
Qed.

(** X9.  The lister fails exactly where the operating system refuses a
    listing.  When the packages path is not a directory it may list, it
    fails before printing anything.  When it may list the packages
    directory and the [rally] directory of every entry that has one, it ends
    normally, whatever else lies in the tree (plain files among the
    packages, packages without the subpath, a [rally] that is a file, names
    occurring twice).  When the first [rally] directory it may not list is
    that of the entry [name], it fails there: the line naming that package
    is the last one printed and the entries after it are not looked at.
    Lines printed earlier stay in every case. *)
Theorem lister_fails_where_listing_is_refused :
  forall (readable : list string -> bool) (root : Rally.node) (out : list string),
    (Rally.listdir readable root [] = Raise OSError ->
     Rally.list_benchmark_packages readable root out = (out, Raise OSError))
    /\ (listable readable root = true ->
        exists lines,
          Rally.list_benchmark_packages readable root out
          = ((out ++ lines)%list, Ret tt))
    /\ (forall packages before name after,
          root = Rally.Dir packages ->
          readable [] = true ->
          dict_keys packages = (before ++ name :: after)%list ->
          forallb (rally_listable readable root) before = true ->
          rally_listable readable root name = false ->
          exists lines,
            Rally.list_benchmark_packages readable root out
            = ((out ++ lines ++ [("Package: " ++ name)%string])%list,
               Raise OSError))
    /\ (listable readable root = false ->
        exists lines,
          Rally.list_benchmark_packages readable root out
          = ((out ++ lines)%list, Raise OSError)).
Proof.
  intros readable root out.
  assert (Hcomplete : forall names,
             forallb (rally_listable readable root) names = true ->
             forall x, In x names ->
             forall o, exists lines,
               lister_step readable root x o = ((o ++ lines)%list, Ret tt)).
  { intros names Hall x Hin o. rewrite forallb_forall in Hall.
    destruct (lister_step_cases readable root x o) as [lines H].
    rewrite (Hall x Hin) in H. eauto. }
  assert (Hthird : forall packages before name after,
             root = Rally.Dir packages ->
             readable [] = true ->
             dict_keys packages = (before ++ name :: after)%list ->
             forallb (rally_listable readable root) before = true ->
             rally_listable readable root name = false ->
             exists lines,
               Rally.list_benchmark_packages readable root out
               = ((out ++ lines ++ [("Package: " ++ name)%string])%list,
                  Raise OSError)).
  { intros packages before name after -> Hroot Hkeys Hbefore Hname.
    rewrite lister_unfolded. unfold io_bind, lift, Rally.listdir.
    cbn [Rally.lookup]. rewrite Hroot, Hkeys.
    apply for_io_fails.
    - exact (Hcomplete before Hbefore).
    - intros o. destruct (lister_step_cases readable (Rally.Dir packages) name o)
        as [lines H].
      rewrite Hname in H. exact H. }
  split; [|split; [|split]].
  - intros Hfail. rewrite lister_unfolded. unfold io_bind, lift.
    rewrite Hfail. reflexivity.
  - intros Hmay. destruct root as [|packages]; [discriminate|].
    unfold listable in Hmay. apply andb_true_iff in Hmay.
    destruct Hmay as [Hroot Hall].
    rewrite lister_unfolded. unfold io_bind, lift, Rally.listdir.
    cbn [Rally.lookup]. rewrite Hroot.
    apply for_io_completes. exact (Hcomplete _ Hall).
  - exact Hthird.
  - intros Hno. destruct root as [|packages].
    + exists []. rewrite app_nil_r. reflexivity.
    + unfold listable in Hno.
      destruct (bool_dec (readable []) true) as [Hroot|Hroot].
      * rewrite Hroot in Hno. cbn [andb] in Hno.
        destruct (first_refusal _ _ Hno) as [before [name [after [Hk [Hb Hn]]]]].
        destruct (Hthird packages before name after eq_refl Hroot Hk Hb Hn)
          as [lines Hrun].
        exists (lines ++ [("Package: " ++ name)%string])%list. exact Hrun.
      * apply not_true_is_false in Hroot.
        exists []. rewrite app_nil_r. rewrite lister_unfolded.
        unfold io_bind, lift, Rally.listdir. cbn [Rally.lookup].
        rewrite Hroot. reflexivity.
Qed.

Lemma lister_fails_where_listing_is_refused_witness :
  Rally.list_benchmark_packages (all_but_rally_of "mysql2")
    (Rally.Dir unreadable_packages) []
  = (["Package: apache"; "* logs"; ""; "Package: mysql2"], Raise OSError).
Proof.
  destruct (lister_fails_where_listing_is_refused (all_but_rally_of "mysql2")
              (Rally.Dir unreadable_packages) [])
    as [_ [_ [Hthird _]]].
  destruct (Hthird unreadable_packages ["apache"; "README.md"] "mysql2" ["nginx"]
              eq_refl eq_refl eq_refl eq_refl eq_refl)
    as [lines Hrun].
  rewrite Hrun. clear Hthird.
  assert (Hlines : lines = ["Package: apache"; "* logs"; ""]).
  { assert (Hvalue : Rally.list_benchmark_packages (all_but_rally_of "mysql2")
                       (Rally.Dir unreadable_packages) []
                     = (["Package: apache"; "* logs"; ""; "Package: mysql2"],
                        Raise OSError)) by (vm_compute; reflexivity).
    rewrite Hvalue in Hrun. injection Hrun as Hrun.
    symmetry.
    apply (app_inj_tail ["Package: apache"; "* logs"; ""] lines
             "Package: mysql2" "Package: mysql2" Hrun). }
  rewrite Hlines. reflexivity.
Defined.

(** ** Lines of the list file *)

Lemma split_without_separator sep s :
  Json.has_char sep s = false -> XRef.split sep s = [s].
Proof.
  induction s as [|c s IH]; [reflexivity|].
  simpl. intros H. apply orb_false_iff in H. destruct H as [Hc Hs].
  rewrite Ascii.eqb_sym, Hc, (IH Hs). reflexivity.
Qed.

Lemma split_at_separator sep a b :
  Json.has_char sep a = false ->
  XRef.split sep (a ++ String sep b) = a :: XRef.split sep b.
Proof.
  induction a as [|c a IH]; simpl.
  - intros _. rewrite Ascii.eqb_refl. reflexivity.
  - intros H. apply orb_false_iff in H. destruct H as [Hc Ha].
    rewrite Ascii.eqb_sym, Hc, (IH Ha). reflexivity.
Qed.

Lemma split_nonempty sep s : XRef.split sep s <> [].
Proof.
  destruct s as [|c s]; simpl; [discriminate|].
  destruct (Ascii.eqb c sep); [discriminate|].
  destruct (XRef.split sep s); discriminate.
Qed.

Lemma split_with_separator sep s :
  Json.has_char sep s = true ->
  exists a b rest, XRef.split sep s = a :: b :: rest.
Proof.
  induction s as [|c s IH]; simpl; [discriminate|].
  rewrite Ascii.eqb_sym. destruct (Ascii.eqb c sep) eqn:E; simpl.
  - intros _. destruct (XRef.split sep s) as [|b rest] eqn:Es.
    + exfalso. eapply split_nonempty. exact Es.
    + eauto.
  - intros H. destruct (IH H) as [a [b [rest Hs]]]. rewrite Hs. eauto.
Qed.

Lemma parse_line_colon line :
  XRef.parse_line line
  = if has_colon line
    then match XRef.split ":" line with
         | d :: f :: _ => Ret (d, map XRef.strip (XRef.split "," f))
         | _ => Raise IndexError
         end
    else Raise IndexError.
Proof.
  unfold XRef.parse_line, has_colon.
  destruct (Json.has_char ":" line) eqn:E.
  - destruct (split_with_separator ":" line E) as [a [b [rest Hs]]].
    rewrite Hs. reflexivity.
  - rewrite (split_without_separator ":" line E). reflexivity.
Qed.

Lemma parse_lines_colons lines :
  forallb has_colon lines = true -> exists entries, parse_lines lines = Ret entries.
Proof.
  induction lines as [|line rest IH]; intros H; [exists []; reflexivity|].
  simpl in H. apply andb_true_iff in H. destruct H as [Hl Hrest].
  destruct (IH Hrest) as [es Hes]. cbn [parse_lines].
  rewrite parse_line_colon, Hl.
  destruct (split_with_separator ":" line Hl) as [a [b [more Hs]]].
  rewrite Hs. simpl. rewrite Hes. simpl. eauto.
Qed.

Lemma build_without_colon lines :
  forallb has_colon lines = false ->
  forall t, for_each lines XRef.add_line t = Raise IndexError.
Proof.
  induction lines as [|line rest IH]; intros H t; [discriminate|].
  simpl in H. cbn [for_each]. unfold XRef.add_line at 1.
  rewrite parse_line_colon.
  destruct (has_colon line) eqn:Hl; [|reflexivity].
  destruct (split_with_separator ":" line Hl) as [a [b [more Hs]]].
  rewrite Hs. simpl. apply IH. exact H.
Qed.

(** X10.  The script reads every line before it prints: when each line of
    the list file has a colon the two mappings are built and the report
    runs; when some line has none (an empty line at the end of the file is
    enough) the script ends with [IndexError] and has printed nothing,
    whatever was asked for. *)
Theorem script_needs_a_colon_on_every_line :
  forall (a : XRef.args) (content : string) (out : list string),
    if forallb has_colon (XRef.readlines content)
    then exists t,
           XRef.build (XRef.readlines content) = Ret t
           /\ XRef.script a content out = XRef.report a t out
    else XRef.script a content out = (out, Raise IndexError).
Proof.
  intros a content out.
  destruct (forallb has_colon (XRef.readlines content)) eqn:E.
  - destruct (parse_lines_colons _ E) as [entries He].
    pose proof (build_entries _ entries ([], []) He) as Hb.
    exists (fold_left XRef.record_entry entries ([], [])).
    split; [exact Hb|].
    unfold XRef.script, io_bind, lift. unfold XRef.build. rewrite Hb. reflexivity.
  - unfold XRef.script, io_bind, lift, XRef.build.
    rewrite (build_without_colon _ E). reflexivity.
Qed.

(** X11.  Of a line only the text before the first colon and the text
    between the first and the second colon count: the former is the
    dashboard, taken as it stands (white space included), the latter is cut
    at the commas into the references; whatever follows a second colon is
    ignored. *)
Theorem text_after_second_colon_is_ignored :
  forall d f rest : string,
    has_colon d = false ->
    has_colon f = false ->
    XRef.parse_line (d ++ String ":" f)
    = Ret (d, map XRef.strip (XRef.split "," f))
    /\ XRef.parse_line (d ++ String ":" (f ++ String ":" rest))
       = Ret (d, map XRef.strip (XRef.split "," f)).
Proof.
  intros d f rest Hd Hf. unfold has_colon in *. unfold XRef.parse_line. split.
  - rewrite (split_at_separator ":" d f Hd).
    rewrite (split_without_separator ":" f Hf). reflexivity.
  - rewrite (split_at_separator ":" d _ Hd).
    rewrite (split_at_separator ":" f rest Hf). reflexivity.
Qed.

Lemma text_after_second_colon_is_ignored_witness :
  XRef.parse_line (" A " ++ String ":" "x, y")
  = Ret (" A ", map XRef.strip (XRef.split "," "x, y"))
  /\ XRef.parse_line (" A " ++ String ":" ("x, y" ++ String ":" "z, w"))
     = Ret (" A ", map XRef.strip (XRef.split "," "x, y")).
Proof.
  apply (text_after_second_colon_is_ignored " A " "x, y" "z, w"); reflexivity.
Defined.

Lemma script_needs_a_colon_on_every_line_witness :
  XRef.script (ask_dashboard "A") colonless_file [] = ([], Raise IndexError).
Proof.
  exact (script_needs_a_colon_on_every_line (ask_dashboard "A") colonless_file []).
Defined.

(** ** Reports of the cross-referencer *)

Lemma covered_record_entry t entry :
  covered t -> covered (XRef.record_entry t entry).
Proof.
  intros Hcov. destruct entry as [d refs]. unfold covered, XRef.record_entry.
  cbn [fst snd]. intros d' refs' r Hget Hin.
  rewrite add_references_get. rewrite dict_get_set in Hget.
  destruct (String.eqb d' d) eqn:E.
  - injection Hget as <-.
    assert (Hocc : occurrences r refs > 0)
      by (unfold occurrences; apply (count_occ_In string_dec); exact Hin).
    destruct (occurrences r refs) as [|n]; [lia|]. cbn [repeat extend].
    eexists. split; [reflexivity|].
    destruct (dict_get (snd t) r) as [ds|]; [|discriminate].
    destruct ds; discriminate.
  - destruct (Hcov d' refs' r Hget Hin) as [ds [Hds Hne]]. rewrite Hds.
    destruct (repeat d (occurrences r refs)) as [|x l]; cbn [extend].
    + eauto.
    + eexists. split; [reflexivity|]. destruct ds; [contradiction | discriminate].
Qed.

Lemma covered_fold entries :
  forall t, covered t -> covered (fold_left XRef.record_entry entries t).
Proof.
  induction entries as [|e rest IH]; intros t H; [exact H|].
  cbn [fold_left]. apply IH. apply covered_record_entry. exact H.
Qed.

Lemma covered_empty : covered ([], []).
Proof. intros d refs r H. discriminate. Qed.

Lemma parse_lines_of_build lines :
  forall t t',
    for_each lines XRef.add_line t = Ret t' ->
    exists entries,
      parse_lines lines = Ret entries
      /\ t' = fold_left XRef.record_entry entries t.
Proof.
  induction lines as [|line rest IH]; intros t t' H.
  - injection H as <-. exists []. split; reflexivity.
  - cbn [for_each] in H. unfold XRef.add_line at 1 in H.
    destruct (XRef.parse_line line) as [e|] eqn:Ep; [|discriminate].
    simpl in H. destruct (IH _ _ H) as [es [Hes Ht]].
    exists (e :: es). cbn [parse_lines]. rewrite Ep. simpl. rewrite Hes.
    split; [reflexivity | exact Ht].
Qed.

Lemma build_covered lines t : XRef.build lines = Ret t -> covered t.
Proof.
  intros H. destruct (parse_lines_of_build lines _ _ H) as [es [_ ->]].
  apply covered_fold. apply covered_empty.
Qed.

(** The loop of lines 38-40 and 47-49 over references that are all known. *)
Lemma count_loop t refs :
  (forall r, In r refs -> exists ds, dict_get (snd t) r = Some ds) ->
  forall out,
    for_io refs (XRef.print_count t) out
    = ((out ++ map (count_line t) refs)%list, Ret tt).
Proof.
  induction refs as [|r refs IH]; intros Hknown out.
  - simpl. rewrite app_nil_r. reflexivity.
  - destruct (Hknown r (or_introl eq_refl)) as [ds Hds].
    cbn [for_io]. unfold io_bind at 1.
    unfold XRef.print_count at 1. unfold io_bind, lift, XRef.lookup_key.
    rewrite Hds. unfold print.
    rewrite IH by (intros r' Hr'; apply Hknown; right; exact Hr').
    cbn [map].
    assert (Hline : count_line t r
                    = " - " ++ r ++ ": "
                        ++ Json.string_of_Z (Z.of_nat (List.length ds)))
      by (unfold count_line, users; rewrite Hds; reflexivity).
    rewrite Hline, <- app_assoc. reflexivity.
Qed.

(** X12.  After the mappings are built, every reference a dashboard lists
    is a key of the reference-to-dashboards mapping, with a count of at
    least one.  So the report for a dashboard of the file never fails in
    its counting loop: it prints the dashboard's list, one count line per
    listed reference (repeats included, in the line's order) and an empty
    line. *)
Theorem dashboard_report_never_fails :
  forall (lines : list string) (t : XRef.tables) (d : string)
         (refs out : list string),
    XRef.build lines = Ret t ->
    dict_get (fst t) d = Some refs ->
    d <> "" ->
    XRef.report (ask_dashboard d) t out
    = ((out ++ XRef.repr_list refs :: map (count_line t) refs ++ [""])%list, Ret tt)
    /\ Forall (fun r => 1 <= List.length (users t r)) refs.
Proof.
  intros lines t d refs out Hbuild Hget Hd.
  pose proof (build_covered lines t Hbuild) as Hcov.
  assert (Hknown : forall r, In r refs -> exists ds, dict_get (snd t) r = Some ds).
  { intros r Hin. destruct (Hcov d refs r Hget Hin) as [ds [Hds _]]. eauto. }
  split.
  - unfold XRef.report, ask_dashboard. cbn [XRef.reference XRef.dashboard
      XRef.all_dashboards XRef.given].
    apply String.eqb_neq in Hd. rewrite Hd.
    unfold io_bind at 1. unfold io_ret at 1.
    unfold io_bind at 1. unfold io_bind at 1. unfold lift at 1.
    unfold XRef.lookup_key. rewrite Hget.
    unfold io_bind at 1. unfold print at 1.
    rewrite (count_loop t refs Hknown). unfold io_bind, print, io_ret.
    f_equal. repeat rewrite <- app_assoc. reflexivity.
  - apply Forall_forall. intros r Hin.
    destruct (Hcov d refs r Hget Hin) as [ds [Hds Hne]].
    unfold users. rewrite Hds. cbn [or_nil].
    destruct ds; [contradiction | simpl; lia].
Qed.

Lemma dashboard_report_never_fails_witness :
  XRef.report (ask_dashboard "A")
    ([("A", ["x"])], [("x", ["A"; "A"; "A"])]) []
  = ([XRef.repr_list ["x"]; " - x: 3"; ""], Ret tt)
  /\ Forall (fun r => 1 <= List.length
                            (users ([("A", ["x"])], [("x", ["A"; "A"; "A"])]) r))
            ["x"].
Proof.
  apply (dashboard_report_never_fails repeated_lines
           ([("A", ["x"])], [("x", ["A"; "A"; "A"])]) "A" ["x"] []).
  - vm_compute. reflexivity.
  - reflexivity.
  - discriminate.
Defined.

Lemma usages_of_unlisted r entries :
  total_occurrences r entries = 0 -> usages r entries = [].
Proof.
  intros H. rewrite <- usages_length in H.
  destruct (usages r entries); [reflexivity | discriminate].
Qed.

(** X13.  Asking for a name the file does not hold ends in [KeyError] with
    nothing printed: a reference that no line lists, or a dashboard that no
    line starts with.  Nothing is printed as a default or an empty list. *)
Theorem unknown_name_raises_key_error :
  forall (lines : list string) (entries : list entry),
    parse_lines lines = Ret entries ->
    exists t,
      XRef.build lines = Ret t
      /\ (forall r out,
            r <> "" -> total_occurrences r entries = 0 ->
            XRef.report (ask_reference r) t out = (out, Raise (KeyError r)))
      /\ (forall d out,
            d <> "" -> ~ In d (map fst entries) ->
            XRef.report (ask_dashboard d) t out = (out, Raise (KeyError d))).
Proof.
  intros lines entries Hparse.
  exists (fold_left XRef.record_entry entries ([], [])).
  split; [apply build_entries; exact Hparse|]. split.
  - intros r out Hr Hnone.
    unfold XRef.report, ask_reference. cbn [XRef.reference XRef.given].
    apply String.eqb_neq in Hr. rewrite Hr.
    unfold io_bind at 1. unfold io_bind at 1. unfold lift at 1.
    unfold XRef.lookup_key.
    rewrite record_entries_references, (usages_of_unlisted r entries Hnone).
    reflexivity.
  - intros d out Hd Hnot.
    unfold XRef.report, ask_dashboard.
    cbn [XRef.reference XRef.dashboard XRef.given].
    apply String.eqb_neq in Hd. rewrite Hd.
    unfold io_bind at 1. unfold io_ret at 1.
    unfold io_bind at 1. unfold io_bind at 1. unfold lift at 1.
    unfold XRef.lookup_key.
    rewrite (record_entries_keep_dashboard entries ([], []) d Hnot).
    reflexivity.
Qed.

Lemma unknown_name_raises_key_error_witness :
  exists t,
    XRef.build (XRef.readlines xref_file) = Ret t
    /\ XRef.report (ask_reference "z") t [] = ([], Raise (KeyError "z"))
    /\ XRef.report (ask_dashboard "C") t [] = ([], Raise (KeyError "C")).
Proof.
  destruct (unknown_name_raises_key_error (XRef.readlines xref_file)
              [("A", ["x"; "y"]); ("B", ["y"])])
    as [t [Hbuild [Href Hdash]]].
  - vm_compute. reflexivity.
  - exists t. split; [exact Hbuild|]. split.
    + apply Href; [discriminate | reflexivity].
    + apply Hdash; [discriminate|]. simpl. intros [H | [H | []]]; discriminate.
Defined.

Lemma keys_after_set {V} (d : dict V) k v :
  dict_keys (dict_set d k v)
  = if existsb (String.eqb k) (dict_keys d) then dict_keys d
    else (dict_keys d ++ [k])%list.
Proof.
  induction d as [|[k' v'] rest IH]; simpl; [reflexivity|].
  destruct (String.eqb k k') eqn:E; simpl; [reflexivity|].
  unfold dict_keys in *. rewrite IH.
  destruct (existsb (String.eqb k) (map fst rest)); reflexivity.
Qed.

Lemma keys_of_fold entries :
  forall t,
    dict_keys (fst (fold_left XRef.record_entry entries t))
    = first_seen_from (dict_keys (fst t)) (map fst entries).
Proof.
  induction entries as [|[d refs] rest IH]; intros t; [reflexivity|].
  cbn [fold_left map fst first_seen_from]. rewrite IH.
  unfold XRef.record_entry. cbn [fst]. rewrite keys_after_set. reflexivity.
Qed.

Lemma distinct_fold entries :
  forall t,
    distinct (dict_keys (fst t)) = true ->
    distinct (dict_keys (fst (fold_left XRef.record_entry entries t))) = true.
Proof.
  induction entries as [|[d refs] rest IH]; intros t H; [exact H|].
  cbn [fold_left]. apply IH. unfold XRef.record_entry. cbn [fst].
  apply distinct_dict_set. exact H.
Qed.

Lemma key_has_value {V} (d : dict V) k :
  In k (dict_keys d) -> exists v, dict_get d k = Some v.
Proof.
  induction d as [|[k' v'] rest IH]; simpl; [intros []|].
  destruct (String.eqb k k') eqn:E; [eauto|].
  intros [-> | Hin]; [rewrite String.eqb_refl in E; discriminate | auto].
Qed.

Lemma dashboards_loop t :
  covered t ->
  forall ds out,
    (forall d, In d ds -> In d (dict_keys (fst t))) ->
    for_io ds
      (fun d =>
         _ <<- print ("Dashboard " ++ d ++ ":") ;;
         references <<- lift (XRef.lookup_key (fst t) d) ;;
         _ <<- for_io references (XRef.print_count t) ;;
         print "") out
    = ((out ++ flat_map (dashboard_block t) ds)%list, Ret tt).
Proof.
  intros Hcov ds. induction ds as [|d ds IH]; intros out Hkeys.
  - simpl. rewrite app_nil_r. reflexivity.
  - destruct (key_has_value (fst t) d (Hkeys d (or_introl eq_refl))) as [refs Hrefs].
    cbn [for_io flat_map]. unfold io_bind at 1.
    unfold io_bind at 1. unfold print at 1.
    unfold io_bind at 1. unfold lift at 1. unfold XRef.lookup_key. rewrite Hrefs.
    unfold io_bind at 1.
    rewrite (count_loop t refs).
    + unfold print at 1.
      rewrite IH by (intros d' Hd'; apply Hkeys; right; exact Hd').
      unfold dashboard_block at 2. rewrite Hrefs. cbn [or_nil].
      f_equal. repeat rewrite <- app_assoc. cbn [app].
      repeat rewrite <- app_assoc. reflexivity.
    + intros r Hin. destruct (Hcov d refs r Hrefs Hin) as [x [Hx _]]. eauto.
Qed.

(** X14.  With [--all_dashboards] the script prints an empty line and then
    one block per dashboard, each dashboard once, in the order in which the
    dashboards first appear in the file, however many lines name it; the
    block is the header, a count line per reference of the dashboard's last
    line, and an empty line.  No lookup in it fails. *)
Theorem all_dashboards_lists_each_once :
  forall (lines : list string) (entries : list entry) (out : list string),
    parse_lines lines = Ret entries ->
    exists t,
      XRef.build lines = Ret t
      /\ dict_keys (fst t) = first_seen (map fst entries)
      /\ distinct (first_seen (map fst entries)) = true
      /\ XRef.report ask_all t out
         = ((out ++ "" :: flat_map (dashboard_block t)
                            (first_seen (map fst entries)))%list,
            Ret tt).
Proof.
  intros lines entries out Hparse.
  exists (fold_left XRef.record_entry entries ([], [])).
  assert (Hkeys : dict_keys (fst (fold_left XRef.record_entry entries ([], [])))
                  = first_seen (map fst entries))
    by apply keys_of_fold.
  split; [apply build_entries; exact Hparse|]. split; [exact Hkeys|]. split.
  - rewrite <- Hkeys. apply distinct_fold. reflexivity.
  - unfold XRef.report, ask_all.
    cbn [XRef.reference XRef.dashboard XRef.all_dashboards XRef.given].
    unfold io_bind at 1. unfold io_ret at 1.
    unfold io_bind at 1. unfold io_ret at 1.
    unfold io_bind at 1. unfold print at 1.
    rewrite dashboards_loop.
    + rewrite Hkeys. f_equal. rewrite <- app_assoc. reflexivity.
    + apply covered_fold. apply covered_empty.
    + auto.
Qed.

Lemma all_dashboards_lists_each_once_witness :
  exists t,
    XRef.build repeated_lines = Ret t
    /\ dict_keys (fst t) = ["A"]
    /\ XRef.report ask_all t [] = ([""; "Dashboard A:"; " - x: 3"; ""], Ret tt).
Proof.
  destruct (all_dashboards_lists_each_once repeated_lines
              [("A", ["x"; "x"]); ("A", ["x"])] [])
    as [t [Hbuild [Hkeys [_ Hrun]]]].
  - vm_compute. reflexivity.
  - assert (Ht : t = ([("A", ["x"])], [("x", ["A"; "A"; "A"])])).
    { vm_compute in Hbuild. injection Hbuild as <-. reflexivity. }
    exists t. split; [exact Hbuild|]. split; [exact Hkeys|].
    rewrite Hrun, Ht. vm_compute. reflexivity.
Defined.

(** ** Trimmed references *)

Lemma lstrip_start s : starts_with_space (XRef.lstrip s) = false.
Proof.
  induction s as [|c s IH]; [reflexivity|].
  simpl. destruct (XRef.isspace c) eqn:E; [exact IH | simpl; exact E].
Qed.

Lemma lstrip_fixed s : starts_with_space s = false -> XRef.lstrip s = s.
Proof. destruct s as [|c s]; simpl; [reflexivity | intros ->; reflexivity]. Qed.

Lemma rstrip_start s :
  starts_with_space s = false -> starts_with_space (XRef.rstrip s) = false.
Proof.
  destruct s as [|c s]; simpl; [reflexivity|].
  intros H. rewrite H. simpl. exact H.
Qed.

Lemma rstrip_end s : ends_with_space (XRef.rstrip s) = false.
Proof.
  induction s as [|c s IH]; [reflexivity|].
  cbn [XRef.rstrip]. cbv zeta.
  destruct (XRef.rstrip s) as [|c' t] eqn:E.
  - rewrite andb_true_r. destruct (XRef.isspace c) eqn:Ec; [reflexivity|].
    simpl. exact Ec.
  - rewrite andb_false_r. exact IH.
Qed.

Lemma rstrip_fixed s : ends_with_space s = false -> XRef.rstrip s = s.
Proof.
  induction s as [|c s IH]; [reflexivity|].
  intros H. cbn [XRef.rstrip]. cbv zeta. destruct s as [|c' t].
  - simpl in *. rewrite H. reflexivity.
  - rewrite IH by exact H. rewrite andb_false_r. reflexivity.
Qed.

Lemma strip_trimmed s :
  starts_with_space (XRef.strip s) = false
  /\ ends_with_space (XRef.strip s) = false
  /\ XRef.strip (XRef.strip s) = XRef.strip s.
Proof.
  assert (Hs : starts_with_space (XRef.strip s) = false)
    by (apply rstrip_start, lstrip_start).
  assert (He : ends_with_space (XRef.strip s) = false) by apply rstrip_end.
  split; [exact Hs|]. split; [exact He|].
  unfold XRef.strip at 1. rewrite (lstrip_fixed _ Hs). apply rstrip_fixed. exact He.
Qed.

Lemma lstrip_spaces w t : all_space w = true -> XRef.lstrip (w ++ t) = XRef.lstrip t.
Proof.
  induction w as [|c w IH]; [reflexivity|].
  cbn [all_space]. intros H. apply andb_true_iff in H. destruct H as [Hc Hw].
  simpl. rewrite Hc. apply IH. exact Hw.
Qed.

Lemma lstrip_all_space w : all_space w = true -> XRef.lstrip w = "".
Proof.
  induction w as [|c w IH]; [reflexivity|].
  cbn [all_space]. intros H. apply andb_true_iff in H. destruct H as [Hc Hw].
  simpl. rewrite Hc. apply IH. exact Hw.
Qed.

Lemma rstrip_all_space w : all_space w = true -> XRef.rstrip w = "".
Proof.
  induction w as [|c w IH]; [reflexivity|].
  cbn [all_space]. intros H. apply andb_true_iff in H. destruct H as [Hc Hw].
  cbn [XRef.rstrip]. cbv zeta. rewrite (IH Hw), Hc. reflexivity.
Qed.

Lemma rstrip_spaces s w : all_space w = true -> XRef.rstrip (s ++ w) = XRef.rstrip s.
Proof.
  intros Hw. induction s as [|c s IH].
  - simpl. apply rstrip_all_space. exact Hw.
  - cbn [append XRef.rstrip]. cbv zeta. rewrite IH. reflexivity.
Qed.

(** [strip] takes away the white space around a text and nothing else. *)
Lemma strip_spelling r :
  well_spelled r = true -> XRef.strip (spelling r) = core r.
Proof.
  unfold well_spelled, spelling. intros H.
  apply andb_true_iff in H. destruct H as [H Hend].
  apply andb_true_iff in H. destruct H as [H Hstart].
  apply andb_true_iff in H. destruct H as [Hlead Htrail].
  apply negb_true_iff in Hstart, Hend.
  unfold XRef.strip. rewrite (lstrip_spaces _ _ Hlead).
  destruct (core r) as [|c t] eqn:E.
  - simpl. rewrite (lstrip_all_space _ Htrail). reflexivity.
  - rewrite lstrip_fixed by (simpl in *; exact Hstart).
    rewrite (rstrip_spaces _ _ Htrail). apply rstrip_fixed. exact Hend.
Qed.

Lemma space_is_no_separator sep w :
  XRef.isspace sep = false -> all_space w = true -> Json.has_char sep w = false.
Proof.
  intros Hsep. induction w as [|c w IH]; [reflexivity|].
  cbn [all_space Json.has_char]. intros H.
  apply andb_true_iff in H. destruct H as [Hc Hw].
  rewrite (IH Hw), orb_false_r.
  destruct (Ascii.eqb sep c) eqn:E; [|reflexivity].
  apply Ascii.eqb_eq in E. subst c. congruence.
Qed.

Lemma has_char_append sep a b :
  Json.has_char sep (a ++ b) = Json.has_char sep a || Json.has_char sep b.
Proof.
  induction a as [|c a IH]; [reflexivity|].
  simpl. rewrite IH. apply orb_assoc.
Qed.

Lemma spelling_free sep r :
  XRef.isspace sep = false ->
  well_spelled r = true ->
  Json.has_char sep (core r) = false ->
  Json.has_char sep (spelling r) = false.
Proof.
  unfold well_spelled, spelling. intros Hsep H Hcore.
  apply andb_true_iff in H. destruct H as [H _].
  apply andb_true_iff in H. destruct H as [H _].
  apply andb_true_iff in H. destruct H as [Hlead Htrail].
  rewrite !has_char_append, Hcore.
  rewrite (space_is_no_separator _ _ Hsep Hlead).
  rewrite (space_is_no_separator _ _ Hsep Htrail). reflexivity.
Qed.

(** Splitting at [sep] undoes joining with [sep]. *)
Lemma split_join sep parts :
  parts <> [] ->
  Forall (fun p => Json.has_char sep p = false) parts ->
  XRef.split sep (Json.join (String sep "") parts) = parts.
Proof.
  induction parts as [|p rest IH]; [congruence|].
  intros _ Hall. inversion Hall as [|? ? Hp Hrest]; subst.
  destruct rest as [|q rest].
  - simpl. apply split_without_separator. exact Hp.
  - change (Json.join (String sep "") (p :: q :: rest))
      with (p ++ String sep (Json.join (String sep "") (q :: rest))).
    rewrite (split_at_separator sep p _ Hp). f_equal.
    apply IH; [discriminate | exact Hrest].
Qed.

Lemma join_free sep other parts :
  Ascii.eqb other sep = false ->
  Forall (fun p => Json.has_char other p = false) parts ->
  Json.has_char other (Json.join (String sep "") parts) = false.
Proof.
  intros Hne. induction parts as [|p rest IH]; [reflexivity|].
  intros Hall. inversion Hall as [|? ? Hp Hrest]; subst.
  destruct rest as [|q rest]; [exact Hp|].
  change (Json.join (String sep "") (p :: q :: rest))
    with (p ++ String sep (Json.join (String sep "") (q :: rest))).
  rewrite has_char_append, Hp. cbn [Json.has_char orb]. rewrite Hne.
  apply IH. exact Hrest.
Qed.

(** X15.  A reference is read without the white space around it, and
    otherwise as written.  For a line that names a dashboard (a name without
    a colon, kept as written, white space and all) and then, after the
    colon, one or more references separated by commas, each spelled with any
    white space before and after it (the line break at the end of the line
    included), the references read are exactly the spelled ones, in order:
    [x], [ x] and [x ] in a list all read as [x]. *)
Theorem references_are_trimmed :
  forall (d : string) (refs : list spelled),
    has_colon d = false ->
    refs <> [] ->
    forallb well_spelled refs = true ->
    forallb separator_free refs = true ->
    XRef.parse_line (d ++ String ":" (Json.join "," (map spelling refs)))
    = Ret (d, map core refs)
    /\ Forall (fun r => XRef.strip (spelling r) = core r) refs.
Proof.
  intros d refs Hd Hne Hwell Hfree.
  rewrite forallb_forall in Hwell, Hfree.
  assert (Hstrip : Forall (fun r => XRef.strip (spelling r) = core r) refs).
  { apply Forall_forall. intros r Hin. apply strip_spelling. auto. }
  split; [|exact Hstrip].
  assert (Hsep : forall sep, XRef.isspace sep = false ->
             (forall r, In r refs -> Json.has_char sep (core r) = false) ->
             Forall (fun p => Json.has_char sep p = false) (map spelling refs)).
  { intros sep Hs Hcore. apply Forall_forall. intros p Hin.
    apply in_map_iff in Hin. destruct Hin as [r [<- Hin]].
    apply spelling_free; auto. }
  assert (Hcomma : forall r, In r refs -> Json.has_char "," (core r) = false).
  { intros r Hin. specialize (Hfree r Hin). unfold separator_free in Hfree.
    apply andb_true_iff in Hfree. destruct Hfree as [H _].
    apply negb_true_iff in H. exact H. }
  assert (Hcolon : forall r, In r refs -> Json.has_char ":" (core r) = false).
  { intros r Hin. specialize (Hfree r Hin). unfold separator_free in Hfree.
    apply andb_true_iff in Hfree. destruct Hfree as [_ H].
    apply negb_true_iff in H. exact H. }
  unfold XRef.parse_line. unfold has_colon in Hd.
  rewrite (split_at_separator ":" d _ Hd).
  rewrite split_without_separator
    by (apply join_free; [reflexivity | apply Hsep; [reflexivity | exact Hcolon]]).
  cbn [XRef.index nth_error bind].
  rewrite split_join.
  - f_equal. f_equal. rewrite map_map. apply map_ext_in.
    intros r Hin. apply strip_spelling. auto.
  - destruct refs; [congruence | discriminate].
  - apply Hsep; [reflexivity | exact Hcomma].
Qed.

Lemma references_are_trimmed_witness :
  XRef.parse_line (" A :x,  x , y z" ++ String "010" "")
  = Ret (" A ", ["x"; "x"; "y z"])
  /\ Forall (fun r => XRef.strip (spelling r) = core r)
        [ {| lead := ""; core := "x"; trail := "" |};
          {| lead := "  "; core := "x"; trail := " " |};
          {| lead := " "; core := "y z"; trail := String "010" "" |} ].
Proof.
  apply (references_are_trimmed " A "
           [ {| lead := ""; core := "x"; trail := "" |};
             {| lead := "  "; core := "x"; trail := " " |};
             {| lead := " "; core := "y z"; trail := String "010" "" |} ]);
    try reflexivity.
  discriminate.
Defined.

(** ** The shape of the result *)

(** X16.  The result of a successful fetch has a fixed shape: the session
    has exactly the five keys [sessionId], [numTraces], [startTime],
    [endTime], [traces], in this order; every trace has exactly [traceId],
    [startTime], [endTime], [latencyMs], [spans]; every span has exactly
    the fourteen span keys.  No key of the response beyond those is copied
    and none is left out. *)
Theorem result_has_fixed_shape :
  forall (loads : string -> option json) (data session : json),
    session_of data = Some session ->
    session_ok session = true ->
    exists result,
      Phoenix.fetch_traces_payload loads data = Ret (Some result)
      /\ keys_of result = flat_session_keys
      /\ Forall (fun t =>
                   keys_of t = flat_trace_keys
                   /\ Forall (fun sp => keys_of sp = flat_span_keys)
                             (items_of t "spans"))
                (items_of result "traces").
Proof.
  intros loads data session Hs Hok.
  destruct (fetch_session_ok loads data session Hs Hok) as [traces [Hrun Hall]].
  exists (flat_session session traces).
  split; [exact Hrun|]. split; [reflexivity|].
  change (items_of (flat_session session traces) "traces") with traces.
  unfold session_ok in Hok.
  destruct (edges session "traces") as [l|] eqn:El;
    [|rewrite andb_false_r in Hok; discriminate].
  apply andb_true_iff in Hok. destruct Hok as [_ Hedges].
  rewrite forallb_forall in Hedges.
  assert (Hgen : forall l' ts,
             (forall te, In te l' -> trace_edge_ok te = true) ->
             Forall2 (fun te t => Phoenix.flatten_trace loads te = Ret t) l' ts ->
             Forall (fun t =>
                       keys_of t = flat_trace_keys
                       /\ Forall (fun sp => keys_of sp = flat_span_keys)
                                 (items_of t "spans")) ts).
  { intros l' ts Hl' H2. induction H2 as [|te t l'' ts' Hflat _ IH]; constructor.
    - pose proof (Hl' te (or_introl eq_refl)) as Hte.
      pose proof Hte as Hte'. unfold trace_edge_ok in Hte'.
      destruct (field te "node") as [trace|] eqn:Et; [|discriminate].
      destruct (flatten_trace_ok loads te trace Et Hte) as [spans [Hf Hspans]].
      rewrite Hf in Hflat. injection Hflat as <-.
      split; [reflexivity|].
      change (items_of (flat_trace trace spans) "spans") with spans.
      apply andb_true_iff in Hte'. destruct Hte' as [_ Hse].
      unfold span_edges in Hspans. rewrite Et in Hspans.
      destruct (edges trace "spans") as [sl|]; [|discriminate].
      rewrite forallb_forall in Hse.
      assert (Hsp : forall sl' sps,
                 (forall se, In se sl' -> span_edge_ok se = true) ->
                 Forall2 (fun se sp => Phoenix.flatten_span loads se = Ret sp) sl' sps ->
                 Forall (fun sp => keys_of sp = flat_span_keys) sps).
      { intros sl' sps Hsl' H3.
        induction H3 as [|se sp sl'' sps' Hsp _ IHs]; constructor.
        - pose proof (Hsl' se (or_introl eq_refl)) as Hok'.
          unfold span_edge_ok in Hok'.
          destruct (field se "node") as [span|] eqn:Es; [|discriminate].
          rewrite (flatten_span_ok loads se span Es Hok') in Hsp.
          injection Hsp as <-. reflexivity.
        - apply IHs. intros se' Hin. apply Hsl'. right. exact Hin. }
      apply (Hsp sl spans Hse Hspans).
    - apply IH. intros te' Hin. apply Hl'. right. exact Hin. }
  apply (Hgen l traces Hedges Hall).
Qed.

Lemma result_has_fixed_shape_witness :
  exists result,
    Phoenix.fetch_traces_payload Json.loads sample_data = Ret (Some result)
    /\ keys_of result = flat_session_keys
    /\ Forall (fun t =>
                 keys_of t = flat_trace_keys
                 /\ Forall (fun sp => keys_of sp = flat_span_keys)
                           (items_of t "spans"))
              (items_of result "traces").
Proof.
  apply (result_has_fixed_shape Json.loads sample_data sample_session);
    reflexivity.
Defined.

(** ** The report for a reference *)

(** X17.  For a reference that some line lists, [--reference] prints the
    dashboards that list it, in file order and once per occurrence, and an
    empty line.  When a dashboard unknown to the file is asked for in the
    same run, that list has already been printed when the [KeyError] for
    the dashboard ends the script. *)
Theorem reference_report_lists_users :
  forall (lines : list string) (entries : list entry) (r : string),
    parse_lines lines = Ret entries ->
    r <> "" ->
    0 < total_occurrences r entries ->
    exists t,
      XRef.build lines = Ret t
      /\ (forall out,
            XRef.report (ask_reference r) t out
            = ((out ++ [XRef.repr_list (usages r entries); ""])%list, Ret tt))
      /\ (forall d out,
            d <> "" -> ~ In d (map fst entries) ->
            XRef.report (ask_both r d) t out
            = ((out ++ [XRef.repr_list (usages r entries)])%list,
               Raise (KeyError d))).
Proof.
  intros lines entries r Hparse Hr Hpos.
  exists (fold_left XRef.record_entry entries ([], [])).
  split; [apply build_entries; exact Hparse|].
  assert (Hget : dict_get (snd (fold_left XRef.record_entry entries ([], []))) r
                 = Some (usages r entries)).
  { rewrite record_entries_references. rewrite <- usages_length in Hpos.
    destruct (usages r entries); [simpl in Hpos; lia | reflexivity]. }
  apply String.eqb_neq in Hr. split.
  - intros out. unfold XRef.report, ask_reference.
    cbn [XRef.reference XRef.dashboard XRef.all_dashboards XRef.given].
    rewrite Hr.
    unfold io_bind at 1. unfold io_bind at 1. unfold lift at 1.
    unfold XRef.lookup_key. rewrite Hget.
    unfold print at 1. unfold io_bind, io_ret, print.
    rewrite <- app_assoc. reflexivity.
  - intros d out Hd Hnot. unfold XRef.report, ask_both.
    cbn [XRef.reference XRef.dashboard XRef.all_dashboards XRef.given].
    apply String.eqb_neq in Hd. rewrite Hr, Hd.
    unfold io_bind at 1. unfold io_bind at 1. unfold lift at 1.
    unfold XRef.lookup_key at 1. rewrite Hget.
    unfold print at 1.
    unfold io_bind at 1. unfold io_bind at 1. unfold lift at 1.
    unfold XRef.lookup_key.
    rewrite (record_entries_keep_dashboard entries ([], []) d Hnot).
    reflexivity.
Qed.

Lemma reference_report_lists_users_witness :
  exists t,
    XRef.build (XRef.readlines xref_file) = Ret t
    /\ XRef.report (ask_reference "y") t [] = (["['A', 'B']"; ""], Ret tt)
    /\ XRef.report (ask_both "y" "C") t [] = (["['A', 'B']"], Raise (KeyError "C")).
Proof.
  destruct (reference_report_lists_users (XRef.readlines xref_file)
              [("A", ["x"; "y"]); ("B", ["y"])] "y")
    as [t [Hbuild [Href Hboth]]].
  - vm_compute. reflexivity.
  - discriminate.
  - vm_compute. lia.
  - exists t. split; [exact Hbuild|]. split.
    + rewrite Href. vm_compute. reflexivity.
    + rewrite Hboth; [vm_compute; reflexivity | discriminate |].
      simpl. intros [H | [H | []]]; discriminate.
Defined.
